(** * ts2c: the Transpiler (src/transpile.ts)

    A shallow embedding of [Transpiler], the recursive AST walker that emits
    C for statements and expressions, together with the properties of its
    dispatch table that the specification states.

    The walker threads three pieces of mutable state: the [Emitter]'s text
    buffers, the list of recorded errors and the TypeHelper's registry.  They
    are passed explicitly; a JavaScript [TypeError] raised on the way is the
    [Throw] outcome of an action. *)

From Stdlib Require Import String Ascii List ZArith Bool Lia DecimalString.
Import ListNotations.
Local Open Scope list_scope.
Local Open Scope string_scope.

Set Implicit Arguments.

(** ** JavaScript strings *)

Module JsString.

Definition nl : string := String "010"%char EmptyString.
Definition dquote : string := String "034"%char EmptyString.

(** An integral JavaScript number converted to a string (by adding the
    empty string to it): its decimal digits. *)
Definition ofNumber (n : Z) : string := NilZero.string_of_int (Z.to_int n).

Fixpoint lastChar (s : string) : option ascii :=
  match s with
  | EmptyString => None
  | String c EmptyString => Some c
  | String _ s' => lastChar s'
  end.

(** [s] minus the suffix [suf], when [s] ends with it. *)
Fixpoint stripSuffix (suf s : string) : option string :=
  if String.eqb s suf then Some EmptyString
  else match s with
       | EmptyString => None
       | String c s' =>
           match stripSuffix suf s' with
           | Some r => Some (String c r)
           | None => None
           end
       end.

(** [replace] with the pattern: a semicolon and a newline at the very end
    of the text; the replacement is empty. *)
Definition replaceTrailingSemicolonNewline (s : string) : string :=
  match stripSuffix (";" ++ nl) s with
  | Some r => r
  | None => s
  end.

Fixpoint drop (n : nat) (s : string) : string :=
  match n, s with
  | O, _ => s
  | S n', String _ s' => drop n' s'
  | S _, EmptyString => EmptyString
  end.

(** The text before and after the first occurrence of [pat] in [s]. *)
Fixpoint splitAtFirst (pat s : string) : option (string * string) :=
  if String.prefix pat s then Some (EmptyString, drop (String.length pat) s)
  else match s with
       | EmptyString => None
       | String c s' =>
           match splitAtFirst pat s' with
           | Some (a, b) => Some (String c a, b)
           | None => None
           end
       end.

(** [s.indexOf(pat) != -1] *)
Definition includes (pat s : string) : bool :=
  match splitAtFirst pat s with Some _ => true | None => false end.

(** The replacement text of [String.prototype.replace] for a string
    pattern: [$$], [$&], [$`] and [$'] are expanded, everything else is
    literal (a string pattern has no capture groups). *)
Fixpoint getSubstitution (matched before after repl : string) : string :=
  match repl with
  | EmptyString => EmptyString
  | String c tl =>
      match tl with
      | String d rest =>
          if Ascii.eqb c "$" then
            if Ascii.eqb d "$" then String "$" (getSubstitution matched before after rest)
            else if Ascii.eqb d "&" then matched ++ getSubstitution matched before after rest
            else if Ascii.eqb d "`" then before ++ getSubstitution matched before after rest
            else if Ascii.eqb d "'" then after ++ getSubstitution matched before after rest
            else String c (getSubstitution matched before after tl)
          else String c (getSubstitution matched before after tl)
      | EmptyString => String c EmptyString
      end
  end.

(** [s.replace(pat, repl)] with a string pattern: first occurrence only. *)
Definition replace (pat repl s : string) : string :=
  match splitAtFirst pat s with
  | None => s
  | Some (before, after) => before ++ getSubstitution pat before after repl ++ after
  end.

(** [s.slice(1, -1)] *)
Definition slice_1_m1 (s : string) : string :=
  String.substring 1 (String.length s - 2) s.

(** [replace] with the global pattern matching every double quote and the
    replacement backslash, double quote. *)
Fixpoint escapeDoubleQuotes (s : string) : string :=
  match s with
  | EmptyString => EmptyString
  | String c s' =>
      if Ascii.eqb c "034" then String "092" (String c (escapeDoubleQuotes s'))
      else String c (escapeDoubleQuotes s')
  end.

(** [replace] with the global pattern: one character other than a
    backslash (captured), a backslash, a single quote; the replacement is the
    captured character and a single quote.  Matches are found left to
    right and do not overlap. *)
Fixpoint unescapeSingleQuotes (s : string) : string :=
  match s with
  | EmptyString => EmptyString
  | String c tl =>
      match tl with
      | String b (String q rest) =>
          if negb (Ascii.eqb c "092") && Ascii.eqb b "092" && Ascii.eqb q "'"
          then String c (String "'" (unescapeSingleQuotes rest))
          else String c (unescapeSingleQuotes tl)
      | _ => String c (unescapeSingleQuotes tl)
      end
  end.

(** [l.join(sep)] *)
Definition join (sep : string) (l : list string) : string := String.concat sep l.

Fixpoint spaces (n : nat) : string :=
  match n with
  | O => EmptyString
  | S n' => String " " (spaces n')
  end.

End JsString.

(** ** The Emitter *)

Module Emitter.
Import JsString.

Inductive HeaderKey : Set :=
| stdioh | stdlibh | stringh | asserth | bool | js_eq | array | array_pop.

Definition HeaderKey_eqb (a b : HeaderKey) : Datatypes.bool :=
  match a, b with
  | stdioh, stdioh | stdlibh, stdlibh | stringh, stringh | asserth, asserth
  | bool, bool | js_eq, js_eq | array, array | array_pop, array_pop => true
  | _, _ => false
  end.

Definition allHeaderKeys : list HeaderKey :=
  [stdioh; stdlibh; stringh; asserth; bool; js_eq; array; array_pop].

Inductive EmitTarget : Set :=
| globals | functionPrologue | functionBody | functionEpilogue.

(** Modelled from the spec: the text buffers of emit.ts, which is not part
    of the sources (4.3, Targets): one buffer per target; the header set is
    kept apart. *)
Record Buffers : Set := mkBuffers {
  b_globals : string;
  b_prologue : string;
  b_body : string;
  b_epilogue : string
}.

Definition getBuffer (b : Buffers) (t : EmitTarget) : string :=
  match t with
  | globals => b_globals b
  | functionPrologue => b_prologue b
  | functionBody => b_body b
  | functionEpilogue => b_epilogue b
  end.

Definition setBuffer (b : Buffers) (t : EmitTarget) (s : string) : Buffers :=
  match t with
  | globals => mkBuffers s (b_prologue b) (b_body b) (b_epilogue b)
  | functionPrologue => mkBuffers (b_globals b) s (b_body b) (b_epilogue b)
  | functionBody => mkBuffers (b_globals b) (b_prologue b) s (b_epilogue b)
  | functionEpilogue => mkBuffers (b_globals b) (b_prologue b) (b_body b) s
  end.

(** What [beginFunction] sets aside of the function being assembled around
    the new one. *)
Record Frame : Set := mkFrame {
  f_prologue : string;
  f_body : string;
  f_epilogue : string;
  f_once : list string;
  f_target : EmitTarget
}.

(** Modelled from the spec: the Emitter of emit.ts, which is not part of
    the sources (4.3).  [transpiledCode] and [defaultTarget] are the two
    fields transpile.ts reads and writes directly; [indent] counts spaces. *)
Record t : Set := mk {
  headers : list HeaderKey;
  transpiledCode : Buffers;
  defaultTarget : EmitTarget;
  indent : nat;
  once : list string;
  outer : list Frame
}.

Definition empty : t :=
  mk [] (mkBuffers EmptyString EmptyString EmptyString EmptyString) globals 0 [] [].

Definition atLineStart (buf : string) : Datatypes.bool :=
  match lastChar buf with
  | None => true
  | Some c => Ascii.eqb c "010"
  end.

Definition setCode (e : t) (target : EmitTarget) (s : string) : t :=
  mk (headers e) (setBuffer (transpiledCode e) target s) (defaultTarget e)
     (indent e) (once e) (outer e).

(** The indentation [emit] puts in front of text that starts a line. *)
Definition linePrefix (e : t) : string :=
  if atLineStart (getBuffer (transpiledCode e) (defaultTarget e))
  then spaces (indent e) else EmptyString.

(** Modelled from the spec: [emit(text)] appends to the current target,
    prefixed by the current indentation on new lines. *)
Definition emit (text : string) (e : t) : t :=
  setCode e (defaultTarget e)
    (getBuffer (transpiledCode e) (defaultTarget e) ++ linePrefix e ++ text).

(** Modelled from the spec: [emitToBeginningOfFunction(text)] appends to
    the prologue of the function currently being assembled. *)
Definition emitToBeginningOfFunction (text : string) (e : t) : t :=
  setCode e functionPrologue (b_prologue (transpiledCode e) ++ text).

(** Modelled from the spec: [emitOnceToBeginningOfFunction(text)] does the
    same, but suppresses duplicates, keyed by the exact text. *)
Definition emitOnceToBeginningOfFunction (text : string) (e : t) : t :=
  if existsb (String.eqb text) (once e) then e
  else
    let e' := emitToBeginningOfFunction text e in
    mk (headers e') (transpiledCode e') (defaultTarget e') (indent e')
       (once e ++ [text])%list (outer e').

(** Modelled from the spec: [emitPredefinedHeader(key)] adds a header to
    the header set. *)
Definition emitPredefinedHeader (key : HeaderKey) (e : t) : t :=
  if existsb (HeaderKey_eqb key) (headers e) then e
  else mk (headers e ++ [key])%list (transpiledCode e) (defaultTarget e)
          (indent e) (once e) (outer e).

(** Modelled from the spec: indentation moves by two spaces and is never
    negative. *)
Definition increaseIndent (e : t) : t :=
  mk (headers e) (transpiledCode e) (defaultTarget e) (indent e + 2) (once e) (outer e).

Definition decreaseIndent (e : t) : t :=
  mk (headers e) (transpiledCode e) (defaultTarget e) (indent e - 2) (once e) (outer e).

(** Modelled from the spec: [beginFunction] opens a function's isolated
    target set; what is emitted before [beginFunctionBody] (the signature
    and the opening brace) starts the prologue. *)
Definition beginFunction (e : t) : t :=
  let b := transpiledCode e in
  mk (headers e)
     (mkBuffers (b_globals b) EmptyString EmptyString EmptyString)
     functionPrologue (indent e) []
     (mkFrame (b_prologue b) (b_body b) (b_epilogue b) (once e) (defaultTarget e)
        :: outer e).

Definition beginFunctionBody (e : t) : t :=
  mk (headers e) (transpiledCode e) functionBody (indent e) (once e) (outer e).

(** Modelled from the spec: after [finalizeFunction] the prologue, body and
    epilogue are concatenated and appended to globals; the target set of
    the function around it, if any, is current again. *)
Definition finalizeFunction (e : t) : t :=
  let b := transpiledCode e in
  let g := b_globals b ++ b_prologue b ++ b_body b ++ b_epilogue b in
  match outer e with
  | [] =>
      mk (headers e) (mkBuffers g EmptyString EmptyString EmptyString)
         globals (indent e) [] []
  | f :: rest =>
      mk (headers e) (mkBuffers g (f_prologue f) (f_body f) (f_epilogue f))
         (f_target f) (indent e) (f_once f) rest
  end.

(** Modelled from the spec: [finalize] concatenates the sorted, deduplicated
    headers and the contents of globals, and ends with a newline.  The text
    of each predefined header is a table of emit.ts. *)
Definition finalize (predefinedHeaders : HeaderKey -> string) (e : t) : string :=
  String.concat EmptyString
    (map predefinedHeaders
       (filter (fun k => existsb (HeaderKey_eqb k) (headers e)) allHeaderKeys))
  ++ b_globals (transpiledCode e) ++ nl.

(** Lines 170-171 of transpile.ts: the text of the default target loses a
    trailing semicolon-newline. *)
Definition stripTrailingSemicolon (e : t) : t :=
  setCode e (defaultTarget e)
    (replaceTrailingSemicolonNewline (getBuffer (transpiledCode e) (defaultTarget e))).

End Emitter.

(** ** The AST of the input language

    The AST comes from the TypeScript compiler; a node carries the fields
    that transpile.ts reads. *)

Module SyntaxKind.

Inductive t : Set :=
| FunctionDeclaration | VariableStatement | VariableDeclarationList
| VariableDeclaration | Block | IfStatement | ForStatement | ForOfStatement
| ForInStatement | WhileStatement | DoStatement | ReturnStatement
| ExpressionStatement | CallExpression | PropertyAccessExpression
| ElementAccessExpression | BinaryExpression | PrefixUnaryExpression
| PostfixUnaryExpression | TrueKeyword | FalseKeyword | NullKeyword
| NumericLiteral | StringLiteral | Identifier | SourceFile | SyntaxList
| EndOfFileToken | SemicolonToken | ObjectLiteralExpression
| ArrayLiteralExpression | PropertyAssignment | ParenthesizedExpression
| OpenBraceToken | CloseBraceToken
| EqualsEqualsToken | EqualsToken | EqualsEqualsEqualsToken
| GreaterThanEqualsToken | GreaterThanToken | LessThanEqualsToken
| LessThanToken | PlusToken | MinusToken | AsteriskToken | SlashToken
| ExclamationToken | MinusMinusToken | PlusPlusToken
| Other (code : nat).

Definition eq_dec (a b : t) : {a = b} + {a <> b}.
Proof. decide equality. apply Nat.eq_dec. Defined.

Definition eqb (a b : t) : bool := if eq_dec a b then true else false.

End SyntaxKind.

(** An operator token: its kind and its source text. *)
Record Token : Set := mkToken {
  tk_kind : SyntaxKind.t;
  tk_getText : string
}.

Scheme All for list.
Scheme All for option.
Scheme All for prod.

(** [text] fields hold what [getText()] returns where transpile.ts asks a
    compound node for it; names are the text of the name identifier;
    [declarations] lists hold [VariableDeclaration] nodes, as the AST
    provider types them.

    A function declaration has no name when it is anonymous
    ([export default function () {}]) and no body when it is an overload
    signature.  A property of an object literal is given by the text of its
    name and by its initializer: a spread element has no name, a shorthand
    property ([{x}]), a method and an accessor have no initializer.  A
    parenthesized expression stands for the kinds without a case in the
    walker that have children. *)
Inductive node : Set :=
| FunctionDeclaration (name : option string) (body : option (list node))
| VariableStatement (declarations : list node)
| VariableDeclarationList (declarations : list node)
| VariableDeclaration (name : string) (text : string) (initializer : option node)
| Block (statements : list node)
| IfStatement (expression thenStatement : node) (elseStatement : option node)
| ForStatement (initializer condition incrementor : option node) (statement : node)
| ForOfStatement (text : string) (initializer expression statement : node)
| ForInStatement
| WhileStatement (expression statement : node)
| DoStatement (statement expression : node)
| ReturnStatement (expression : option node)
| ExpressionStatement (expression : node)
| CallExpression (expression : node) (arguments : list node)
| PropertyAccessExpression (expression : node) (name : string)
| ElementAccessExpression (expression argumentExpression : node)
| BinaryExpression (left : node) (operatorToken : Token) (right : node)
| PrefixUnaryExpression (operator : SyntaxKind.t) (operand : node)
| PostfixUnaryExpression (operand : node) (operator : SyntaxKind.t)
| TrueKeyword
| FalseKeyword
| NullKeyword
| NumericLiteral (text : string)
| StringLiteral (text : string)
| Identifier (text : string)
| SourceFile (statements : list node)
| SyntaxList (children : list node)
| EndOfFileToken
| SemicolonToken
| ObjectLiteralExpression (properties : list (option string * option node))
| ArrayLiteralExpression (elements : list node)
| ParenthesizedExpression (expression : node)
| OtherNode (kind : SyntaxKind.t).

Definition kind (n : node) : SyntaxKind.t :=
  match n with
  | FunctionDeclaration _ _ => SyntaxKind.FunctionDeclaration
  | VariableStatement _ => SyntaxKind.VariableStatement
  | VariableDeclarationList _ => SyntaxKind.VariableDeclarationList
  | VariableDeclaration _ _ _ => SyntaxKind.VariableDeclaration
  | Block _ => SyntaxKind.Block
  | IfStatement _ _ _ => SyntaxKind.IfStatement
  | ForStatement _ _ _ _ => SyntaxKind.ForStatement
  | ForOfStatement _ _ _ _ => SyntaxKind.ForOfStatement
  | ForInStatement => SyntaxKind.ForInStatement
  | WhileStatement _ _ => SyntaxKind.WhileStatement
  | DoStatement _ _ => SyntaxKind.DoStatement
  | ReturnStatement _ => SyntaxKind.ReturnStatement
  | ExpressionStatement _ => SyntaxKind.ExpressionStatement
  | CallExpression _ _ => SyntaxKind.CallExpression
  | PropertyAccessExpression _ _ => SyntaxKind.PropertyAccessExpression
  | ElementAccessExpression _ _ => SyntaxKind.ElementAccessExpression
  | BinaryExpression _ _ _ => SyntaxKind.BinaryExpression
  | PrefixUnaryExpression _ _ => SyntaxKind.PrefixUnaryExpression
  | PostfixUnaryExpression _ _ => SyntaxKind.PostfixUnaryExpression
  | TrueKeyword => SyntaxKind.TrueKeyword
  | FalseKeyword => SyntaxKind.FalseKeyword
  | NullKeyword => SyntaxKind.NullKeyword
  | NumericLiteral _ => SyntaxKind.NumericLiteral
  | StringLiteral _ => SyntaxKind.StringLiteral
  | Identifier _ => SyntaxKind.Identifier
  | SourceFile _ => SyntaxKind.SourceFile
  | SyntaxList _ => SyntaxKind.SyntaxList
  | EndOfFileToken => SyntaxKind.EndOfFileToken
  | SemicolonToken => SyntaxKind.SemicolonToken
  | ObjectLiteralExpression _ => SyntaxKind.ObjectLiteralExpression
  | ArrayLiteralExpression _ => SyntaxKind.ArrayLiteralExpression
  | ParenthesizedExpression _ => SyntaxKind.ParenthesizedExpression
  | OtherNode k => k
  end.

(** [node.getChildren()] on the kinds whose case iterates over it: the
    punctuation tokens are children too, and lists of nodes come wrapped in a
    SyntaxList. *)
Definition getChildren (n : node) : list node :=
  match n with
  | Block statements =>
      [OtherNode SyntaxKind.OpenBraceToken; SyntaxList statements;
       OtherNode SyntaxKind.CloseBraceToken]
  | ExpressionStatement expression => [expression; SemicolonToken]
  | SourceFile statements => [SyntaxList statements; EndOfFileToken]
  | SyntaxList children => children
  | _ => []
  end.

(** The property [name: initializer] of an object literal. *)
Definition propertyAssignment (q : string * node) : option string * option node :=
  (Some (fst q), Some (snd q)).

(** ** Types and variables (types.ts) *)

Inductive PrimitiveKind : Set := int16_t | char_ptr | uint8_t | void_ptr.

(** Modelled from the spec: the semantic C types of types.ts, which is not
    part of the sources (3, CType). *)
Inductive CType : Set :=
| Primitive (k : PrimitiveKind)
| Struct (name : string) (fields : list (string * CType))
| Array (element : CType) (capacity : Z) (dynamic : bool)
| Pointer (to : CType).

(** [t == 'char *'] and [t == 'int16_t'] *)
Definition isCharPtr (t : CType) : bool :=
  match t with Primitive char_ptr => true | _ => false end.

Definition isInt16 (t : CType) : bool :=
  match t with Primitive int16_t => true | _ => false end.

(** [t instanceof ArrayType] *)
Definition isArrayType (t : CType) : bool :=
  match t with Array _ _ _ => true | _ => false end.

(** The capacity field of a type cast to ArrayType, converted to a string:
    only an ArrayType has the field. *)
Definition capacityString (t : CType) : string :=
  match t with
  | Array _ capacity _ => JsString.ofNumber capacity
  | _ => "undefined"
  end.

(** Modelled from the spec: the VariableInfo of types.ts (3, VariableInfo);
    of the declaration site, transpile.ts reads the position only. *)
Record VariableInfo : Set := mkVariableInfo {
  vi_name : string;
  declaration_pos : Z;
  vi_type : CType;
  requiresAllocation : bool;
  isDynamicArray : bool;
  escapes : bool
}.

(** ** The collaborators of the Transpiler

    global.ts, types.ts, memory.ts and printf.ts are not part of the sources:
    the Transpiler is parameterised by what it calls of them.  [TH] is the
    TypeHelper's registry, [tsType] a type of the input language as its type
    checker answers it. *)

Record Symbol (tsType : Type) : Type := mkSymbol {
  getName : string;
  valueDeclaration_name : node;
  declaredType : tsType
}.

Record Signature (tsType : Type) : Type := mkSignature {
  getReturnType : tsType;
  parameters : list (Symbol tsType)
}.

(** [GlobalContext.typeChecker] *)
Record TypeChecker (tsType : Type) : Type := mkTypeChecker {
  getSignatureFromDeclaration : node -> Signature tsType;
  getTypeOfSymbolAtLocation : Symbol tsType -> tsType;
  getTypeAtLocation : node -> tsType
}.

Record TypeHelper (TH tsType : Type) : Type := mkTypeHelper {
  figureOutVariablesAndTypes : node -> Emitter.t -> TH * Emitter.t;
  convertType : TH -> tsType -> option node -> CType;
  getTypeString : TH -> CType -> string;
  getVariableInfo : TH -> node -> option VariableInfo;
  addNewIteratorVariable : node -> TH -> string * TH
}.

(** The MemoryManager reads the registry and writes to the Emitter; it never
    fails (4.2). *)
Record MemoryManager (TH : Type) : Type := mkMemoryManager {
  preprocess : TH -> TH;
  insertGCVariablesCreationIfNecessary : TH -> option node -> Emitter.t -> Emitter.t;
  insertGlobalPointerIfNecessary : TH -> node -> Z -> string -> Emitter.t -> Emitter.t;
  insertDestructorsIfNecessary : TH -> node -> Emitter.t -> Emitter.t
}.

(** ** The state of a translation and its actions *)

Inductive JsError : Set := TypeError.

Inductive Res (A : Type) : Type :=
| Ok (a : A)
| Throw (e : JsError).
Arguments Throw {A} e.

Record State (TH : Type) : Type := mkState {
  emitter : Emitter.t;
  errors : list string;
  typeHelperState : TH
}.

Section Actions.
Variable TH : Type.

Definition Action : Type := State TH -> Res (State TH).

Definition skip : Action := fun st => Ok st.

Definition throw (e : JsError) : Action := fun _ => Throw e.

Definition andThen (a b : Action) : Action :=
  fun st => match a st with
            | Ok st' => b st'
            | Throw e => Throw e
            end.

Definition onEmitter (f : Emitter.t -> Emitter.t) : Action :=
  fun st => Ok (mkState (f (emitter st)) (errors st) (typeHelperState st)).

Definition withTypeHelper (k : TH -> Action) : Action :=
  fun st => k (typeHelperState st) st.

(** Transpiler.addError, lines 575-577 *)
Definition addError (error : string) : Action :=
  fun st => Ok (mkState (emitter st) (errors st ++ [error])%list (typeHelperState st)).

(** [l.forEach(f)] *)
Definition forEach (A : Type) (f : A -> Action) : list A -> Action :=
  fix go (l : list A) : Action :=
    match l with
    | [] => skip
    | x :: l' => andThen (f x) (go l')
    end.

(** [l[l.length - 1]] *)
Definition lastElement (A : Type) (l : list A) : option A :=
  nth_error l (length l - 1).

End Actions.

Arguments skip {TH}.
Arguments throw {TH} e.
Arguments onEmitter {TH} f.
Arguments addError {TH} error.

Declare Scope action_scope.
Delimit Scope action_scope with action.
Bind Scope action_scope with Action.
Notation "a ;; b" := (andThen a b) (at level 61, right associativity) : action_scope.
Local Open Scope action_scope.

Definition emit {TH : Type} (text : string) : Action TH :=
  onEmitter (Emitter.emit text).

Definition emitPredefinedHeader {TH : Type} (key : Emitter.HeaderKey) : Action TH :=
  onEmitter (Emitter.emitPredefinedHeader key).

Definition increaseIndent {TH : Type} : Action TH := onEmitter Emitter.increaseIndent.
Definition decreaseIndent {TH : Type} : Action TH := onEmitter Emitter.decreaseIndent.

(** ** The Transpiler (src/transpile.ts) *)

(** Transpiler.convertString, lines 568-573 *)
Definition convertString (tsString : string) : string :=
  if String.prefix "'" tsString then
    JsString.dquote
    ++ JsString.slice_1_m1
         (JsString.unescapeSingleQuotes (JsString.escapeDoubleQuotes tsString))
    ++ JsString.dquote
  else tsString.

Section Transpiler.
Import JsString.

Variables TH tsType : Type.
Variable typeChecker : TypeChecker tsType.
Variable typeHelper : TypeHelper TH tsType.
Variable memoryManager : MemoryManager TH.
(** [printfTranspiler.transpile(argument)], with the callbacks it was
    constructed with *)
Variable printfTranspiler : node -> Action TH.
(** [ts.SyntaxKind[kind]], the name of a kind *)
Variable SyntaxKindName : SyntaxKind.t -> string.
(** the table of predefined headers of emit.ts *)
Variable predefinedHeaders : Emitter.HeaderKey -> string.

Abbreviation Action := (Action TH).

Definition typeOf (th : TH) (n : node) : CType :=
  convertType typeHelper th (getTypeAtLocation typeChecker n) None.

Definition insertDestructors (scope : node) : Action :=
  withTypeHelper (fun th =>
    onEmitter (insertDestructorsIfNecessary memoryManager th scope)).

Definition insertGlobalPointer (decl : node) (pos : Z) (expression : string) : Action :=
  withTypeHelper (fun th =>
    onEmitter (insertGlobalPointerIfNecessary memoryManager th decl pos expression)).

Definition insertGCVariables (scope : option node) : Action :=
  withTypeHelper (fun th =>
    onEmitter (insertGCVariablesCreationIfNecessary memoryManager th scope)).

(** The default case of transpileNode, lines 501-503 *)
Definition unsupportedNode (k : SyntaxKind.t) : Action :=
  addError ("Non-supported node: " ++ SyntaxKindName k).

(** Transpiler.convertOperatorToken, lines 529-557 *)
Definition convertOperatorToken (token : Token) (st : State TH) : string * State TH :=
  match tk_kind token with
  | SyntaxKind.GreaterThanEqualsToken => (" >= ", st)
  | SyntaxKind.GreaterThanToken => (" > ", st)
  | SyntaxKind.LessThanEqualsToken => (" <= ", st)
  | SyntaxKind.LessThanToken => (" < ", st)
  | SyntaxKind.EqualsEqualsEqualsToken => (" == ", st)
  | SyntaxKind.EqualsEqualsToken => (" == ", st)
  | SyntaxKind.PlusToken => (" + ", st)
  | SyntaxKind.MinusToken => (" - ", st)
  | SyntaxKind.AsteriskToken => (" * ", st)
  | SyntaxKind.SlashToken => (" / ", st)
  | SyntaxKind.EqualsToken => (" = ", st)
  | _ =>
      ("<unsupported operator>",
       mkState (emitter st)
               (errors st ++ [("Unsupported operator: " ++ tk_getText token)%string])%list
               (typeHelperState st))
  end.

(** [this.emitter.emit(this.convertOperatorToken(token))] *)
Definition emitOperatorToken (token : Token) : Action :=
  fun st => let (s, st') := convertOperatorToken token st in emit s st'.

(** The parameter list of a function declaration, lines 40-48 *)
Definition parameterCode (th : TH) (param : Symbol tsType) : string :=
  getTypeString typeHelper th
    (convertType typeHelper th (getTypeOfSymbolAtLocation typeChecker param)
       (Some (valueDeclaration_name param)))
  ++ " " ++ getName param.

(** The prologue declaration of a variable, lines 75-82 *)
Definition declareVariable (th : TH) (name : string) (varInfo : option VariableInfo) : Action :=
  let cTypeString :=
    match varInfo with
    | Some vi =>
        let s := getTypeString typeHelper th (vi_type vi) in
        if String.eqb s EmptyString then "void *" else s
    | None => "void *"
    end in
  (if includes "{var}" cTypeString
   then onEmitter (Emitter.emitToBeginningOfFunction (replace "{var}" name cTypeString))
   else onEmitter (Emitter.emitToBeginningOfFunction (cTypeString ++ " " ++ name))) ;;
  onEmitter (Emitter.emitToBeginningOfFunction (";" ++ nl)).

(** The allocation of a declared variable, lines 84-101 *)
Definition allocateVariable (decl : node) (vi : VariableInfo) : Action :=
  if requiresAllocation vi then
    match vi_type vi with
    | Array _ capacity _ =>
        let optimizedCap := Z.max (capacity * 2) 4 in
        emit ("ARRAY_CREATE(" ++ vi_name vi ++ ", " ++ ofNumber optimizedCap ++ ", "
              ++ ofNumber capacity ++ ");" ++ nl) ;;
        emitPredefinedHeader Emitter.asserth ;;
        emitPredefinedHeader Emitter.stdlibh ;;
        insertGlobalPointer decl (declaration_pos vi) (vi_name vi ++ ".data")
    | _ =>
        emit (vi_name vi) ;;
        emit " = " ;;
        emit ("malloc(sizeof(*" ++ vi_name vi ++ "));" ++ nl) ;;
        emit ("assert(" ++ vi_name vi ++ " != NULL);" ++ nl) ;;
        emitPredefinedHeader Emitter.asserth ;;
        emitPredefinedHeader Emitter.stdlibh ;;
        insertGlobalPointer decl (declaration_pos vi) (vi_name vi)
    end
  else skip.

(** Transpiler.transpileObjectLiteralAssignment, lines 508-517, over the
    walker [transpileNode] it calls back *)
Definition transpileObjectLiteralAssignmentWith (transpileNode : node -> Action)
    (varString : string) (properties : list (option string * option node)) : Action :=
  forEach (fun propAssign : option string * option node =>
             emit (varString ++ "->") ;;
             match fst propAssign with
             | Some name => emit name
             | None => throw TypeError
             end ;;
             emit " = " ;;
             match snd propAssign with
             | Some initializer => transpileNode initializer
             | None => throw TypeError
             end ;;
             emit (";" ++ nl))
          properties.

(** Transpiler.transpileArrayLiteralAssignment, lines 519-527 *)
Definition transpileArrayLiteralAssignmentWith (transpileNode : node -> Action)
    (varString : string) : Z -> list node -> Action :=
  fix go (i : Z) (elements : list node) : Action :=
    match elements with
    | [] => skip
    | element :: rest =>
        emit varString ;;
        emit ("[" ++ ofNumber i ++ "]") ;;
        emit " = " ;;
        transpileNode element ;;
        emit (";" ++ nl) ;;
        go (i + 1)%Z rest
    end.

(** Transpiler.transpileStringExpression, lines 559-566 *)
Definition transpileStringExpressionWith (transpileNode : node -> Action)
    (tsNode : node) : Action :=
  match tsNode with
  | Identifier text => emit text
  | _ => emit "(" ;; transpileNode tsNode ;; emit ")"
  end.

(** The arguments of a call that is not replaced, lines 319-323 *)
Definition transpileArgumentsWith (transpileNode : node -> Action) : list node -> Action :=
  fix go (args : list node) : Action :=
    match args with
    | [] => skip
    | [a] => transpileNode a
    | a :: rest => transpileNode a ;; emit ", " ;; go rest
    end.

(** The body of a loop, lines 182-185, 214-217, 234-237 and 247-250 *)
Definition transpileLoopBodyWith (transpileNode : option SyntaxKind.t -> node -> Action)
    (loop : SyntaxKind.t) (statement : node) : Action :=
  match statement with
  | Block statements => forEach (transpileNode (Some SyntaxKind.Block)) statements
  | _ => transpileNode (Some loop) statement
  end.

Definition optional (A : Type) (f : A -> Action) (o : option A) : Action :=
  match o with
  | Some a => f a
  | None => skip
  end.

(** A for statement after its initializer, lines 173-187 *)
Definition transpileForTailWith (transpileNode : option SyntaxKind.t -> node -> Action)
    (condition incrementor : option node) (statement : node) : Action :=
  emit ";" ;;
  optional (transpileNode (Some SyntaxKind.ForStatement)) condition ;;
  emit ";" ;;
  optional (transpileNode (Some SyntaxKind.ForStatement)) incrementor ;;
  emit (")" ++ nl) ;;
  emit ("{" ++ nl) ;;
  increaseIndent ;;
  transpileLoopBodyWith transpileNode SyntaxKind.ForStatement statement ;;
  decreaseIndent ;;
  emit ("}" ++ nl).

(** The assignment of the initializer of a declared variable, lines
    102-116 *)
Definition transpileInitializerWith (transpileNode : option SyntaxKind.t -> node -> Action)
    (name : string) (vi : VariableInfo) (initializer : option node) : Action :=
  match initializer with
  | None => skip
  | Some (ObjectLiteralExpression properties) =>
      transpileObjectLiteralAssignmentWith
        (transpileNode (Some SyntaxKind.PropertyAssignment)) name properties
  | Some (ArrayLiteralExpression elements) =>
      let varString :=
        if isDynamicArray vi then vi_name vi ++ ".data" else vi_name vi in
      transpileArrayLiteralAssignmentWith
        (transpileNode (Some SyntaxKind.ArrayLiteralExpression)) varString 0%Z elements
  | Some init =>
      emit name ;;
      emit " = " ;;
      transpileNode (Some SyntaxKind.VariableDeclaration) init ;;
      emit (";" ++ nl)
  end.

(** The declaration list of a for initializer, lines 155-172: all
    declarations but the last are transpiled on their own; the last one goes
    before the loop or into its header. *)
Definition transpileForDeclarationsWith (transpileNode : option SyntaxKind.t -> node -> Action)
    (afterInitializer : Action) : list node -> Action :=
  fix hoist (l : list node) : Action :=
    match l with
    | [] => throw TypeError
    | [lastChild] =>
        match lastChild with
        | VariableDeclaration name _ _ =>
            withTypeHelper (fun th =>
              match getVariableInfo typeHelper th (Identifier name) with
              | None => throw TypeError
              | Some lastChildVarInfo =>
                  if requiresAllocation lastChildVarInfo then
                    transpileNode (Some SyntaxKind.VariableDeclarationList) lastChild ;;
                    emit "for (" ;;
                    afterInitializer
                  else
                    emit "for (" ;;
                    transpileNode (Some SyntaxKind.VariableDeclarationList) lastChild ;;
                    onEmitter Emitter.stripTrailingSemicolon ;;
                    afterInitializer
              end)
        | _ => throw TypeError
        end
    | v :: rest =>
        transpileNode (Some SyntaxKind.VariableDeclarationList) v ;; hoist rest
    end.

(** Transpiler.transpileNode, lines 28-506.  [parent] is the kind of
    [node.parent], which the BinaryExpression case reads. *)
Fixpoint transpileNode (parent : option SyntaxKind.t) (n : node) {struct n} : Action :=
  match n with
  | FunctionDeclaration name body =>
      onEmitter Emitter.beginFunction ;;
      withTypeHelper (fun th =>
        let signature := getSignatureFromDeclaration typeChecker n in
        let returnType := convertType typeHelper th (getReturnType signature) None in
        emit (getTypeString typeHelper th returnType) ;;
        emit " " ;;
        match name with
        | Some text => emit text
        | None => throw TypeError
        end ;;
        emit "(" ;;
        emit (join ", " (map (parameterCode th) (parameters signature))) ;;
        emit (")" ++ nl)) ;;
      emit ("{" ++ nl) ;;
      increaseIndent ;;
      onEmitter Emitter.beginFunctionBody ;;
      insertGCVariables (Some n) ;;
      match body with
      | None => throw TypeError
      | Some statements =>
          forEach (transpileNode (Some SyntaxKind.Block)) statements ;;
          match lastElement statements with
          | None => throw TypeError
          | Some s =>
              if SyntaxKind.eqb (kind s) SyntaxKind.ReturnStatement then skip
              else insertDestructors n
          end ;;
          decreaseIndent ;;
          emit ("}" ++ nl) ;;
          onEmitter Emitter.finalizeFunction
      end
  | VariableStatement declarations =>
      forEach (transpileNode (Some SyntaxKind.VariableDeclarationList)) declarations
  | VariableDeclaration name _ initializer =>
      withTypeHelper (fun th =>
        let varInfo := getVariableInfo typeHelper th (Identifier name) in
        declareVariable th name varInfo ;;
        match varInfo with
        | None => throw TypeError
        | Some vi =>
            allocateVariable n vi ;;
            transpileInitializerWith transpileNode name vi initializer
        end)
  | Block statements =>
      emit ("{" ++ nl) ;;
      increaseIndent ;;
      unsupportedNode SyntaxKind.OpenBraceToken ;;
      forEach (transpileNode (Some SyntaxKind.Block)) statements ;;
      unsupportedNode SyntaxKind.CloseBraceToken ;;
      decreaseIndent ;;
      emit ("}" ++ nl)
  | IfStatement expression thenStatement elseStatement =>
      emit "if (" ;;
      transpileNode (Some SyntaxKind.IfStatement) expression ;;
      emit (")" ++ nl) ;;
      (if SyntaxKind.eqb (kind thenStatement) SyntaxKind.Block then skip else increaseIndent) ;;
      transpileNode (Some SyntaxKind.IfStatement) thenStatement ;;
      (if SyntaxKind.eqb (kind thenStatement) SyntaxKind.Block then skip else decreaseIndent) ;;
      match elseStatement with
      | None => skip
      | Some elseStatement =>
          emit ("else" ++ nl) ;;
          (if SyntaxKind.eqb (kind elseStatement) SyntaxKind.Block then skip else increaseIndent) ;;
          transpileNode (Some SyntaxKind.IfStatement) elseStatement ;;
          (if SyntaxKind.eqb (kind elseStatement) SyntaxKind.Block then skip else decreaseIndent)
      end
  | ForStatement initializer condition incrementor statement =>
      let afterInitializer : Action :=
        transpileForTailWith transpileNode condition incrementor statement in
      match initializer with
      | Some (VariableDeclarationList declarations) =>
          transpileForDeclarationsWith transpileNode afterInitializer declarations
      | Some forInitializer =>
          emit "for (" ;;
          transpileNode (Some SyntaxKind.ForStatement) forInitializer ;;
          onEmitter Emitter.stripTrailingSemicolon ;;
          afterInitializer
      | None =>
          emit "for (" ;;
          afterInitializer
      end
  | ForOfStatement text initializer expression statement =>
      match expression with
      | Identifier arrayName =>
          fun st =>
            let (iteratorVarName, th') :=
              addNewIteratorVariable typeHelper n (typeHelperState st) in
            (onEmitter (Emitter.emitOnceToBeginningOfFunction
                          ("int16_t " ++ iteratorVarName ++ ";" ++ nl)) ;;
             match getVariableInfo typeHelper th' expression with
             | None => throw TypeError
             | Some arrayVarInfo =>
                 let arraySize :=
                   if isDynamicArray arrayVarInfo then arrayName ++ ".size"
                   else capacityString (vi_type arrayVarInfo) in
                 let arrayAccess :=
                   if isDynamicArray arrayVarInfo then arrayName ++ ".data"
                   else arrayName in
                 emit ("for (" ++ iteratorVarName ++ " = 0; " ++ iteratorVarName ++ " < "
                       ++ arraySize ++ "; " ++ iteratorVarName ++ "++)" ++ nl) ;;
                 emit ("{" ++ nl) ;;
                 increaseIndent ;;
                 match initializer with
                 | VariableDeclarationList (arrayIteratorVarDecl :: _) =>
                     match arrayIteratorVarDecl with
                     | VariableDeclaration _ declText _ =>
                         transpileNode (Some SyntaxKind.VariableDeclarationList)
                                       arrayIteratorVarDecl ;;
                         emit (declText ++ " = " ++ arrayAccess ++ "[" ++ iteratorVarName
                               ++ "];" ++ nl) ;;
                         transpileLoopBodyWith transpileNode SyntaxKind.ForOfStatement statement ;;
                         decreaseIndent ;;
                         emit ("}" ++ nl)
                     | _ => throw TypeError
                     end
                 | _ => throw TypeError
                 end
             end)
              (mkState (emitter st) (errors st) th')
      | _ =>
          addError ("Unsupported type of expression as array in for of: " ++ text)
      end
  | ForInStatement =>
      addError "For-in statement is not yet supported!"
  | WhileStatement expression statement =>
      emit "while (" ;;
      transpileNode (Some SyntaxKind.WhileStatement) expression ;;
      emit ")" ;;
      emit ("{" ++ nl) ;;
      increaseIndent ;;
      transpileLoopBodyWith transpileNode SyntaxKind.WhileStatement statement ;;
      decreaseIndent ;;
      emit ("}" ++ nl)
  | DoStatement statement expression =>
      emit ("do {" ++ nl) ;;
      increaseIndent ;;
      transpileLoopBodyWith transpileNode SyntaxKind.DoStatement statement ;;
      decreaseIndent ;;
      emit "} while (" ;;
      transpileNode (Some SyntaxKind.DoStatement) expression ;;
      emit (");" ++ nl)
  | ReturnStatement expression =>
      insertDestructors n ;;
      emit "return" ;;
      match expression with
      | Some expr => emit " " ;; transpileNode (Some SyntaxKind.ReturnStatement) expr
      | None => skip
      end ;;
      emit (";" ++ nl)
  | ExpressionStatement expression =>
      transpileNode (Some SyntaxKind.ExpressionStatement) expression ;;
      emit (";" ++ nl)
  | CallExpression expression arguments =>
      let notReplaced : Action :=
        transpileNode (Some SyntaxKind.CallExpression) expression ;;
        emit "(" ;;
        transpileArgumentsWith (transpileNode (Some SyntaxKind.CallExpression)) arguments ;;
        emit ")" in
      match expression with
      | PropertyAccessExpression (Identifier object) name =>
          if String.eqb object "console" && String.eqb name "log" then
            emitPredefinedHeader Emitter.stdioh ;;
            forEach printfTranspiler arguments
          else if String.eqb name "push" && Nat.eqb (length arguments) 1 then
            withTypeHelper (fun th =>
              match getVariableInfo typeHelper th (Identifier object), arguments with
              | Some varInfo, [argument] =>
                  if isArrayType (vi_type varInfo) then
                    emitPredefinedHeader Emitter.array ;;
                    emit "ARRAY_PUSH(" ;;
                    emit object ;;
                    emit "," ;;
                    transpileNode (Some SyntaxKind.CallExpression) argument ;;
                    emit ")"
                  else notReplaced
              | _, _ => notReplaced
              end)
          else if String.eqb name "pop" && Nat.eqb (length arguments) 0 then
            withTypeHelper (fun th =>
              match getVariableInfo typeHelper th (Identifier object) with
              | Some varInfo =>
                  if isArrayType (vi_type varInfo) then
                    emitPredefinedHeader Emitter.array_pop ;;
                    emit "ARRAY_POP(" ;;
                    emit object ;;
                    emit ")"
                  else notReplaced
              | None => notReplaced
              end)
          else notReplaced
      | _ => notReplaced
      end
  | PropertyAccessExpression expression name =>
      let notReplaced : Action :=
        transpileNode (Some SyntaxKind.PropertyAccessExpression) expression ;;
        emit "->" ;;
        emit name in
      match expression with
      | Identifier object =>
          if String.eqb name "length" then
            withTypeHelper (fun th =>
              match getVariableInfo typeHelper th expression with
              | Some varInfo =>
                  match vi_type varInfo with
                  | Array _ capacity _ =>
                      if isDynamicArray varInfo then
                        emit object ;; emit "." ;; emit "size"
                      else emit (ofNumber capacity)
                  | _ => notReplaced
                  end
              | None => notReplaced
              end)
          else notReplaced
      | _ => notReplaced
      end
  | ElementAccessExpression expression argumentExpression =>
      let notFound : Action :=
        emit "js_get(" ;;
        transpileNode (Some SyntaxKind.ElementAccessExpression) expression ;;
        emit ", " ;;
        transpileNode (Some SyntaxKind.ElementAccessExpression) argumentExpression ;;
        emit ")" in
      match expression with
      | Identifier object =>
          match argumentExpression with
          | StringLiteral literal =>
              emit object ;;
              emit "->" ;;
              emit (slice_1_m1 literal)
          | _ =>
              withTypeHelper (fun th =>
                match getVariableInfo typeHelper th expression with
                | Some varInfo =>
                    if isArrayType (vi_type varInfo) then
                      emit object ;;
                      (if isDynamicArray varInfo then emit ".data" else skip) ;;
                      emit "[" ;;
                      transpileNode (Some SyntaxKind.ElementAccessExpression) argumentExpression ;;
                      emit "]"
                    else notFound
                | None => notFound
                end)
          end
      | _ => notFound
      end
  | BinaryExpression leftNode operatorToken rightNode =>
      let plain : Action :=
        transpileNode (Some SyntaxKind.BinaryExpression) leftNode ;;
        emitOperatorToken operatorToken ;;
        transpileNode (Some SyntaxKind.BinaryExpression) rightNode in
      withTypeHelper (fun th =>
        let leftType := typeOf th leftNode in
        let rightType := typeOf th rightNode in
        let isEqualsEquals :=
          SyntaxKind.eqb (tk_kind operatorToken) SyntaxKind.EqualsEqualsToken in
        let isEquals :=
          SyntaxKind.eqb (tk_kind operatorToken) SyntaxKind.EqualsToken in
        if isEqualsEquals && isCharPtr leftType && isCharPtr rightType then
          emit "strcmp(" ;;
          transpileNode (Some SyntaxKind.BinaryExpression) leftNode ;;
          emit ", " ;;
          transpileNode (Some SyntaxKind.BinaryExpression) rightNode ;;
          emit ") == 0" ;;
          emitPredefinedHeader Emitter.stringh
        else if isEqualsEquals && (negb (isInt16 leftType) || negb (isInt16 rightType)) then
          emitPredefinedHeader Emitter.js_eq ;;
          emit "js_eq(" ;;
          transpileNode (Some SyntaxKind.BinaryExpression) leftNode ;;
          emit ", " ;;
          transpileNode (Some SyntaxKind.BinaryExpression) rightNode ;;
          emit ")"
        else if isEquals then
          match parent with
          | None => throw TypeError
          | Some parentKind =>
              if negb (SyntaxKind.eqb parentKind SyntaxKind.ExpressionStatement) then
                addError "Assignments inside expressions are not yet supported."
              else
                match rightNode with
                | ObjectLiteralExpression properties =>
                    match getVariableInfo typeHelper th leftNode with
                    | Some varInfo =>
                        transpileObjectLiteralAssignmentWith
                          (transpileNode (Some SyntaxKind.PropertyAssignment))
                          (vi_name varInfo) properties
                    | None =>
                        addError "Only variable, element access or property access are supported as left hand side expression in assignment of ObjectLiteralExpression."
                    end
                | ArrayLiteralExpression elements =>
                    match getVariableInfo typeHelper th leftNode with
                    | Some varInfo =>
                        transpileArrayLiteralAssignmentWith
                          (transpileNode (Some SyntaxKind.ArrayLiteralExpression))
                          (vi_name varInfo) 0%Z elements
                    | None =>
                        addError "Only variable, element access or property access are supported as left hand side expression in assignment of ArrayLiteralExpression."
                    end
                | _ => plain
                end
          end
        else plain)
  | PrefixUnaryExpression operator operand =>
      withTypeHelper (fun th =>
        let rightType := typeOf th operand in
        match operator with
        | SyntaxKind.ExclamationToken =>
            if isCharPtr rightType then
              emit "(!" ;;
              transpileStringExpressionWith
                (transpileNode (Some SyntaxKind.PrefixUnaryExpression)) operand ;;
              emit " || !" ;;
              transpileStringExpressionWith
                (transpileNode (Some SyntaxKind.PrefixUnaryExpression)) operand ;;
              emit "[0])"
            else
              emit "!" ;;
              transpileNode (Some SyntaxKind.PrefixUnaryExpression) operand
        | _ =>
            addError ("Non-supported unary operator: " ++ SyntaxKindName (kind n))
        end)
  | PostfixUnaryExpression operand operator =>
      transpileNode (Some SyntaxKind.PostfixUnaryExpression) operand ;;
      match operator with
      | SyntaxKind.MinusMinusToken => emit "--"
      | SyntaxKind.PlusPlusToken => emit "++"
      | _ => addError ("Non-supported postfix unary operator: " ++ SyntaxKindName (kind n))
      end
  | TrueKeyword =>
      emit "TRUE" ;;
      emitPredefinedHeader Emitter.bool
  | FalseKeyword =>
      emitPredefinedHeader Emitter.bool ;;
      emit "FALSE"
  | NullKeyword =>
      emit "NULL"
  | NumericLiteral text =>
      emit text
  | StringLiteral text =>
      emit (convertString text)
  | Identifier text =>
      emit text
  | SourceFile statements =>
      forEach (transpileNode (Some SyntaxKind.SourceFile)) statements
  | SyntaxList children =>
      forEach (transpileNode parent) children
  | EndOfFileToken =>
      skip
  | SemicolonToken =>
      skip
  | VariableDeclarationList _ | ObjectLiteralExpression _
  | ArrayLiteralExpression _ | ParenthesizedExpression _ | OtherNode _ =>
      unsupportedNode (kind n)
  end.

Definition transpileObjectLiteralAssignment :=
  transpileObjectLiteralAssignmentWith (transpileNode (Some SyntaxKind.PropertyAssignment)).

Definition transpileArrayLiteralAssignment (varString : string) (elements : list node) :=
  transpileArrayLiteralAssignmentWith
    (transpileNode (Some SyntaxKind.ArrayLiteralExpression)) varString 0%Z elements.

Definition transpileStringExpression :=
  transpileStringExpressionWith (transpileNode (Some SyntaxKind.PrefixUnaryExpression)).

Definition transpileLoopBody := transpileLoopBodyWith transpileNode.

Definition transpileForTail := transpileForTailWith transpileNode.

Definition transpileInitializer := transpileInitializerWith transpileNode.

(** Transpiler.transpile up to its return statement, lines 16-20: the
    state in which the result is chosen. *)
Definition translate (sourceFile : node) : Res (State TH) :=
  let (th0, e0) := figureOutVariablesAndTypes typeHelper sourceFile Emitter.empty in
  let th1 := preprocess memoryManager th0 in
  let e1 := insertGCVariablesCreationIfNecessary memoryManager th1 None e0 in
  (transpileNode None sourceFile ;; insertDestructors sourceFile) (mkState e1 [] th1).

(** Transpiler.transpile, lines 15-26 *)
Definition transpile (sourceFile : node) : Res string :=
  match translate sourceFile with
  | Throw e => Throw e
  | Ok st =>
      match errors st with
      | [] => Ok (Emitter.finalize predefinedHeaders (emitter st))
      | _ :: _ => Ok (join nl (errors st))
      end
  end.

End Transpiler.

(** The states that [emit], [increaseIndent], [decreaseIndent] and
    [emitPredefinedHeader] lead to. *)
Definition emitted {TH : Type} (text : string) (st : State TH) : State TH :=
  mkState (Emitter.emit text (emitter st)) (errors st) (typeHelperState st).

Definition indented {TH : Type} (st : State TH) : State TH :=
  mkState (Emitter.increaseIndent (emitter st)) (errors st) (typeHelperState st).

Definition dedented {TH : Type} (st : State TH) : State TH :=
  mkState (Emitter.decreaseIndent (emitter st)) (errors st) (typeHelperState st).

Definition withHeader {TH : Type} (key : Emitter.HeaderKey) (st : State TH) : State TH :=
  mkState (Emitter.emitPredefinedHeader key (emitter st)) (errors st) (typeHelperState st).

(** An action only ever adds to the end of the list of recorded errors. *)
Definition appendsErrors {TH : Type} (a : Action TH) : Prop :=
  forall st st', a st = Ok st' -> exists es, errors st' = (errors st ++ es)%list.

(** The number of nodes of a tree. *)
Fixpoint size (n : node) : nat :=
  let sizes := fun l : list node => list_sum (map size l) in
  let osize := fun o : option node => match o with Some x => size x | None => 0 end in
  S (match n with
     | FunctionDeclaration _ body => match body with Some l => sizes l | None => 0 end
     | VariableStatement l | VariableDeclarationList l | Block l | SourceFile l
     | SyntaxList l | ArrayLiteralExpression l => sizes l
     | VariableDeclaration _ _ i => osize i
     | IfStatement e t o => size e + size t + osize o
     | ForStatement i c u s => osize i + osize c + osize u + size s
     | ForOfStatement _ i e s => size i + size e + size s
     | WhileStatement e s | DoStatement s e | ElementAccessExpression e s => size e + size s
     | ReturnStatement o => osize o
     | ExpressionStatement e | PropertyAccessExpression e _
     | PrefixUnaryExpression _ e | PostfixUnaryExpression e _ => size e
     | CallExpression e l => size e + sizes l
     | BinaryExpression l _ r => size l + size r
     | ObjectLiteralExpression props => list_sum (map (fun q => osize (snd q)) props)
     | ParenthesizedExpression e => size e
     | _ => 0
     end).

(** The text of the target the Emitter currently writes to. *)
Definition code {TH : Type} (st : State TH) : string :=
  Emitter.getBuffer (Emitter.transpiledCode (emitter st)) (Emitter.defaultTarget (emitter st)).

Definition prologue {TH : Type} (st : State TH) : string :=
  Emitter.b_prologue (Emitter.transpiledCode (emitter st)).

(** A text that is not empty and does not end a line: what [emit] writes
    next goes on the same line. *)
Definition inLine (s : string) : bool :=
  match JsString.lastChar s with
  | Some c => negb (Ascii.eqb c "010")
  | None => false
  end.

(** ** A small instance of the collaborators

    A registry given as a table from access paths to variables, a type
    checker that answers with C types, a MemoryManager for programs in which
    nothing escapes or is released, and iterator names [iterator_1],
    [iterator_2], ... *)

Module Demo.
Import JsString.

Definition TH : Type := nat.
Definition tsType : Type := CType.

Definition dynArray (name : string) (capacity : Z) : VariableInfo :=
  mkVariableInfo name 0 (Array (Primitive int16_t) capacity true) true true false.

Definition fixedArray (name : string) (capacity : Z) : VariableInfo :=
  mkVariableInfo name 0 (Array (Primitive int16_t) capacity false) true false false.


Definition scalar (name : string) (k : PrimitiveKind) : VariableInfo :=
  mkVariableInfo name 0 (Primitive k) false false false.

(** [let a = [1, 2, 3]; a.push(..)], [let f = [1, 2]], [let n = 0],
    [let s = 'hi'], [let i = 0], [let c; let x] and the array-typed field
    [o.arr]. *)
Definition registry : list (string * VariableInfo) :=
  [ ("a", dynArray "a" 3); ("f", fixedArray "f" 2);
    ("n", scalar "n" int16_t); ("s", scalar "s" char_ptr);
    ("i", scalar "i" int16_t); ("j", scalar "j" int16_t);
    ("c", scalar "c" char_ptr); ("x", scalar "x" int16_t);
    ("o.arr", dynArray "o.arr" 3) ].

Fixpoint lookup (key : string) (l : list (string * VariableInfo)) : option VariableInfo :=
  match l with
  | [] => None
  | (k, v) :: rest => if String.eqb k key then Some v else lookup key rest
  end.

Definition variableInfo (n : node) : option VariableInfo :=
  match n with
  | Identifier x => lookup x registry
  | PropertyAccessExpression (Identifier o) field => lookup (o ++ "." ++ field) registry
  | _ => None
  end.

Definition typeAt (n : node) : CType :=
  match n with
  | NumericLiteral _ => Primitive int16_t
  | StringLiteral _ => Primitive char_ptr
  | TrueKeyword | FalseKeyword => Primitive uint8_t
  | _ => match variableInfo n with
         | Some vi => vi_type vi
         | None => Primitive void_ptr
         end
  end.

Fixpoint typeString (t : CType) : string :=
  match t with
  | Primitive int16_t => "int16_t"
  | Primitive char_ptr => "char *"
  | Primitive uint8_t => "uint8_t"
  | Primitive void_ptr => "void *"
  | Struct name _ => "struct " ++ name ++ " *"
  | Array element capacity true => "ARRAY(" ++ typeString element ++ ")"
  | Array element capacity false =>
      typeString element ++ " {var}[" ++ ofNumber capacity ++ "]"
  | Pointer to => typeString to ++ " *"
  end.

Definition typeChecker : TypeChecker tsType :=
  mkTypeChecker
    (fun _ => mkSignature (Primitive int16_t) [])
    (fun param => declaredType param)
    typeAt.

Definition typeHelper : TypeHelper TH tsType :=
  mkTypeHelper
    (fun _ e => (O, e))
    (fun _ t _ => t)
    (fun _ t => typeString t)
    (fun _ n => variableInfo n)
    (fun _ th => ("iterator_" ++ ofNumber (Z.of_nat (S th)), S th)).

Definition memoryManager : MemoryManager TH :=
  mkMemoryManager
    (fun th => th)
    (fun _ _ e => e)
    (fun _ _ _ _ e => e)
    (fun _ _ e => e).

Definition printfTranspiler : node -> Action TH := fun _ => skip.

(** [ts.SyntaxKind[kind]], the reverse mapping of the enum: where the enum
    declares a marker for a kind, the marker, which is declared later, is
    the name that the mapping answers ([FirstPunctuation] for the opening
    brace).  Kinds that transpile.ts does not mention are named by their
    code here. *)
Definition SyntaxKindName (k : SyntaxKind.t) : string :=
  match k with
  | SyntaxKind.FunctionDeclaration => "FunctionDeclaration"
  | SyntaxKind.VariableStatement => "VariableStatement"
  | SyntaxKind.VariableDeclarationList => "VariableDeclarationList"
  | SyntaxKind.VariableDeclaration => "VariableDeclaration"
  | SyntaxKind.Block => "Block"
  | SyntaxKind.IfStatement => "IfStatement"
  | SyntaxKind.ForStatement => "ForStatement"
  | SyntaxKind.ForOfStatement => "ForOfStatement"
  | SyntaxKind.ForInStatement => "ForInStatement"
  | SyntaxKind.WhileStatement => "WhileStatement"
  | SyntaxKind.DoStatement => "DoStatement"
  | SyntaxKind.ReturnStatement => "ReturnStatement"
  | SyntaxKind.ExpressionStatement => "ExpressionStatement"
  | SyntaxKind.CallExpression => "CallExpression"
  | SyntaxKind.PropertyAccessExpression => "PropertyAccessExpression"
  | SyntaxKind.ElementAccessExpression => "ElementAccessExpression"
  | SyntaxKind.BinaryExpression => "BinaryExpression"
  | SyntaxKind.PrefixUnaryExpression => "PrefixUnaryExpression"
  | SyntaxKind.PostfixUnaryExpression => "PostfixUnaryExpression"
  | SyntaxKind.TrueKeyword => "TrueKeyword"
  | SyntaxKind.FalseKeyword => "FalseKeyword"
  | SyntaxKind.NullKeyword => "NullKeyword"
  | SyntaxKind.NumericLiteral => "FirstLiteralToken"
  | SyntaxKind.StringLiteral => "StringLiteral"
  | SyntaxKind.Identifier => "Identifier"
  | SyntaxKind.SourceFile => "SourceFile"
  | SyntaxKind.SyntaxList => "SyntaxList"
  | SyntaxKind.EndOfFileToken => "EndOfFileToken"
  | SyntaxKind.SemicolonToken => "SemicolonToken"
  | SyntaxKind.ObjectLiteralExpression => "ObjectLiteralExpression"
  | SyntaxKind.ArrayLiteralExpression => "ArrayLiteralExpression"
  | SyntaxKind.PropertyAssignment => "PropertyAssignment"
  | SyntaxKind.ParenthesizedExpression => "ParenthesizedExpression"
  | SyntaxKind.OpenBraceToken => "FirstPunctuation"
  | SyntaxKind.CloseBraceToken => "CloseBraceToken"
  | SyntaxKind.EqualsEqualsToken => "EqualsEqualsToken"
  | SyntaxKind.EqualsToken => "FirstAssignment"
  | SyntaxKind.EqualsEqualsEqualsToken => "EqualsEqualsEqualsToken"
  | SyntaxKind.GreaterThanEqualsToken => "GreaterThanEqualsToken"
  | SyntaxKind.GreaterThanToken => "GreaterThanToken"
  | SyntaxKind.LessThanEqualsToken => "LessThanEqualsToken"
  | SyntaxKind.LessThanToken => "FirstBinaryOperator"
  | SyntaxKind.PlusToken => "PlusToken"
  | SyntaxKind.MinusToken => "MinusToken"
  | SyntaxKind.AsteriskToken => "AsteriskToken"
  | SyntaxKind.SlashToken => "SlashToken"
  | SyntaxKind.ExclamationToken => "ExclamationToken"
  | SyntaxKind.MinusMinusToken => "MinusMinusToken"
  | SyntaxKind.PlusPlusToken => "PlusPlusToken"
  | SyntaxKind.Other code => "SyntaxKind " ++ ofNumber (Z.of_nat code)
  end.

Definition predefinedHeaders (k : Emitter.HeaderKey) : string :=
  match k with
  | Emitter.stdioh => "#include <stdio.h>" ++ nl
  | Emitter.stdlibh => "#include <stdlib.h>" ++ nl
  | Emitter.stringh => "#include <string.h>" ++ nl
  | Emitter.asserth => "#include <assert.h>" ++ nl
  | Emitter.bool => "#define TRUE 1" ++ nl ++ "#define FALSE 0" ++ nl
  | Emitter.js_eq => "#include <js_eq.h>" ++ nl
  | Emitter.array => "#include <array.h>" ++ nl
  | Emitter.array_pop => "#include <array_pop.h>" ++ nl
  end.

Abbreviation run :=
  (transpileNode typeChecker typeHelper memoryManager printfTranspiler SyntaxKindName).

Abbreviation transpile :=
  (transpile typeChecker typeHelper memoryManager printfTranspiler SyntaxKindName
     predefinedHeaders).

Abbreviation translate :=
  (translate typeChecker typeHelper memoryManager printfTranspiler SyntaxKindName).

(** The state at the start of a statement inside a function body. *)
Definition inBody : State TH :=
  mkState (Emitter.mk [] (Emitter.mkBuffers EmptyString EmptyString EmptyString EmptyString)
             Emitter.functionBody 2 [] [])
          [] O.

Definition okState (r : Res (State TH)) : State TH :=
  match r with Ok st => st | Throw _ => inBody end.

Definition codeOf (r : Res (State TH)) : option string :=
  match r with Ok st => Some (code st) | Throw _ => None end.

Definition errorsOf (r : Res (State TH)) : option (list string) :=
  match r with Ok st => Some (errors st) | Throw _ => None end.

Definition equalsEquals : Token := mkToken SyntaxKind.EqualsEqualsToken "==".
Definition equals : Token := mkToken SyntaxKind.EqualsToken "=".
Definition lessThan : Token := mkToken SyntaxKind.LessThanToken "<".
Definition plus : Token := mkToken SyntaxKind.PlusToken "+".

End Demo.

(** ** Leaves of the tree and kinds without a case *)

(** The text that the walker emits for an identifier or a numeric literal
    (lines 485-487 and 491-493). *)
Definition atomText (n : node) : option string :=
  match n with
  | Identifier text | NumericLiteral text => Some text
  | _ => None
  end.

(** The operator table of convertOperatorToken, lines 531-552: the text of
    the operators it knows. *)
Definition operatorText (k : SyntaxKind.t) : option string :=
  match k with
  | SyntaxKind.GreaterThanEqualsToken => Some " >= "
  | SyntaxKind.GreaterThanToken => Some " > "
  | SyntaxKind.LessThanEqualsToken => Some " <= "
  | SyntaxKind.LessThanToken => Some " < "
  | SyntaxKind.EqualsEqualsEqualsToken => Some " == "
  | SyntaxKind.EqualsEqualsToken => Some " == "
  | SyntaxKind.PlusToken => Some " + "
  | SyntaxKind.MinusToken => Some " - "
  | SyntaxKind.AsteriskToken => Some " * "
  | SyntaxKind.SlashToken => Some " / "
  | SyntaxKind.EqualsToken => Some " = "
  | _ => None
  end.

(** The kinds that the switch of transpileNode has a case for, lines
    30-499; every other kind goes to the default case. *)
Definition hasCase (k : SyntaxKind.t) : bool :=
  match k with
  | SyntaxKind.FunctionDeclaration | SyntaxKind.VariableStatement
  | SyntaxKind.VariableDeclaration | SyntaxKind.Block | SyntaxKind.IfStatement
  | SyntaxKind.ForStatement | SyntaxKind.ForOfStatement | SyntaxKind.ForInStatement
  | SyntaxKind.WhileStatement | SyntaxKind.DoStatement | SyntaxKind.ReturnStatement
  | SyntaxKind.ExpressionStatement | SyntaxKind.CallExpression
  | SyntaxKind.PropertyAccessExpression | SyntaxKind.ElementAccessExpression
  | SyntaxKind.BinaryExpression | SyntaxKind.PrefixUnaryExpression
  | SyntaxKind.PostfixUnaryExpression | SyntaxKind.TrueKeyword
  | SyntaxKind.FalseKeyword | SyntaxKind.NullKeyword | SyntaxKind.NumericLiteral
  | SyntaxKind.StringLiteral | SyntaxKind.Identifier | SyntaxKind.SourceFile
  | SyntaxKind.SyntaxList | SyntaxKind.EndOfFileToken | SyntaxKind.SemicolonToken => true
  | _ => false
  end.

(** The message of a node for which the walker only records an error: a
    for-in statement, or a node of a kind without a case. *)
Definition reportedAs (SyntaxKindName : SyntaxKind.t -> string) (n : node) : option string :=
  match n with
  | ForInStatement => Some "For-in statement is not yet supported!"
  | _ =>
      if hasCase (kind n) then None
      else Some ("Non-supported node: " ++ SyntaxKindName (kind n))
  end.

(** [s] has no character [c]. *)
Fixpoint lacks (c : ascii) (s : string) : bool :=
  match s with
  | EmptyString => true
  | String d s' => negb (Ascii.eqb d c) && lacks c s'
  end.

(** No backslash directly in front of a single quote. *)
Fixpoint noEscapedQuote (s : string) : bool :=
  match s with
  | EmptyString => true
  | String b tl =>
      match tl with
      | String q _ => negb (Ascii.eqb b "092" && Ascii.eqb q "'") && noEscapedQuote tl
      | EmptyString => true
      end
  end.

(** ** Programs on which the walker raises no exception *)

(** An action returns: it does not throw, whatever the state. *)
Definition returns {TH : Type} (a : Action TH) : Prop :=
  forall st, exists st', a st = Ok st'.

(** The last declaration of a for initializer is there and is a variable
    declaration (line 159-160 read its name). *)
Definition lastIsDeclaration (l : list node) : bool :=
  match lastElement l with
  | Some (VariableDeclaration _ _ _) => true
  | _ => false
  end.

(** The places where the walker reads a field of a value that may be
    undefined, ruled out: a function has a name (line 38) and a body with a
    statement in it (line 56); a declared variable, and the array that a
    for-of statement runs over, are [known] to the registry (lines 84, 161
    and 203); the initializer of a for-of statement over an identifier is a
    declaration list that starts with a variable declaration (line 211);
    every property of an object literal has a name and an initializer
    (lines 511 and 513). *)
Fixpoint throwFree (known : node -> bool) (n : node) : bool :=
  let all := forallb (throwFree known) in
  let opt := fun o : option node =>
               match o with Some x => throwFree known x | None => true end in
  match n with
  | FunctionDeclaration name body =>
      match name, body with
      | Some _, Some (s :: rest) => all (s :: rest)
      | _, _ => false
      end
  | VariableStatement l | VariableDeclarationList l | Block l | SourceFile l
  | SyntaxList l | ArrayLiteralExpression l => all l
  | VariableDeclaration name _ i => known (Identifier name) && opt i
  | IfStatement e t o => throwFree known e && throwFree known t && opt o
  | ForStatement i c u s =>
      match i with
      | Some (VariableDeclarationList l) => lastIsDeclaration l && all l
      | Some x => throwFree known x
      | None => true
      end && opt c && opt u && throwFree known s
  | ForOfStatement _ i e s =>
      match e with
      | Identifier _ =>
          known e
          && match i with
             | VariableDeclarationList (VariableDeclaration _ _ _ as d :: _) =>
                 throwFree known d
             | _ => false
             end
          && throwFree known s
      | _ => true
      end
  | WhileStatement e s | DoStatement s e | ElementAccessExpression e s =>
      throwFree known e && throwFree known s
  | ReturnStatement o => opt o
  | ExpressionStatement e | PropertyAccessExpression e _
  | PrefixUnaryExpression _ e | PostfixUnaryExpression e _ => throwFree known e
  | CallExpression e l => throwFree known e && all l
  | BinaryExpression l _ r => throwFree known l && throwFree known r
  | ObjectLiteralExpression props =>
      forallb (fun q : option string * option node =>
                 match q with
                 | (Some _, Some x) => throwFree known x
                 | _ => false
                 end) props
  | _ => true
  end.

(** ** Lines of a literal assignment *)

(** The lines that transpileArrayLiteralAssignment (lines 519-527) writes
    for elements whose texts are [texts], from index [i] on. *)
Fixpoint arrayAssignmentLines (varString : string) (i : Z) (texts : list string)
    : list string :=
  match texts with
  | [] => []
  | t :: rest =>
      (varString ++ "[" ++ JsString.ofNumber i ++ "] = " ++ t ++ ";" ++ JsString.nl)
        :: arrayAssignmentLines varString (i + 1)%Z rest
  end.

(** The line that transpileObjectLiteralAssignment (lines 508-517) writes
    for a property [name] whose initializer has the text [value]. *)
Definition propertyAssignmentLine (varString : string) (q : string * string) : string :=
  varString ++ "->" ++ fst q ++ " = " ++ snd q ++ ";" ++ JsString.nl.

(** ** A registry with an object

    The registry of [Demo] with one more variable, the object [pt] of a
    struct type, which requires allocation; and the test for the variables
    that the registry of [Demo] knows. *)
Module Shapes.

Definition point : VariableInfo :=
  mkVariableInfo "pt" 0 (Struct "point" [("x", Primitive int16_t)]) true false false.

Definition infoOf (n : node) : option VariableInfo :=
  match n with
  | Identifier x => if String.eqb x "pt" then Some point else Demo.variableInfo n
  | _ => Demo.variableInfo n
  end.

Definition helper : TypeHelper Demo.TH Demo.tsType :=
  mkTypeHelper
    (fun _ e => (O, e))
    (fun _ t _ => t)
    (fun _ t => Demo.typeString t)
    (fun _ n => infoOf n)
    (fun _ th => ("iterator_" ++ JsString.ofNumber (Z.of_nat (S th)), S th)).

Definition registered (n : node) : bool :=
  match Demo.variableInfo n with
  | Some _ => true
  | None => false
  end.

Definition percent : Token := mkToken (SyntaxKind.Other 44) "%".

End Shapes.

(** * Properties *)

(** ** Strings *)

Section StringFacts.
Import JsString.

Lemma append_assoc (a b c : string) : (a ++ b) ++ c = a ++ (b ++ c).
Proof. induction a as [|x a IH]; simpl; [reflexivity | now rewrite IH]. Qed.

Lemma append_nil_r (a : string) : a ++ EmptyString = a.
Proof. induction a as [|x a IH]; simpl; [reflexivity | now rewrite IH]. Qed.

Lemma length_append (a b : string) :
  String.length (a ++ b) = String.length a + String.length b.
Proof. induction a as [|x a IH]; simpl; [reflexivity | now rewrite IH]. Qed.

Lemma lastChar_append (a b : string) :
  b <> EmptyString -> lastChar (a ++ b) = lastChar b.
Proof.
  intros Hb. induction a as [|x a IH]; simpl; [reflexivity|].
  rewrite IH. destruct (a ++ b) eqn:E; [|reflexivity].
  destruct a; simpl in E; [congruence | discriminate].
Qed.

Lemma inLine_nonempty (s : string) : inLine s = true -> s <> EmptyString.
Proof. intros H ->. discriminate. Qed.

Lemma inLine_append (a b : string) : inLine b = true -> inLine (a ++ b) = true.
Proof.
  intros H. unfold inLine.
  rewrite lastChar_append by (now apply inLine_nonempty). exact H.
Qed.

Lemma atLineStart_inLine (a b : string) :
  inLine b = true -> Emitter.atLineStart (a ++ b) = false.
Proof.
  intros H. unfold Emitter.atLineStart.
  rewrite lastChar_append by (now apply inLine_nonempty).
  unfold inLine in H. destruct (lastChar b); [|discriminate].
  now apply negb_true_iff in H.
Qed.

Lemma stripSuffix_unfold (suf s : string) :
  stripSuffix suf s =
  if String.eqb s suf then Some EmptyString
  else match s with
       | EmptyString => None
       | String c s' =>
           match stripSuffix suf s' with
           | Some r => Some (String c r)
           | None => None
           end
       end.
Proof. destruct s; reflexivity. Qed.

Lemma stripSuffix_append (suf b : string) : stripSuffix suf (b ++ suf) = Some b.
Proof.
  induction b as [|x b IH].
  - rewrite stripSuffix_unfold. simpl. now rewrite String.eqb_refl.
  - rewrite stripSuffix_unfold.
    assert (E : String.eqb (String x b ++ suf) suf = false).
    { apply String.eqb_neq. intros Heq.
      apply (f_equal String.length) in Heq.
      rewrite length_append in Heq. simpl in Heq. lia. }
    rewrite E. simpl. now rewrite IH.
Qed.


End StringFacts.

(** ** The Emitter *)

Section EmitterFacts.
Import JsString.

Lemma getBuffer_setBuffer (b : Emitter.Buffers) (t : Emitter.EmitTarget) (s : string) :
  Emitter.getBuffer (Emitter.setBuffer b t s) t = s.
Proof. destruct t; reflexivity. Qed.

Lemma setBuffer_setBuffer (b : Emitter.Buffers) (t : Emitter.EmitTarget) (s s' : string) :
  Emitter.setBuffer (Emitter.setBuffer b t s) t s' = Emitter.setBuffer b t s'.
Proof. destruct t; reflexivity. Qed.

(** Two emissions on one line are one emission of the joined text. *)
Lemma emit_fuse (a b : string) (e : Emitter.t) :
  inLine a = true ->
  Emitter.emit b (Emitter.emit a e) = Emitter.emit (a ++ b) e.
Proof.
  intros Ha. unfold Emitter.emit, Emitter.linePrefix, Emitter.setCode. simpl.
  rewrite getBuffer_setBuffer, setBuffer_setBuffer.
  rewrite atLineStart_inLine by (apply inLine_append; exact Ha).
  simpl. now rewrite !append_assoc.
Qed.

Lemma emit_buffer (s : string) (e : Emitter.t) :
  Emitter.getBuffer (Emitter.transpiledCode (Emitter.emit s e)) (Emitter.defaultTarget e)
  = Emitter.getBuffer (Emitter.transpiledCode e) (Emitter.defaultTarget e)
    ++ Emitter.linePrefix e ++ s.
Proof. unfold Emitter.emit, Emitter.setCode. simpl. apply getBuffer_setBuffer. Qed.


End EmitterFacts.

(** ** Actions *)

Section ActionFacts.
Variable TH : Type.
Implicit Types (st : State TH) (a b c : Action TH).

Lemma andThen_Ok a b st st' : a st = Ok st' -> (a ;; b) st = b st'.
Proof. unfold andThen. now intros ->. Qed.

Lemma andThen_Throw a b st e : a st = Throw e -> (a ;; b) st = Throw e.
Proof. unfold andThen. now intros ->. Qed.

Lemma andThen_assoc a b c st : ((a ;; b) ;; c) st = (a ;; (b ;; c)) st.
Proof. unfold andThen. now destruct (a st). Qed.


Lemma skip_andThen a st : (skip ;; a) st = a st.
Proof. reflexivity. Qed.

Lemma emit_emit (s t : string) st :
  inLine s = true -> (emit s ;; emit t) st = emit (s ++ t) st.
Proof.
  intros H. unfold andThen, emit, onEmitter. simpl. now rewrite emit_fuse.
Qed.

Lemma emit_emit_andThen (s t : string) a st :
  inLine s = true -> (emit s ;; emit t ;; a) st = (emit (s ++ t) ;; a) st.
Proof.
  intros H. unfold andThen, emit, onEmitter. simpl. now rewrite emit_fuse.
Qed.

Lemma code_emitted (s : string) st :
  code (emitted s st) = code st ++ Emitter.linePrefix (emitter st) ++ s.
Proof.
  unfold code, emitted. cbn [emitter].
  change (Emitter.defaultTarget (Emitter.emit s (emitter st)))
    with (Emitter.defaultTarget (emitter st)).
  apply emit_buffer.
Qed.

Lemma code_indented st : code (indented st) = code st.
Proof. reflexivity. Qed.

Lemma code_dedented st : code (dedented st) = code st.
Proof. reflexivity. Qed.

Lemma emitted_emitted (s t : string) st :
  inLine s = true -> emitted t (emitted s st) = emitted (s ++ t) st.
Proof. intros H. unfold emitted. cbn [emitter errors typeHelperState]. now rewrite emit_fuse. Qed.

Lemma emit_emitted (s : string) st : emit s st = Ok (emitted s st).
Proof. reflexivity. Qed.

Lemma code_emit (s : string) st st' :
  emit s st = Ok st' ->
  code st' = code st ++ Emitter.linePrefix (emitter st) ++ s.
Proof. unfold emit, onEmitter. intros [= <-]. apply code_emitted. Qed.

(** An action that throws somewhere in a list, throws for the list. *)
Lemma forEach_throws (A : Type) (f : A -> Action TH) (x : A) (pre post : list A) st :
  (forall st', f x st' = Throw TypeError) ->
  forEach f (pre ++ x :: post)%list st = Throw TypeError.
Proof.
  intros Hx. revert st. induction pre as [|y pre IH]; intros st; simpl.
  - unfold andThen. now rewrite Hx.
  - unfold andThen. destruct (f y st) as [st'|[]]; [apply IH | reflexivity].
Qed.

End ActionFacts.

(** ** The dispatch table of the Transpiler *)

Section Claims.
Import JsString.

Variables TH tsType : Type.
Variable typeChecker : TypeChecker tsType.
Variable typeHelper : TypeHelper TH tsType.
Variable memoryManager : MemoryManager TH.
Variable printfTranspiler : node -> Action TH.
Variable SyntaxKindName : SyntaxKind.t -> string.
Variable predefinedHeaders : Emitter.HeaderKey -> string.

Abbreviation walk :=
  (transpileNode typeChecker typeHelper memoryManager printfTranspiler SyntaxKindName).
Abbreviation typeAt th n := (typeOf typeChecker typeHelper th n).

Implicit Types (st : State TH) (p : option SyntaxKind.t).

(** The Block case walks [node.getChildren()], lines 119-126. *)
Lemma transpileNode_Block p statements st :
  walk p (Block statements) st =
  (emit ("{" ++ nl) ;; increaseIndent ;;
   forEach (walk (Some SyntaxKind.Block)) (getChildren (Block statements)) ;;
   decreaseIndent ;; emit ("}" ++ nl)) st.
Proof.
  simpl. unfold andThen. simpl.
  destruct (forEach _ statements _) as [st'|e]; reflexivity.
Qed.

(** The ExpressionStatement and SourceFile cases walk
    [node.getChildren()], lines 269-273 and 494-498. *)
Lemma transpileNode_ExpressionStatement p expression st :
  walk p (ExpressionStatement expression) st =
  (forEach (walk (Some SyntaxKind.ExpressionStatement))
     (getChildren (ExpressionStatement expression)) ;;
   emit (";" ++ nl)) st.
Proof.
  simpl. unfold andThen. simpl.
  destruct (walk _ expression st) as [st'|e]; reflexivity.
Qed.

Lemma transpileNode_SourceFile p statements st :
  walk p (SourceFile statements) st =
  forEach (walk (Some SyntaxKind.SourceFile)) (getChildren (SourceFile statements)) st.
Proof.
  simpl. unfold andThen. simpl.
  destruct (forEach _ statements st) as [st'|e]; reflexivity.
Qed.

(** C10. An element access [x["lit"]] on an identifier [x] is emitted as
    [x->lit], whatever the TypeHelper knows about [x]: the case never asks
    it, so neither the array lowering nor the [js_get] fallback is used,
    also when [x] is array-typed. *)
Theorem element_access_by_string_literal p (x literal : string) st :
  inLine x = true ->
  walk p (ElementAccessExpression (Identifier x) (StringLiteral literal)) st
  = emit (x ++ "->" ++ slice_1_m1 literal) st.
Proof.
  intros Hx. simpl.
  rewrite emit_emit_andThen by exact Hx.
  rewrite emit_emit by (apply inLine_append; reflexivity).
  now rewrite append_assoc.
Qed.

(** C2 (amended). A property access [x.length] on an identifier [x] that
    the TypeHelper's registry types as an array is emitted as [x.size] when
    the variable is a dynamic array and as the decimal capacity otherwise:
    no call is emitted. *)
Theorem length_of_array_identifier p (x : string) (vi : VariableInfo)
    (element : CType) (capacity : Z) (dynamic : bool) st :
  inLine x = true ->
  getVariableInfo typeHelper (typeHelperState st) (Identifier x) = Some vi ->
  vi_type vi = Array element capacity dynamic ->
  walk p (PropertyAccessExpression (Identifier x) "length") st
  = emit (if isDynamicArray vi then x ++ ".size" else ofNumber capacity) st.
Proof.
  intros Hx Hvi Hty. simpl. unfold withTypeHelper. rewrite Hvi, Hty.
  destruct (isDynamicArray vi); [|reflexivity].
  rewrite emit_emit_andThen by exact Hx.
  rewrite emit_emit by (apply inLine_append; reflexivity).
  now rewrite append_assoc.
Qed.

(** A property access on anything but an identifier never asks the
    TypeHelper: it is emitted as a field access through a pointer. *)
Lemma property_access_of_expression p (expression : node) (name : string) st :
  kind expression <> SyntaxKind.Identifier ->
  walk p (PropertyAccessExpression expression name) st
  = (walk (Some SyntaxKind.PropertyAccessExpression) expression ;;
     emit "->" ;; emit name) st.
Proof.
  intros H. destruct expression; try reflexivity. now elim H.
Qed.

(** An assignment that the walker visits under a parent that is not an
    expression statement only records the error. *)
Lemma assignment_reported (parentKind : SyntaxKind.t)
    (leftNode rightNode : node) (operatorToken : Token) st :
  tk_kind operatorToken = SyntaxKind.EqualsToken ->
  parentKind <> SyntaxKind.ExpressionStatement ->
  walk (Some parentKind) (BinaryExpression leftNode operatorToken rightNode) st
  = Ok (mkState (emitter st)
          (errors st ++ ["Assignments inside expressions are not yet supported."])%list
          (typeHelperState st)).
Proof.
  intros Hop Hparent. simpl. unfold withTypeHelper. rewrite Hop. simpl.
  unfold SyntaxKind.eqb at 1.
  destruct (SyntaxKind.eq_dec parentKind SyntaxKind.ExpressionStatement);
    [contradiction | reflexivity].
Qed.

(** C5 (amended). An assignment that the walker visits under a parent that
    is not an expression statement records exactly the one error message
    and leaves the Emitter as it was: no C is emitted for it.  So it is for
    the condition of an if and of a while statement, where the statement
    goes on from the state with the error, and for the expression of a
    return statement.  The walker does not visit every assignment: of a
    node of a kind without a case, such as a parenthesized expression, it
    records the error for that node and walks no child, and of a for-of
    statement whose iterated expression is no identifier it records the
    error for the statement; an assignment there is not reported. *)
Theorem assignment_inside_expression (leftNode rightNode : node) (operatorToken : Token) :
  tk_kind operatorToken = SyntaxKind.EqualsToken ->
  let assignment := BinaryExpression leftNode operatorToken rightNode in
  let reported := fun st =>
    mkState (emitter st)
      (errors st ++ ["Assignments inside expressions are not yet supported."])%list
      (typeHelperState st) in
  let only := fun (message : string) st =>
    Ok (mkState (emitter st) (errors st ++ [message])%list (typeHelperState st)) in
  (forall parentKind st,
      parentKind <> SyntaxKind.ExpressionStatement ->
      walk (Some parentKind) assignment st = Ok (reported st))
  /\ (forall p thenStatement st,
        walk p (IfStatement assignment thenStatement None) st
        = ((if SyntaxKind.eqb (kind thenStatement) SyntaxKind.Block
            then skip else increaseIndent) ;;
           walk (Some SyntaxKind.IfStatement) thenStatement ;;
           (if SyntaxKind.eqb (kind thenStatement) SyntaxKind.Block
            then skip else decreaseIndent))
            (emitted (")" ++ nl) (reported (emitted "if (" st))))
  /\ (forall p statement st,
        walk p (WhileStatement assignment statement) st
        = (increaseIndent ;;
           transpileLoopBody typeChecker typeHelper memoryManager printfTranspiler
             SyntaxKindName SyntaxKind.WhileStatement statement ;;
           decreaseIndent ;; emit ("}" ++ nl))
            (emitted ("{" ++ nl) (emitted ")" (reported (emitted "while (" st)))))
  /\ (forall p st,
        walk p (ReturnStatement (Some assignment)) st
        = Ok (emitted (";" ++ nl)
                (reported
                   (emitted " "
                      (emitted "return"
                         (mkState
                            (insertDestructorsIfNecessary memoryManager (typeHelperState st)
                               (ReturnStatement (Some assignment)) (emitter st))
                            (errors st) (typeHelperState st)))))))
  /\ (forall p st,
        walk p (ParenthesizedExpression assignment) st
        = only ("Non-supported node: "
                ++ SyntaxKindName SyntaxKind.ParenthesizedExpression) st)
  /\ (forall p text initializer statement st,
        walk p (ForOfStatement text initializer assignment statement) st
        = only ("Unsupported type of expression as array in for of: " ++ text) st).
Proof.
  intros Hop assignment reported only.
  assert (Hvisit : forall parentKind st,
             parentKind <> SyntaxKind.ExpressionStatement ->
             walk (Some parentKind) assignment st = Ok (reported st)).
  { intros parentKind st Hparent. now apply assignment_reported. }
  split; [exact Hvisit|]. split; [|split; [|split; [|split]]].
  - intros p thenStatement st.
    change (walk p (IfStatement assignment thenStatement None) st)
      with ((emit "if (" ;;
             walk (Some SyntaxKind.IfStatement) assignment ;;
             emit (")" ++ nl) ;;
             (if SyntaxKind.eqb (kind thenStatement) SyntaxKind.Block
              then skip else increaseIndent) ;;
             walk (Some SyntaxKind.IfStatement) thenStatement ;;
             (if SyntaxKind.eqb (kind thenStatement) SyntaxKind.Block
              then skip else decreaseIndent) ;;
             skip) st).
    erewrite andThen_Ok; [|apply emit_emitted].
    erewrite andThen_Ok; [|apply Hvisit; discriminate].
    erewrite andThen_Ok; [|apply emit_emitted].
    destruct (SyntaxKind.eqb (kind thenStatement) SyntaxKind.Block);
      unfold andThen, skip, increaseIndent, decreaseIndent, onEmitter;
      match goal with
      | |- context [walk ?q thenStatement ?s] => now destruct (walk q thenStatement s)
      end.
  - intros p statement st.
    change (walk p (WhileStatement assignment statement) st)
      with ((emit "while (" ;;
             walk (Some SyntaxKind.WhileStatement) assignment ;;
             emit ")" ;; emit ("{" ++ nl) ;; increaseIndent ;;
             transpileLoopBody typeChecker typeHelper memoryManager printfTranspiler
               SyntaxKindName SyntaxKind.WhileStatement statement ;;
             decreaseIndent ;; emit ("}" ++ nl)) st).
    erewrite andThen_Ok; [|apply emit_emitted].
    erewrite andThen_Ok; [|apply Hvisit; discriminate].
    erewrite andThen_Ok; [|apply emit_emitted].
    erewrite andThen_Ok; [|apply emit_emitted].
    reflexivity.
  - intros p st.
    change (walk p (ReturnStatement (Some assignment)) st)
      with ((insertDestructors memoryManager (ReturnStatement (Some assignment)) ;;
             emit "return" ;;
             (emit " " ;; walk (Some SyntaxKind.ReturnStatement) assignment) ;;
             emit (";" ++ nl)) st).
    erewrite andThen_Ok; [|reflexivity].
    erewrite andThen_Ok; [|apply emit_emitted].
    erewrite andThen_Ok;
      [|erewrite andThen_Ok; [apply Hvisit; discriminate | apply emit_emitted]].
    apply emit_emitted.
  - reflexivity.
  - reflexivity.
Qed.

(** C3 (amended). For a binary [==]: when both operand types are [char *]
    the emitted C is [strcmp(left, right) == 0] and the string header is
    added; otherwise, unless both operand types are [int16_t] (that is, as
    soon as one of them is not), it is the call [js_eq(left, right)] with
    its header; when both are [int16_t] it is [left == right]. *)
Theorem equality_lowering p (leftNode rightNode : node) (text : string) st :
  let operand := walk (Some SyntaxKind.BinaryExpression) in
  let leftType := typeAt (typeHelperState st) leftNode in
  let rightType := typeAt (typeHelperState st) rightNode in
  walk p (BinaryExpression leftNode (mkToken SyntaxKind.EqualsEqualsToken text) rightNode) st
  = if isCharPtr leftType && isCharPtr rightType then
      (emit "strcmp(" ;; operand leftNode ;; emit ", " ;; operand rightNode ;;
       emit ") == 0" ;; emitPredefinedHeader Emitter.stringh) st
    else if isInt16 leftType && isInt16 rightType then
      (operand leftNode ;; emit " == " ;; operand rightNode) st
    else
      (emitPredefinedHeader Emitter.js_eq ;; emit "js_eq(" ;; operand leftNode ;;
       emit ", " ;; operand rightNode ;; emit ")") st.
Proof.
  intros operand leftType rightType. simpl. unfold withTypeHelper.
  fold leftType rightType.
  destruct (isCharPtr leftType && isCharPtr rightType); [reflexivity|].
  destruct (isInt16 leftType), (isInt16 rightType); reflexivity.
Qed.

(** C9. Transpiling a function declaration whose body has no statements
    throws: the kind of the last statement is read where there is none.
    Nothing is returned, neither errors nor C, also by [transpile] on a
    compilation unit that holds such a declaration. *)
Theorem empty_function_body_throws p (name : option string) st (before after : list node) :
  walk p (FunctionDeclaration name (Some [])) st = Throw TypeError
  /\ transpile typeChecker typeHelper memoryManager printfTranspiler SyntaxKindName
       predefinedHeaders
       (SourceFile (before ++ FunctionDeclaration name (Some []) :: after)%list)
     = Throw TypeError.
Proof.
  assert (H : forall q st', walk q (FunctionDeclaration name (Some [])) st' = Throw TypeError)
    by (intros q st'; destruct name; reflexivity).
  split; [apply H|].
  unfold transpile, translate.
  destruct (figureOutVariablesAndTypes typeHelper _ Emitter.empty) as [th0 e0].
  erewrite andThen_Throw; [reflexivity|].
  cbn [transpileNode]. apply forEach_throws. intros st'. apply H.
Qed.

(** C4 (amended). A while and a do-while statement surround the body with
    braces of their own, also when the source body is a single statement
    that is not a block: the opening brace is written right before the
    body and the closing brace right after it.  An if statement writes no
    brace, neither for the then branch nor for the else branch: a branch
    that is not a block is only indented, after the line [if (...)] or the
    line [else]; a branch that is a block is walked as it is, without a
    change of indentation (braces appear around a branch of an if only
    when the branch is a block, which emits them itself). *)
Theorem loop_bodies_braced_if_bodies_not p (expression statement : node) :
  let orElse := fun (elseStatement : option node) st =>
    match elseStatement with
    | None => Ok st
    | Some other =>
        if SyntaxKind.eqb (kind other) SyntaxKind.Block
        then walk (Some SyntaxKind.IfStatement) other (emitted ("else" ++ nl) st)
        else (walk (Some SyntaxKind.IfStatement) other ;; decreaseIndent)
               (indented (emitted ("else" ++ nl) st))
    end in
  (forall st st1 st2,
      walk (Some SyntaxKind.WhileStatement) expression (emitted "while (" st) = Ok st1 ->
      transpileLoopBody typeChecker typeHelper memoryManager printfTranspiler
        SyntaxKindName SyntaxKind.WhileStatement statement
        (indented (emitted ("{" ++ nl) (emitted ")" st1))) = Ok st2 ->
      walk p (WhileStatement expression statement) st
      = Ok (emitted ("}" ++ nl) (dedented st2))
      /\ code (indented (emitted ("{" ++ nl) (emitted ")" st1)))
         = code st1 ++ Emitter.linePrefix (emitter st1) ++ "){" ++ nl
      /\ code (emitted ("}" ++ nl) (dedented st2))
         = code st2 ++ Emitter.linePrefix (emitter (dedented st2)) ++ "}" ++ nl)
  /\
  (forall st st1 st2,
      transpileLoopBody typeChecker typeHelper memoryManager printfTranspiler
        SyntaxKindName SyntaxKind.DoStatement statement
        (indented (emitted ("do {" ++ nl) st)) = Ok st1 ->
      walk (Some SyntaxKind.DoStatement) expression (emitted "} while (" (dedented st1))
      = Ok st2 ->
      walk p (DoStatement statement expression) st = Ok (emitted (");" ++ nl) st2)
      /\ code (indented (emitted ("do {" ++ nl) st))
         = code st ++ Emitter.linePrefix (emitter st) ++ "do {" ++ nl
      /\ code (emitted "} while (" (dedented st1))
         = code st1 ++ Emitter.linePrefix (emitter (dedented st1)) ++ "} while (")
  /\
  (forall (elseStatement : option node) st st1 st2,
      kind statement <> SyntaxKind.Block ->
      walk (Some SyntaxKind.IfStatement) expression (emitted "if (" st) = Ok st1 ->
      walk (Some SyntaxKind.IfStatement) statement (indented (emitted (")" ++ nl) st1))
      = Ok st2 ->
      walk p (IfStatement expression statement elseStatement) st
      = orElse elseStatement (dedented st2)
      /\ code (indented (emitted (")" ++ nl) st1))
         = code st1 ++ Emitter.linePrefix (emitter st1) ++ ")" ++ nl
      /\ code (dedented st2) = code st2
      /\ code (indented (emitted ("else" ++ nl) (dedented st2)))
         = code st2 ++ Emitter.linePrefix (emitter (dedented st2)) ++ "else" ++ nl)
  /\
  (forall (statements : list node) (elseStatement : option node) st st1 st2,
      walk (Some SyntaxKind.IfStatement) expression (emitted "if (" st) = Ok st1 ->
      walk (Some SyntaxKind.IfStatement) (Block statements) (emitted (")" ++ nl) st1)
      = Ok st2 ->
      walk p (IfStatement expression (Block statements) elseStatement) st
      = orElse elseStatement st2
      /\ code (emitted ("else" ++ nl) st2)
         = code st2 ++ Emitter.linePrefix (emitter st2) ++ "else" ++ nl).
Proof.
  intros orElse.
  assert (Helse : forall (elseStatement : option node) st,
             match elseStatement with
             | None => skip
             | Some other =>
                 emit ("else" ++ nl) ;;
                 (if SyntaxKind.eqb (kind other) SyntaxKind.Block
                  then skip else increaseIndent) ;;
                 walk (Some SyntaxKind.IfStatement) other ;;
                 (if SyntaxKind.eqb (kind other) SyntaxKind.Block
                  then skip else decreaseIndent)
             end st = orElse elseStatement st).
  { intros [other|] st; [|reflexivity]. unfold orElse.
    erewrite andThen_Ok; [|apply emit_emitted].
    destruct (SyntaxKind.eqb (kind other) SyntaxKind.Block).
    - unfold andThen, skip.
      now destruct (walk (Some SyntaxKind.IfStatement) other (emitted ("else" ++ nl) st)).
    - reflexivity. }
  split; [|split; [|split]].
  - intros st st1 st2 He Hs. split; [|split].
    + cbn [transpileNode]. unfold andThen at 1. cbn [emit onEmitter].
      fold (emitted "while (" st). unfold andThen at 1. rewrite He.
      unfold andThen at 1 2 3. cbn [emit onEmitter increaseIndent].
      fold (emitted ")" st1). fold (emitted ("{" ++ nl) (emitted ")" st1)).
      fold (indented (emitted ("{" ++ nl) (emitted ")" st1))).
      unfold andThen at 1. unfold transpileLoopBody in Hs. rewrite Hs.
      reflexivity.
    + rewrite code_indented, emitted_emitted by reflexivity. now rewrite code_emitted.
    + now rewrite code_emitted.
  - intros st st1 st2 Hs He. split; [|split].
    + cbn [transpileNode]. unfold andThen at 1 2. cbn [emit onEmitter increaseIndent].
      fold (emitted ("do {" ++ nl) st). fold (indented (emitted ("do {" ++ nl) st)).
      unfold andThen at 1. unfold transpileLoopBody in Hs. rewrite Hs.
      unfold andThen at 1 2. cbn [emit onEmitter decreaseIndent].
      fold (dedented st1). fold (emitted "} while (" (dedented st1)).
      unfold andThen at 1. rewrite He. reflexivity.
    + now rewrite code_indented, code_emitted.
    + now rewrite code_emitted.
  - intros elseStatement st st1 st2 Hk He Hs. split; [|split; [|split]].
    + rewrite <- Helse. cbn [transpileNode]. unfold SyntaxKind.eqb at 1 2.
      destruct (SyntaxKind.eq_dec (kind statement) SyntaxKind.Block); [contradiction|].
      erewrite andThen_Ok; [|apply emit_emitted].
      erewrite andThen_Ok; [|exact He].
      erewrite andThen_Ok; [|apply emit_emitted].
      erewrite andThen_Ok; [|reflexivity].
      erewrite andThen_Ok; [|exact Hs].
      erewrite andThen_Ok; [|reflexivity].
      reflexivity.
    + now rewrite code_indented, code_emitted.
    + reflexivity.
    + now rewrite code_indented, code_emitted.
  - intros statements elseStatement st st1 st2 He Hs. split.
    + rewrite <- Helse.
      change (walk p (IfStatement expression (Block statements) elseStatement) st)
        with ((emit "if (" ;;
               walk (Some SyntaxKind.IfStatement) expression ;;
               emit (")" ++ nl) ;;
               skip ;;
               walk (Some SyntaxKind.IfStatement) (Block statements) ;;
               skip ;;
               match elseStatement with
               | None => skip
               | Some other =>
                   emit ("else" ++ nl) ;;
                   (if SyntaxKind.eqb (kind other) SyntaxKind.Block
                    then skip else increaseIndent) ;;
                   walk (Some SyntaxKind.IfStatement) other ;;
                   (if SyntaxKind.eqb (kind other) SyntaxKind.Block
                    then skip else decreaseIndent)
               end) st).
      erewrite andThen_Ok; [|apply emit_emitted].
      erewrite andThen_Ok; [|exact He].
      erewrite andThen_Ok; [|apply emit_emitted].
      rewrite skip_andThen.
      erewrite andThen_Ok; [|exact Hs].
      now rewrite skip_andThen.
    + now rewrite code_emitted.
Qed.

Lemma forEach_cons (A : Type) (f : A -> Action TH) (x : A) (l : list A) st :
  forEach f (x :: l) st = (f x ;; forEach f l) st.
Proof. reflexivity. Qed.



Lemma In_emitPredefinedHeader (key : Emitter.HeaderKey) (e : Emitter.t) :
  In key (Emitter.headers (Emitter.emitPredefinedHeader key e)).
Proof.
  unfold Emitter.emitPredefinedHeader.
  destruct (existsb (Emitter.HeaderKey_eqb key) (Emitter.headers e)) eqn:E.
  - apply existsb_exists in E. destruct E as [k [Hin Hk]].
    destruct key, k; try discriminate; exact Hin.
  - simpl. apply in_or_app. right. now left.
Qed.

Lemma In_emitPredefinedHeader_other (key other : Emitter.HeaderKey) (e : Emitter.t) :
  In other (Emitter.headers e) ->
  In other (Emitter.headers (Emitter.emitPredefinedHeader key e)).
Proof.
  intros H. unfold Emitter.emitPredefinedHeader.
  destruct (existsb (Emitter.HeaderKey_eqb key) (Emitter.headers e)); [exact H|].
  simpl. apply in_or_app. now left.
Qed.

(** C8. The declaration of a variable that the registry types as a dynamic
    array of capacity [c] (a value that requires allocation) emits, right
    after the prologue declaration, [ARRAY_CREATE(name, max(c * 2, 4), c);]
    and adds the assert and stdlib headers; the MemoryManager's global
    pointer and the assignment of the initializer follow. *)
Theorem dynamic_array_allocation p (name text : string) (initializer : option node)
    (vi : VariableInfo) (element : CType) (c : Z) st st1 :
  let decl := VariableDeclaration name text initializer in
  let create :=
    "ARRAY_CREATE(" ++ vi_name vi ++ ", " ++ ofNumber (Z.max (c * 2) 4) ++ ", "
    ++ ofNumber c ++ ");" ++ nl in
  let allocated :=
    withHeader Emitter.stdlibh (withHeader Emitter.asserth (emitted create st1)) in
  getVariableInfo typeHelper (typeHelperState st) (Identifier name) = Some vi ->
  vi_type vi = Array element c true ->
  requiresAllocation vi = true ->
  declareVariable typeHelper (typeHelperState st) name (Some vi) st = Ok st1 ->
  walk p decl st
  = (insertGlobalPointer memoryManager decl (declaration_pos vi) (vi_name vi ++ ".data") ;;
     transpileInitializer typeChecker typeHelper memoryManager printfTranspiler
       SyntaxKindName name vi initializer) allocated
  /\ code allocated = code st1 ++ Emitter.linePrefix (emitter st1) ++ create
  /\ In Emitter.asserth (Emitter.headers (emitter allocated))
  /\ In Emitter.stdlibh (Emitter.headers (emitter allocated)).
Proof.
  intros decl create allocated Hvi Hty Hreq Hdecl. split; [|split; [|split]].
  - unfold decl. cbn [transpileNode]. unfold withTypeHelper at 1. rewrite Hvi.
    unfold andThen at 1. rewrite Hdecl.
    unfold allocateVariable. rewrite Hreq, Hty.
    rewrite !andThen_assoc. reflexivity.
  - unfold allocated, withHeader, code. cbn [emitter].
    assert (Hh : forall k e, Emitter.transpiledCode (Emitter.emitPredefinedHeader k e)
                             = Emitter.transpiledCode e
                             /\ Emitter.defaultTarget (Emitter.emitPredefinedHeader k e)
                                = Emitter.defaultTarget e).
    { intros k e. unfold Emitter.emitPredefinedHeader.
      now destruct (existsb _ _). }
    rewrite !(proj1 (Hh _ _)), !(proj2 (Hh _ _)).
    apply (code_emitted create st1).
  - unfold allocated, withHeader. cbn [emitter].
    apply In_emitPredefinedHeader_other, In_emitPredefinedHeader.
  - unfold allocated, withHeader. cbn [emitter].
    apply In_emitPredefinedHeader.
Qed.

(** *** Errors are only ever appended *)

Lemma appendsErrors_skip : appendsErrors (@skip TH).
Proof. intros st st' [= <-]. exists []. now rewrite app_nil_r. Qed.

Lemma appendsErrors_throw e : appendsErrors (@throw TH e).
Proof. intros st st' H. discriminate. Qed.

Lemma appendsErrors_andThen (a b : Action TH) :
  appendsErrors a -> appendsErrors b -> appendsErrors (a ;; b).
Proof.
  intros Ha Hb st st'. unfold andThen. destruct (a st) as [st1|] eqn:E; [|discriminate].
  intros H. destruct (Ha _ _ E) as [es1 H1], (Hb _ _ H) as [es2 H2].
  exists (es1 ++ es2)%list. now rewrite H2, H1, app_assoc.
Qed.

Lemma appendsErrors_onEmitter f : appendsErrors (@onEmitter TH f).
Proof. intros st st' [= <-]. exists []. simpl. now rewrite app_nil_r. Qed.

Lemma appendsErrors_addError e : appendsErrors (@addError TH e).
Proof. intros st st' [= <-]. now exists [e]. Qed.

Lemma appendsErrors_withTypeHelper (k : TH -> Action TH) :
  (forall th, appendsErrors (k th)) -> appendsErrors (withTypeHelper k).
Proof. intros H st st'. unfold withTypeHelper. apply H. Qed.

Lemma appendsErrors_forEach (A : Type) (f : A -> Action TH) (l : list A) :
  (forall x, In x l -> appendsErrors (f x)) -> appendsErrors (forEach f l).
Proof.
  induction l as [|x l IH]; intros H; simpl.
  - apply appendsErrors_skip.
  - apply appendsErrors_andThen; [apply H; now left | apply IH; intros y Hy; apply H; now right].
Qed.

Lemma appendsErrors_emitOperatorToken token :
  appendsErrors (emitOperatorToken (TH := TH) token).
Proof.
  intros st st'. unfold emitOperatorToken, convertOperatorToken.
  destruct (tk_kind token); intros [= <-]; simpl;
    solve [ exists []; now rewrite app_nil_r | eexists; reflexivity ].
Qed.

Lemma size_In (x : node) (l : list node) : In x l -> size x <= list_sum (map size l).
Proof.
  induction l as [|y l IH]; intros H; [contradiction|].
  simpl. destruct H as [-> | H]; [lia | apply IH in H; lia].
Qed.

Lemma size_In_snd (q : option string * option node)
    (l : list (option string * option node)) :
  In q l ->
  match snd q with Some x => size x | None => 0 end
  <= list_sum (map (fun q : option string * option node =>
                      match snd q with Some x => size x | None => 0 end) l).
Proof.
  unfold list_sum.
  induction l as [|y l IH]; intros H; [contradiction|].
  cbn [map fold_right]. destruct H as [-> | H]; [lia | apply IH in H; lia].
Qed.

Lemma appendsErrors_arrayLiteral (f : node -> Action TH) (varString : string)
    (l : list node) :
  (forall x, In x l -> appendsErrors (f x)) ->
  forall i, appendsErrors (transpileArrayLiteralAssignmentWith f varString i l).
Proof.
  induction l as [|x l IH]; intros H i; cbn [transpileArrayLiteralAssignmentWith].
  - apply appendsErrors_skip.
  - repeat apply appendsErrors_andThen;
      try apply appendsErrors_onEmitter;
      [apply H; now left | apply IH; intros y Hy; apply H; now right].
Qed.

Lemma appendsErrors_arguments (f : node -> Action TH) (l : list node) :
  (forall x, In x l -> appendsErrors (f x)) ->
  appendsErrors (transpileArgumentsWith f l).
Proof.
  induction l as [|x l IH]; intros H; cbn [transpileArgumentsWith].
  - apply appendsErrors_skip.
  - destruct l as [|y l].
    + apply H. now left.
    + repeat apply appendsErrors_andThen;
        try apply appendsErrors_onEmitter;
        [apply H; now left | apply IH; intros z Hz; apply H; now right].
Qed.

Lemma appendsErrors_forDeclarations
    (walk' : option SyntaxKind.t -> node -> Action TH) (after : Action TH)
    (l : list node) :
  appendsErrors after ->
  (forall x, In x l -> forall q, appendsErrors (walk' q x)) ->
  appendsErrors (transpileForDeclarationsWith typeHelper walk' after l).
Proof.
  intros Hafter. induction l as [|x l IH]; intros H; cbn [transpileForDeclarationsWith].
  - apply appendsErrors_throw.
  - destruct l as [|y l].
    + destruct x; try apply appendsErrors_throw.
      apply appendsErrors_withTypeHelper. intros th.
      destruct (getVariableInfo typeHelper th _) as [info|]; [|apply appendsErrors_throw].
      destruct (requiresAllocation info);
        repeat apply appendsErrors_andThen;
        try apply appendsErrors_onEmitter; try exact Hafter;
        apply H; now left.
    + apply appendsErrors_andThen; [apply H; now left|].
      apply IH. intros z Hz. apply H. now right.
Qed.

Ltac size_solve :=
  repeat match goal with
    | H : In _ _ |- _ => first [apply size_In in H | apply size_In_snd in H]
    end;
  repeat match goal with
    | E : snd ?q = _, H : context [snd ?q] |- _ => rewrite E in H
    end;
  cbn [size snd map list_sum fold_right] in *; lia.

Ltac appends_step IH :=
  lazymatch goal with
  | |- appendsErrors ?a =>
      lazymatch a with
      | skip => apply appendsErrors_skip
      | throw _ => apply appendsErrors_throw
      | onEmitter _ => apply appendsErrors_onEmitter
      | addError _ => apply appendsErrors_addError
      | emitOperatorToken _ => apply appendsErrors_emitOperatorToken
      | andThen _ _ => apply appendsErrors_andThen
      | withTypeHelper _ => apply appendsErrors_withTypeHelper; intro
      | forEach _ _ => apply appendsErrors_forEach; intros ? ?
      | transpileArrayLiteralAssignmentWith _ _ _ _ =>
          apply appendsErrors_arrayLiteral; intros ? ?
      | transpileArgumentsWith _ _ => apply appendsErrors_arguments; intros ? ?
      | transpileForDeclarationsWith _ _ _ _ =>
          apply appendsErrors_forDeclarations; [|intros ? ? ?]
      | transpileNode _ _ _ _ _ _ _ => apply IH; size_solve
      | emit _ => apply appendsErrors_onEmitter
      | emitPredefinedHeader _ => apply appendsErrors_onEmitter
      | increaseIndent => apply appendsErrors_onEmitter
      | decreaseIndent => apply appendsErrors_onEmitter
      | insertDestructors _ _ => unfold insertDestructors
      | insertGlobalPointer _ _ _ _ => unfold insertGlobalPointer
      | insertGCVariables _ _ => unfold insertGCVariables
      | unsupportedNode _ _ => apply appendsErrors_addError
      | declareVariable _ _ _ _ => unfold declareVariable
      | allocateVariable _ _ _ => unfold allocateVariable
      | optional _ _ => unfold optional
      | transpileLoopBodyWith _ _ _ => unfold transpileLoopBodyWith
      | transpileForTailWith _ _ _ _ => unfold transpileForTailWith
      | transpileInitializerWith _ _ _ _ => unfold transpileInitializerWith
      | transpileObjectLiteralAssignmentWith _ _ _ =>
          unfold transpileObjectLiteralAssignmentWith
      | transpileStringExpressionWith _ _ => unfold transpileStringExpressionWith
      | if ?b then _ else _ => destruct b
      | match ?x with _ => _ end => first [is_var x; destruct x | destruct x eqn:?]
      | let _ := _ in _ => cbv zeta
      | ?pf _ => match goal with H : forall n, appendsErrors (pf n) |- _ => apply H end
      end
  end.

Ltac appends IH := repeat appends_step IH.

(** The walker only ever appends to the recorded errors, provided the
    printf sub-transpiler, which is handed [addError], does so. *)
Lemma transpileNode_appendsErrors :
  (forall n, appendsErrors (printfTranspiler n)) ->
  forall n p, appendsErrors (walk p n).
Proof.
  intros Hprintf n.
  assert (H : forall k n, size n < k -> forall p, appendsErrors (walk p n));
    [|apply (H (S (size n))); lia].
  clear n. induction k as [|k IH]; intros n Hn p; [lia|].
  assert (IH' : forall m q, size m < k -> appendsErrors (walk q m))
    by (intros; now apply IH).
  clear IH.
  destruct n; cbn [transpileNode].
  all: try (solve [appends IH']).
  destruct n2; try apply appendsErrors_addError.
  intros st st'.
  destruct (addNewIteratorVariable typeHelper _ (typeHelperState st)) as [it th'].
  intros H.
  match type of H with
  | ?a ?s = Ok _ => assert (Ha : appendsErrors a) by (appends IH')
  end.
  exact (Ha _ _ H).
Qed.

(** A list that is walked to the end was walked to the end of each of
    its prefixes. *)
Lemma forEach_app_Ok (A : Type) (f : A -> Action TH) (before after : list A) st st' :
  forEach f (before ++ after)%list st = Ok st' ->
  exists st1, forEach f before st = Ok st1 /\ forEach f after st1 = Ok st'.
Proof.
  revert st. induction before as [|x before IH]; intros st H.
  - exists st. split; [reflexivity | exact H].
  - cbn [app] in H. rewrite forEach_cons in H |- *. unfold andThen in H |- *.
    destruct (f x st) as [s|e]; [now apply IH | discriminate H].
Qed.

(** C1 (amended). When translation raises no exception, [transpile] returns
    the recorded error messages joined with newlines if at least one error
    was recorded, and the Emitter's [finalize] otherwise; the errors are
    accumulated in the order of the statements: what was recorded after any
    prefix of the statements is the beginning of the final list.  An
    exception raised during translation is not caught: [transpile] raises
    it and returns nothing, whatever was recorded before. *)
Theorem transpile_returns_errors_or_code (sourceFile : node) :
  (forall n, appendsErrors (printfTranspiler n)) ->
  let result :=
    transpile typeChecker typeHelper memoryManager printfTranspiler SyntaxKindName
      predefinedHeaders sourceFile in
  let analysed := figureOutVariablesAndTypes typeHelper sourceFile Emitter.empty in
  let registry := preprocess memoryManager (fst analysed) in
  let start :=
    mkState (insertGCVariablesCreationIfNecessary memoryManager registry None (snd analysed))
      [] registry in
  (forall e,
      translate typeChecker typeHelper memoryManager printfTranspiler SyntaxKindName
        sourceFile = Throw e ->
      result = Throw e)
  /\
  (forall st,
      translate typeChecker typeHelper memoryManager printfTranspiler SyntaxKindName
        sourceFile = Ok st ->
      (errors st <> [] -> result = Ok (join nl (errors st)))
      /\ (errors st = [] -> result = Ok (Emitter.finalize predefinedHeaders (emitter st)))
      /\ (forall before after : list node,
             sourceFile = SourceFile (before ++ after)%list ->
             exists st1 es,
               forEach (walk (Some SyntaxKind.SourceFile)) before start = Ok st1
               /\ errors st = (errors st1 ++ es)%list)).
Proof.
  intros Hprintf result analysed registry start. split.
  - intros e H. unfold result, transpile. now rewrite H.
  - intros st H. split; [|split].
    + unfold result, transpile. rewrite H. destruct (errors st); [congruence | reflexivity].
    + unfold result, transpile. rewrite H. now intros ->.
    + intros before after Hsource.
      assert (Hrun : (walk None sourceFile ;; insertDestructors memoryManager sourceFile)
                       start = Ok st).
      { unfold translate in H. unfold start, registry, analysed.
        now destruct (figureOutVariablesAndTypes typeHelper sourceFile Emitter.empty). }
      rewrite Hsource in Hrun. unfold andThen in Hrun. cbn [transpileNode] in Hrun.
      destruct (forEach (walk (Some SyntaxKind.SourceFile)) (before ++ after)%list start)
        as [st2|] eqn:Hall; [|discriminate Hrun].
      apply forEach_app_Ok in Hall. destruct Hall as (st1 & Hbefore & Hafter).
      assert (Hlater : appendsErrors (forEach (walk (Some SyntaxKind.SourceFile)) after)).
      { apply appendsErrors_forEach. intros x _.
        now apply transpileNode_appendsErrors. }
      destruct (Hlater _ _ Hafter) as [es Hes].
      exists st1, es. split; [exact Hbefore|].
      unfold insertDestructors, withTypeHelper, onEmitter in Hrun.
      injection Hrun as <-. exact Hes.
Qed.

End Claims.

(** ** The properties at work on small programs *)

Section Examples.
Import JsString Demo.

Abbreviation VDL := (Some SyntaxKind.VariableDeclarationList).

Ltac computed := vm_compute; reflexivity.

(** [a.length] on the dynamic array [a] and [f.length] on the fixed array
    [f]. *)
Lemma length_of_array_identifier_witness :
  (inLine "a" = true
   /\ getVariableInfo typeHelper (typeHelperState inBody) (Identifier "a")
      = Some (dynArray "a" 3)
   /\ vi_type (dynArray "a" 3) = Array (Primitive int16_t) 3 true
   /\ run None (PropertyAccessExpression (Identifier "a") "length") inBody
      = emit "a.size" inBody)
  /\
  (inLine "f" = true
   /\ getVariableInfo typeHelper (typeHelperState inBody) (Identifier "f")
      = Some (fixedArray "f" 2)
   /\ vi_type (fixedArray "f" 2) = Array (Primitive int16_t) 2 false
   /\ run None (PropertyAccessExpression (Identifier "f") "length") inBody
      = emit "2" inBody).
Proof.
  assert (Ha : inLine "a" = true) by computed.
  assert (Hf : inLine "f" = true) by computed.
  assert (Hia : getVariableInfo typeHelper (typeHelperState inBody) (Identifier "a")
                = Some (dynArray "a" 3)) by computed.
  assert (Hif : getVariableInfo typeHelper (typeHelperState inBody) (Identifier "f")
                = Some (fixedArray "f" 2)) by computed.
  assert (Hta : vi_type (dynArray "a" 3) = Array (Primitive int16_t) 3 true) by computed.
  assert (Htf : vi_type (fixedArray "f" 2) = Array (Primitive int16_t) 2 false) by computed.
  split.
  - split; [exact Ha | split; [exact Hia | split; [exact Hta|]]].
    exact (length_of_array_identifier typeChecker typeHelper memoryManager
             printfTranspiler SyntaxKindName None "a" inBody Ha Hia Hta).
  - split; [exact Hf | split; [exact Hif | split; [exact Htf|]]].
    exact (length_of_array_identifier typeChecker typeHelper memoryManager
             printfTranspiler SyntaxKindName None "f" inBody Hf Hif Htf).
Defined.

(** C2 as stated fails: the TypeHelper types the field [o.arr] as a
    dynamic array, yet [o.arr.length] is emitted as the field access
    [o->arr->length], which is no text ending in [.size]. *)
Lemma length_of_array_field_not_lowered :
  let x := PropertyAccessExpression (Identifier "o") "arr" in
  getVariableInfo typeHelper (typeHelperState inBody) x = Some (dynArray "o.arr" 3)
  /\ isArrayType (typeOf typeChecker typeHelper (typeHelperState inBody) x) = true
  /\ codeOf (run None (PropertyAccessExpression x "length") inBody)
     = Some "  o->arr->length"
  /\ ~ (exists t, "  o->arr->length" = t ++ ".size").
Proof.
  intros x. split; [computed | split; [computed | split; [computed|]]].
  intros [t Ht].
  pose proof (stripSuffix_append ".size" t) as H. rewrite <- Ht in H.
  vm_compute in H. discriminate H.
Qed.

(** C3 as stated fails: of [n == s] the left operand is an [int16_t], so
    it is not the case that both operands are not [int16_t], and still the
    emitted C is the call of [js_eq], not [n == s]. *)
Lemma equality_of_int_and_string_calls_js_eq :
  let n := Identifier "n" in
  let s := Identifier "s" in
  isInt16 (typeOf typeChecker typeHelper (typeHelperState inBody) n) = true
  /\ isCharPtr (typeOf typeChecker typeHelper (typeHelperState inBody) n) = false
  /\ codeOf (run None (BinaryExpression n equalsEquals s) inBody) = Some "  js_eq(n, s)"
  /\ codeOf (run None (BinaryExpression n equalsEquals s) inBody) <> Some "  n == s".
Proof.
  intros n s. split; [computed | split; [computed | split; [computed|]]].
  vm_compute. discriminate.
Qed.

(** C4 as stated fails: [if (n) x;] is emitted without any brace. *)
Lemma if_body_without_braces :
  let emittedC := "  if (n)" ++ nl ++ "    x;" ++ nl in
  kind (ExpressionStatement (Identifier "x")) <> SyntaxKind.Block
  /\ codeOf (run None (IfStatement (Identifier "n") (ExpressionStatement (Identifier "x")) None)
               inBody)
     = Some emittedC
  /\ includes "{" emittedC = false
  /\ includes "}" emittedC = false.
Proof.
  intros emittedC. split; [discriminate | split; [computed | split; computed]].
Qed.

(** [a["len"]] on the array-typed [a]. *)
Lemma element_access_by_string_literal_witness :
  inLine "a" = true
  /\ (exists vi, getVariableInfo typeHelper (typeHelperState inBody) (Identifier "a") = Some vi
                 /\ isArrayType (vi_type vi) = true)
  /\ run None (ElementAccessExpression (Identifier "a") (StringLiteral "'len'")) inBody
     = emit "a->len" inBody.
Proof.
  assert (Ha : inLine "a" = true) by computed.
  split; [exact Ha | split].
  - exists (dynArray "a" 3). split; computed.
  - exact (element_access_by_string_literal typeChecker typeHelper memoryManager
             printfTranspiler SyntaxKindName None "a" "'len'" inBody Ha).
Defined.

(** [if (o = {a: 1}) x;], [while (o = {a: 1}) x;] and
    [return o = {a: 1};]: the walker visits the assignment. *)
Lemma assignment_inside_expression_witness :
  let x := ExpressionStatement (Identifier "x") in
  let message := "Assignments inside expressions are not yet supported." in
  tk_kind equals = SyntaxKind.EqualsToken
  /\ SyntaxKind.IfStatement <> SyntaxKind.ExpressionStatement
  /\ run (Some SyntaxKind.IfStatement)
       (BinaryExpression (Identifier "o") equals
          (ObjectLiteralExpression [propertyAssignment ("a", NumericLiteral "1")]))
       inBody
     = Ok (mkState (emitter inBody) [message] O)
  /\ errorsOf
       (run None
          (IfStatement
             (BinaryExpression (Identifier "o") equals
                (ObjectLiteralExpression [propertyAssignment ("a", NumericLiteral "1")]))
             x None) inBody)
     = Some [message]
  /\ codeOf
       (run None
          (IfStatement
             (BinaryExpression (Identifier "o") equals
                (ObjectLiteralExpression [propertyAssignment ("a", NumericLiteral "1")]))
             x None) inBody)
     = Some ("  if ()" ++ nl ++ "    x;" ++ nl)
  /\ errorsOf
       (run None
          (WhileStatement
             (BinaryExpression (Identifier "o") equals
                (ObjectLiteralExpression [propertyAssignment ("a", NumericLiteral "1")]))
             x) inBody)
     = Some [message]
  /\ codeOf
       (run None
          (ReturnStatement
             (Some (BinaryExpression (Identifier "o") equals
                      (ObjectLiteralExpression
                         [propertyAssignment ("a", NumericLiteral "1")])))) inBody)
     = Some ("  return ;" ++ nl).
Proof.
  intros x message.
  assert (Hop : tk_kind equals = SyntaxKind.EqualsToken) by computed.
  assert (Hk : SyntaxKind.IfStatement <> SyntaxKind.ExpressionStatement) by discriminate.
  destruct (assignment_inside_expression typeChecker typeHelper memoryManager
              printfTranspiler SyntaxKindName (Identifier "o")
              (ObjectLiteralExpression [propertyAssignment ("a", NumericLiteral "1")])
              equals Hop)
    as (Hvisit & Hif & Hwhile & Hreturn & _).
  split; [exact Hop | split; [exact Hk | split; [exact (Hvisit _ inBody Hk)|]]].
  split; [|split; [|split]].
  - rewrite (Hif None x inBody). computed.
  - rewrite (Hif None x inBody). computed.
  - rewrite (Hwhile None x inBody). computed.
  - rewrite (Hreturn None inBody). computed.
Defined.

(** C5 as stated fails: in [if ((o = {a: 1})) x;] the parent of the
    assignment is a parenthesized expression, and in
    [for (let c of a = f) x;] it is the for-of statement; neither is an
    expression statement, and yet the error for the assignment is not
    recorded: the walker records the error for the enclosing node and does
    not visit the assignment. *)
Lemma assignment_in_parentheses_not_reported :
  let x := ExpressionStatement (Identifier "x") in
  let assignment :=
    BinaryExpression (Identifier "o") equals
      (ObjectLiteralExpression [propertyAssignment ("a", NumericLiteral "1")]) in
  tk_kind equals = SyntaxKind.EqualsToken
  /\ errorsOf (run None (IfStatement (ParenthesizedExpression assignment) x None) inBody)
     = Some ["Non-supported node: ParenthesizedExpression"]
  /\ errorsOf
       (run None
          (ForOfStatement "for (let c of a = f) x;"
             (VariableDeclarationList [VariableDeclaration "c" "c" None])
             (BinaryExpression (Identifier "a") equals (Identifier "f")) x) inBody)
     = Some ["Unsupported type of expression as array in for of: for (let c of a = f) x;"].
Proof.
  intros x assignment. split; [computed | split; computed].
Qed.

(** A compilation unit with two for-in statements, and one without errors. *)
Lemma transpile_returns_errors_or_code_witness :
  let failing := SourceFile [ForInStatement; ForInStatement] in
  let passing := SourceFile [FunctionDeclaration (Some "f") (Some [ReturnStatement None])] in
  (forall n, appendsErrors (printfTranspiler n))
  /\ translate failing
     = Ok (mkState Emitter.empty
             ["For-in statement is not yet supported!";
              "For-in statement is not yet supported!"] O)
  /\ Demo.transpile failing
     = Ok ("For-in statement is not yet supported!" ++ nl
           ++ "For-in statement is not yet supported!")
  /\ (exists st1 es,
        forEach (run (Some SyntaxKind.SourceFile)) [ForInStatement]
          (mkState Emitter.empty [] O) = Ok st1
        /\ ["For-in statement is not yet supported!";
            "For-in statement is not yet supported!"] = (errors st1 ++ es)%list)
  /\ translate passing = Ok (okState (translate passing))
  /\ errors (okState (translate passing)) = []
  /\ Demo.transpile passing
     = Ok ("int16_t f()" ++ nl ++ "{" ++ nl ++ "  return;" ++ nl ++ "}" ++ nl ++ nl).
Proof.
  intros failing passing.
  assert (Hprintf : forall n, appendsErrors (printfTranspiler n)).
  { intros n st st' H. injection H as <-. exists []. symmetry. apply app_nil_r. }
  assert (Hfailing : translate failing
                     = Ok (mkState Emitter.empty
                             ["For-in statement is not yet supported!";
                              "For-in statement is not yet supported!"] O)) by computed.
  assert (Hpassing : translate passing = Ok (okState (translate passing))) by computed.
  assert (Hnone : errors (okState (translate passing)) = []) by computed.
  split; [exact Hprintf | split; [exact Hfailing|]].
  destruct (transpile_returns_errors_or_code typeChecker typeHelper memoryManager
              printfTranspiler SyntaxKindName predefinedHeaders failing Hprintf)
    as [_ Hf].
  destruct (Hf _ Hfailing) as (Herrors & _ & Horder).
  destruct (transpile_returns_errors_or_code typeChecker typeHelper memoryManager
              printfTranspiler SyntaxKindName predefinedHeaders passing Hprintf)
    as [_ Hp].
  destruct (Hp _ Hpassing) as (_ & Hcode & _).
  split; [|split; [|split; [exact Hpassing | split; [exact Hnone|]]]].
  - etransitivity; [apply Herrors; discriminate | computed].
  - exact (Horder [ForInStatement] [ForInStatement] eq_refl).
  - etransitivity; [exact (Hcode Hnone) | computed].
Defined.

(** C1 as stated fails: in [for (k in o) ; function f() {}] the for-in
    statement records an error, then the empty function body raises a
    TypeError, and [transpile] raises it: the recorded error is not
    returned. *)
Lemma recorded_errors_lost_when_translation_throws :
  let unit :=
    SourceFile [ForInStatement; FunctionDeclaration (Some "f") (Some [])] in
  errorsOf (run (Some SyntaxKind.SourceFile) ForInStatement (mkState Emitter.empty [] O))
  = Some ["For-in statement is not yet supported!"]
  /\ translate unit = Throw TypeError
  /\ Demo.transpile unit = Throw TypeError
  /\ Demo.transpile unit <> Ok "For-in statement is not yet supported!".
Proof.
  intros unit. split; [computed | split; [computed | split; [computed|]]].
  vm_compute. discriminate.
Qed.

(** [while (n) x;], [do x; while (n)], [if (n) x;], [if (n) x; else x;]
    and [if (n) { x; } else { x; }] *)
Lemma loop_bodies_braced_if_bodies_not_witness :
  let n := Identifier "n" in
  let x := ExpressionStatement (Identifier "x") in
  let w1 := emitted "n" (emitted "while (" inBody) in
  let w2 := emitted (";" ++ nl)
              (emitted "x" (indented (emitted ("{" ++ nl) (emitted ")" w1)))) in
  let d1 := emitted (";" ++ nl) (emitted "x" (indented (emitted ("do {" ++ nl) inBody))) in
  let d2 := emitted "n" (emitted "} while (" (dedented d1)) in
  let i1 := emitted "n" (emitted "if (" inBody) in
  let i2 := emitted (";" ++ nl) (emitted "x" (indented (emitted (")" ++ nl) i1))) in
  let b2 := okState (run (Some SyntaxKind.IfStatement) (Block [x]) (emitted (")" ++ nl) i1)) in
  (run (Some SyntaxKind.WhileStatement) n (emitted "while (" inBody) = Ok w1
   /\ transpileLoopBody typeChecker typeHelper memoryManager printfTranspiler
        SyntaxKindName SyntaxKind.WhileStatement x
        (indented (emitted ("{" ++ nl) (emitted ")" w1))) = Ok w2
   /\ run None (WhileStatement n x) inBody = Ok (emitted ("}" ++ nl) (dedented w2))
   /\ code (emitted ("}" ++ nl) (dedented w2))
      = "  while (n){" ++ nl ++ "    x;" ++ nl ++ "  }" ++ nl)
  /\
  (transpileLoopBody typeChecker typeHelper memoryManager printfTranspiler
     SyntaxKindName SyntaxKind.DoStatement x
     (indented (emitted ("do {" ++ nl) inBody)) = Ok d1
   /\ run (Some SyntaxKind.DoStatement) n (emitted "} while (" (dedented d1)) = Ok d2
   /\ run None (DoStatement x n) inBody = Ok (emitted (");" ++ nl) d2)
   /\ code (emitted (");" ++ nl) d2)
      = "  do {" ++ nl ++ "    x;" ++ nl ++ "  } while (n);" ++ nl)
  /\
  (kind x <> SyntaxKind.Block
   /\ run (Some SyntaxKind.IfStatement) n (emitted "if (" inBody) = Ok i1
   /\ run (Some SyntaxKind.IfStatement) x (indented (emitted (")" ++ nl) i1)) = Ok i2
   /\ run None (IfStatement n x None) inBody = Ok (dedented i2)
   /\ code (dedented i2) = "  if (n)" ++ nl ++ "    x;" ++ nl
   /\ codeOf (run None (IfStatement n x (Some x)) inBody)
      = Some ("  if (n)" ++ nl ++ "    x;" ++ nl ++ "  else" ++ nl ++ "    x;" ++ nl))
  /\
  (run (Some SyntaxKind.IfStatement) (Block [x]) (emitted (")" ++ nl) i1) = Ok b2
   /\ codeOf (run None (IfStatement n (Block [x]) (Some (Block [x]))) inBody)
      = Some ("  if (n)" ++ nl ++ "  {" ++ nl ++ "    x;" ++ nl ++ "  }" ++ nl
              ++ "  else" ++ nl ++ "  {" ++ nl ++ "    x;" ++ nl ++ "  }" ++ nl)).
Proof.
  intros n x w1 w2 d1 d2 i1 i2 b2.
  assert (Hx : kind x <> SyntaxKind.Block) by discriminate.
  assert (Hw1 : run (Some SyntaxKind.WhileStatement) n (emitted "while (" inBody) = Ok w1)
    by computed.
  assert (Hw2 : transpileLoopBody typeChecker typeHelper memoryManager printfTranspiler
                  SyntaxKindName SyntaxKind.WhileStatement x
                  (indented (emitted ("{" ++ nl) (emitted ")" w1))) = Ok w2) by computed.
  assert (Hd1 : transpileLoopBody typeChecker typeHelper memoryManager printfTranspiler
                  SyntaxKindName SyntaxKind.DoStatement x
                  (indented (emitted ("do {" ++ nl) inBody)) = Ok d1) by computed.
  assert (Hd2 : run (Some SyntaxKind.DoStatement) n (emitted "} while (" (dedented d1))
                = Ok d2) by computed.
  assert (Hi1 : run (Some SyntaxKind.IfStatement) n (emitted "if (" inBody) = Ok i1)
    by computed.
  assert (Hi2 : run (Some SyntaxKind.IfStatement) x (indented (emitted (")" ++ nl) i1))
                = Ok i2) by computed.
  assert (Hb2 : run (Some SyntaxKind.IfStatement) (Block [x]) (emitted (")" ++ nl) i1)
                = Ok b2) by computed.
  destruct (loop_bodies_braced_if_bodies_not typeChecker typeHelper memoryManager
              printfTranspiler SyntaxKindName None n x) as [Hwhile [Hdo [Hif Hblock]]].
  split; [|split; [|split]].
  - split; [exact Hw1 | split; [exact Hw2 | split; [|computed]]].
    exact (proj1 (Hwhile inBody w1 w2 Hw1 Hw2)).
  - split; [exact Hd1 | split; [exact Hd2 | split; [|computed]]].
    exact (proj1 (Hdo inBody d1 d2 Hd1 Hd2)).
  - split; [exact Hx | split; [exact Hi1 | split; [exact Hi2 | split; [|split; [computed|]]]]].
    + exact (proj1 (Hif None inBody i1 i2 Hx Hi1 Hi2)).
    + rewrite (proj1 (Hif (Some x) inBody i1 i2 Hx Hi1 Hi2)). computed.
  - split; [exact Hb2|].
    rewrite (proj1 (Hblock [x] (Some (Block [x])) inBody i1 b2 Hi1 Hb2)). computed.
Defined.

(** [let a] for the dynamic array [a] of capacity 3. *)
Lemma dynamic_array_allocation_witness :
  let decl := VariableDeclaration "a" "a" None in
  let st1 := okState (declareVariable typeHelper O "a" (Some (dynArray "a" 3)) inBody) in
  let allocated :=
    withHeader Emitter.stdlibh
      (withHeader Emitter.asserth (emitted ("ARRAY_CREATE(a, 6, 3);" ++ nl) st1)) in
  getVariableInfo typeHelper (typeHelperState inBody) (Identifier "a")
  = Some (dynArray "a" 3)
  /\ vi_type (dynArray "a" 3) = Array (Primitive int16_t) 3 true
  /\ requiresAllocation (dynArray "a" 3) = true
  /\ declareVariable typeHelper (typeHelperState inBody) "a" (Some (dynArray "a" 3)) inBody
     = Ok st1
  /\ run None decl inBody
     = (insertGlobalPointer memoryManager decl 0 "a.data" ;;
        transpileInitializer typeChecker typeHelper memoryManager printfTranspiler
          SyntaxKindName "a" (dynArray "a" 3) None) allocated
  /\ code allocated = "  ARRAY_CREATE(a, 6, 3);" ++ nl
  /\ prologue allocated = "ARRAY(int16_t) a;" ++ nl
  /\ Emitter.headers (emitter allocated) = [Emitter.asserth; Emitter.stdlibh].
Proof.
  intros decl st1 allocated.
  assert (Hvi : getVariableInfo typeHelper (typeHelperState inBody) (Identifier "a")
                = Some (dynArray "a" 3)) by computed.
  assert (Hty : vi_type (dynArray "a" 3) = Array (Primitive int16_t) 3 true) by computed.
  assert (Hreq : requiresAllocation (dynArray "a" 3) = true) by computed.
  assert (Hdecl : declareVariable typeHelper (typeHelperState inBody) "a"
                    (Some (dynArray "a" 3)) inBody = Ok st1) by computed.
  split; [exact Hvi | split; [exact Hty | split; [exact Hreq | split; [exact Hdecl|]]]].
  split; [|split; [computed | split; computed]].
  etransitivity;
    [exact (proj1 (dynamic_array_allocation typeChecker typeHelper memoryManager
                     printfTranspiler SyntaxKindName None "a" "a" None inBody
                     Hvi Hty Hreq Hdecl))
    | computed].
Defined.


(** C7 fails on the code: [for (let c of s) c;] iterates over the string
    [s], an identifier that names no array.  No error is recorded, and the
    bound of the emitted loop is the text [undefined]. *)
Theorem for_of_over_non_array_reports_no_error :
  let loop :=
    ForOfStatement "for (let c of s) c;"
      (VariableDeclarationList [VariableDeclaration "c" "c" None])
      (Identifier "s") (ExpressionStatement (Identifier "c")) in
  getVariableInfo typeHelper (typeHelperState inBody) (Identifier "s")
  = Some (scalar "s" char_ptr)
  /\ isArrayType (vi_type (scalar "s" char_ptr)) = false
  /\ errorsOf (run None loop inBody) = Some []
  /\ codeOf (run None loop inBody)
     = Some ("  for (iterator_1 = 0; iterator_1 < undefined; iterator_1++)" ++ nl
             ++ "  {" ++ nl
             ++ "    c = s[iterator_1];" ++ nl
             ++ "    c;" ++ nl
             ++ "  }" ++ nl).
Proof.
  intros loop. split; [computed | split; [computed | split; computed]].
Qed.

End Examples.

(** ** String literals (convertString) *)

Section ConvertString.
Import JsString.

Lemma escapeDoubleQuotes_append (a b : string) :
  escapeDoubleQuotes (a ++ b) = escapeDoubleQuotes a ++ escapeDoubleQuotes b.
Proof.
  induction a as [|c a IH]; [reflexivity|]. simpl.
  destruct (Ascii.eqb c "034"); simpl; now rewrite IH.
Qed.

Lemma noEscapedQuote_cons (c : ascii) (s : string) :
  Ascii.eqb c "092" = false -> noEscapedQuote (String c s) = noEscapedQuote s.
Proof. intros H. destruct s; [reflexivity|]. cbn [noEscapedQuote]. now rewrite H. Qed.

Lemma unescapeSingleQuotes_id (s : string) :
  noEscapedQuote s = true -> unescapeSingleQuotes s = s.
Proof.
  induction s as [|c s IH]; [reflexivity|]. intros H.
  assert (Hs : noEscapedQuote s = true).
  { destruct s as [|b s]; [reflexivity|]. cbn [noEscapedQuote] in H.
    apply andb_true_iff in H. destruct s; [reflexivity | apply H]. }
  destruct s as [|b [|q rest]]; [reflexivity | reflexivity |].
  cbn [unescapeSingleQuotes].
  assert (Hbq : Ascii.eqb b "092" && Ascii.eqb q "'" = false).
  { cbn [noEscapedQuote] in Hs. apply andb_true_iff in Hs.
    now apply negb_true_iff. }
  rewrite <- andb_assoc, Hbq, andb_false_r.
  f_equal. apply IH. exact Hs.
Qed.

Lemma noEscapedQuote_escapeDoubleQuotes (s : string) :
  lacks "092" s = true -> noEscapedQuote (escapeDoubleQuotes s) = true.
Proof.
  induction s as [|c s IH]; [reflexivity|]. cbn [lacks escapeDoubleQuotes].
  intros H. apply andb_true_iff in H. destruct H as [Hc Hs].
  apply negb_true_iff in Hc.
  destruct (Ascii.eqb c "034") eqn:E.
  - apply Ascii.eqb_eq in E. subst c.
    change (noEscapedQuote (String "092" (String "034" (escapeDoubleQuotes s))))
      with (negb (Ascii.eqb "092" "092" && Ascii.eqb "034" "'")
            && noEscapedQuote (String "034" (escapeDoubleQuotes s))).
    rewrite noEscapedQuote_cons by reflexivity. now apply IH.
  - rewrite noEscapedQuote_cons by exact Hc. now apply IH.
Qed.

Lemma substring_prefix (a b : string) :
  String.substring 0 (String.length a) (a ++ b) = a.
Proof. induction a as [|c a IH]; simpl; [now destruct b | now rewrite IH]. Qed.

Lemma slice_1_m1_quoted (q : ascii) (body : string) :
  slice_1_m1 (String q (body ++ String q EmptyString)) = body.
Proof.
  unfold slice_1_m1. cbn [String.length String.substring].
  rewrite length_append. cbn [String.length].
  replace (S (String.length body + 1) - 2) with (String.length body) by lia.
  apply substring_prefix.
Qed.

(** X1. A single-quoted string literal whose body has no backslash
    becomes the double-quoted literal with the same body, in which every
    double quote has got a backslash in front. *)
Theorem convertString_single_quoted (body : string) :
  lacks "092" body = true ->
  convertString ("'" ++ body ++ "'") = dquote ++ escapeDoubleQuotes body ++ dquote.
Proof.
  intros H. unfold convertString.
  change (String.prefix "'" ("'" ++ body ++ "'"))
    with (String.prefix EmptyString (body ++ "'")).
  assert (Hp : forall s, String.prefix EmptyString s = true) by (now destruct s).
  rewrite Hp.
  rewrite unescapeSingleQuotes_id.
  - change ("'" ++ body ++ "'") with (String "'" (body ++ "'")).
    change (escapeDoubleQuotes (String "'" (body ++ "'")))
      with (String "'" (escapeDoubleQuotes (body ++ "'"))).
    rewrite escapeDoubleQuotes_append.
    change (escapeDoubleQuotes "'") with (String "'" EmptyString).
    now rewrite slice_1_m1_quoted.
  - apply noEscapedQuote_escapeDoubleQuotes.
    change ("'" ++ body ++ "'") with (String "'" (body ++ "'")).
    cbn [lacks]. change (negb (Ascii.eqb "'" "092")) with true. cbn [andb].
    clear Hp. induction body as [|c body IH]; [reflexivity|].
    cbn [lacks append] in *. apply andb_true_iff in H. destruct H as [Hc Hb].
    rewrite Hc. now apply IH.
Qed.

End ConvertString.

(** ** More of the dispatch table *)

Section Coverage.
Import JsString.

Variables TH tsType : Type.
Variable typeChecker : TypeChecker tsType.
Variable typeHelper : TypeHelper TH tsType.
Variable memoryManager : MemoryManager TH.
Variable printfTranspiler : node -> Action TH.
Variable SyntaxKindName : SyntaxKind.t -> string.
Variable predefinedHeaders : Emitter.HeaderKey -> string.

Abbreviation walk :=
  (transpileNode typeChecker typeHelper memoryManager printfTranspiler SyntaxKindName).

Implicit Types (st : State TH) (p : option SyntaxKind.t).

(** X2. The declaration of a variable that the registry does not know
    throws: the type string falls back to [void *] (line 77 guards the
    missing information), but line 84 reads [varInfo.requiresAllocation]
    unguarded. *)
Theorem unregistered_variable_declaration_throws p (name text : string)
    (initializer : option node) st :
  getVariableInfo typeHelper (typeHelperState st) (Identifier name) = None ->
  walk p (VariableDeclaration name text initializer) st = Throw TypeError.
Proof.
  intros H. cbn [transpileNode]. unfold withTypeHelper. rewrite H. reflexivity.
Qed.

(** X3. A for-of statement whose iterand is not an identifier records the
    error with the text of the statement and does nothing else: nothing is
    emitted and no iterator variable is asked for. *)
Theorem for_of_over_expression_reports_error p (text : string)
    (initializer expression statement : node) st :
  kind expression <> SyntaxKind.Identifier ->
  walk p (ForOfStatement text initializer expression statement) st
  = Ok (mkState (emitter st)
          (errors st
           ++ [("Unsupported type of expression as array in for of: " ++ text)%string])%list
          (typeHelperState st)).
Proof.
  intros H. destruct expression; try reflexivity. now elim H.
Qed.

(** X4. A for-of statement over an identifier that the registry does not
    know throws ([arrayVarInfo.type] at line 203), after the iterator
    variable has been handed out. *)
Theorem for_of_over_unregistered_identifier_throws p (text arrayName : string)
    (initializer statement : node) st (iteratorVarName : string) (th' : TH) :
  addNewIteratorVariable typeHelper
    (ForOfStatement text initializer (Identifier arrayName) statement)
    (typeHelperState st) = (iteratorVarName, th') ->
  getVariableInfo typeHelper th' (Identifier arrayName) = None ->
  walk p (ForOfStatement text initializer (Identifier arrayName) statement) st
  = Throw TypeError.
Proof.
  intros Hit Hvi. cbn [transpileNode]. rewrite Hit, Hvi. reflexivity.
Qed.


Lemma stripSuffix_sound (suf s r : string) :
  stripSuffix suf s = Some r -> s = r ++ suf.
Proof.
  revert r. induction s as [|c s IH]; intros r; rewrite stripSuffix_unfold.
  - destruct (String.eqb EmptyString suf) eqn:E; [|discriminate].
    apply String.eqb_eq in E. intros [= <-]. exact E.
  - destruct (String.eqb (String c s) suf) eqn:E.
    + apply String.eqb_eq in E. intros [= <-]. exact E.
    + destruct (stripSuffix suf s) as [r'|]; [|discriminate].
      intros [= <-]. simpl. f_equal. now apply IH.
Qed.

(** Only a text that ends with a newline loses anything to the stripping
    of line 171. *)
Lemma replaceTrailingSemicolonNewline_inLine (s : string) :
  inLine s = true -> replaceTrailingSemicolonNewline s = s.
Proof.
  intros H. unfold replaceTrailingSemicolonNewline.
  destruct (stripSuffix (";" ++ nl) s) as [r|] eqn:E; [|reflexivity].
  apply stripSuffix_sound in E. subst s. exfalso.
  unfold inLine in H.
  rewrite lastChar_append in H by discriminate. discriminate H.
Qed.

Lemma stripTrailingSemicolon_inLine (text : string) (e : Emitter.t) :
  inLine text = true ->
  Emitter.stripTrailingSemicolon (Emitter.emit text e) = Emitter.emit text e.
Proof.
  intros H. unfold Emitter.stripTrailingSemicolon.
  change (Emitter.defaultTarget (Emitter.emit text e)) with (Emitter.defaultTarget e).
  rewrite emit_buffer.
  rewrite replaceTrailingSemicolonNewline_inLine
    by (rewrite <- append_assoc; now apply inLine_append).
  rewrite <- emit_buffer.
  unfold Emitter.emit, Emitter.setCode. cbn [Emitter.transpiledCode Emitter.headers
    Emitter.defaultTarget Emitter.indent Emitter.once Emitter.outer].
  now rewrite getBuffer_setBuffer, setBuffer_setBuffer.
Qed.

(** X5. A for statement whose initializer is an assignment, as in
    [for (i = 0; ...)], records the error for assignments inside
    expressions (the parent of the assignment is the for statement) and
    leaves the initializer slot of the header empty: after [for (] the
    statement goes on with the semicolon before the condition. *)
Theorem for_assignment_initializer_reports_error p (leftNode rightNode : node)
    (operatorToken : Token) (condition incrementor : option node) (statement : node) st :
  tk_kind operatorToken = SyntaxKind.EqualsToken ->
  walk p (ForStatement (Some (BinaryExpression leftNode operatorToken rightNode))
            condition incrementor statement) st
  = transpileForTail typeChecker typeHelper memoryManager printfTranspiler SyntaxKindName
      condition incrementor statement
      (mkState (Emitter.emit "for (" (emitter st))
         (errors st ++ ["Assignments inside expressions are not yet supported."])%list
         (typeHelperState st)).
Proof.
  intros Hop.
  assert (Hinit := assignment_reported typeChecker typeHelper memoryManager
                     printfTranspiler SyntaxKindName leftNode rightNode operatorToken
                     (emitted "for (" st) Hop
                     (parentKind := SyntaxKind.ForStatement) ltac:(discriminate)).
  change (walk p (ForStatement (Some (BinaryExpression leftNode operatorToken rightNode))
                    condition incrementor statement) st)
    with ((emit "for (" ;;
           walk (Some SyntaxKind.ForStatement)
             (BinaryExpression leftNode operatorToken rightNode) ;;
           onEmitter Emitter.stripTrailingSemicolon ;;
           transpileForTail typeChecker typeHelper memoryManager printfTranspiler
             SyntaxKindName condition incrementor statement) st).
  unfold andThen at 1. rewrite emit_emitted.
  unfold andThen at 1. rewrite Hinit.
  unfold andThen at 1, onEmitter at 1.
  cbn [emitter errors typeHelperState emitted].
  now rewrite stripTrailingSemicolon_inLine.
Qed.



Lemma walk_atom p (n : node) (text : string) st :
  atomText n = Some text -> walk p n st = emit text st.
Proof. destruct n; try discriminate; now intros [= <-]. Qed.

(** X7. A for-of statement over an identifier that the registry types as an
    array declares the iterator handed out by [addNewIteratorVariable] once
    in the prologue and emits the loop
    [for (i = 0; i < size; i++)], where the size is [arr.size] for a dynamic
    array and the capacity otherwise; inside the braces the loop variable is
    declared, then assigned [arr.data[i]] (dynamic) or [arr[i]] (fixed), and
    the body follows. *)
Theorem for_of_over_array p (text declName declText arrayName : string)
    (declInit : option node) (rest : list node) (statement : node)
    (vi : VariableInfo) (element : CType) (capacity : Z) (dynamic : bool)
    (iteratorVarName : string) (th' : TH) st stD stB :
  let decl := VariableDeclaration declName declText declInit in
  let loop :=
    ForOfStatement text (VariableDeclarationList (decl :: rest))
      (Identifier arrayName) statement in
  let arraySize :=
    if isDynamicArray vi then arrayName ++ ".size" else ofNumber capacity in
  let arrayAccess := if isDynamicArray vi then arrayName ++ ".data" else arrayName in
  let declared :=
    mkState (Emitter.emitOnceToBeginningOfFunction
               ("int16_t " ++ iteratorVarName ++ ";" ++ nl) (emitter st))
            (errors st) th' in
  let bodyStart :=
    indented
      (emitted ("{" ++ nl)
         (emitted ("for (" ++ iteratorVarName ++ " = 0; " ++ iteratorVarName ++ " < "
                   ++ arraySize ++ "; " ++ iteratorVarName ++ "++)" ++ nl) declared)) in
  addNewIteratorVariable typeHelper loop (typeHelperState st) = (iteratorVarName, th') ->
  getVariableInfo typeHelper th' (Identifier arrayName) = Some vi ->
  vi_type vi = Array element capacity dynamic ->
  walk (Some SyntaxKind.VariableDeclarationList) decl bodyStart = Ok stD ->
  transpileLoopBody typeChecker typeHelper memoryManager printfTranspiler SyntaxKindName
    SyntaxKind.ForOfStatement statement
    (emitted (declText ++ " = " ++ arrayAccess ++ "[" ++ iteratorVarName ++ "];" ++ nl) stD)
  = Ok stB ->
  walk p loop st = Ok (emitted ("}" ++ nl) (dedented stB)).
Proof.
  intros decl loop arraySize arrayAccess declared bodyStart Hit Hvi Hty Hdecl Hbody.
  change (walk p loop st)
    with (let (iteratorVarName, th') :=
            addNewIteratorVariable typeHelper loop (typeHelperState st) in
          (onEmitter (Emitter.emitOnceToBeginningOfFunction
                        ("int16_t " ++ iteratorVarName ++ ";" ++ nl)) ;;
           match getVariableInfo typeHelper th' (Identifier arrayName) with
           | None => throw TypeError
           | Some arrayVarInfo =>
               let arraySize :=
                 if isDynamicArray arrayVarInfo then arrayName ++ ".size"
                 else capacityString (vi_type arrayVarInfo) in
               let arrayAccess :=
                 if isDynamicArray arrayVarInfo then arrayName ++ ".data"
                 else arrayName in
               emit ("for (" ++ iteratorVarName ++ " = 0; " ++ iteratorVarName ++ " < "
                     ++ arraySize ++ "; " ++ iteratorVarName ++ "++)" ++ nl) ;;
               emit ("{" ++ nl) ;;
               increaseIndent ;;
               walk (Some SyntaxKind.VariableDeclarationList) decl ;;
               emit (declText ++ " = " ++ arrayAccess ++ "[" ++ iteratorVarName
                     ++ "];" ++ nl) ;;
               transpileLoopBody typeChecker typeHelper memoryManager printfTranspiler
                 SyntaxKindName SyntaxKind.ForOfStatement statement ;;
               decreaseIndent ;;
               emit ("}" ++ nl)
           end) (mkState (emitter st) (errors st) th')).
  rewrite Hit, Hvi. cbv zeta. rewrite Hty. cbn [capacityString].
  fold arraySize arrayAccess.
  unfold andThen at 1. cbn [onEmitter emitter errors typeHelperState].
  fold declared.
  unfold andThen at 1. rewrite emit_emitted.
  unfold andThen at 1. rewrite emit_emitted.
  unfold andThen at 1. change (increaseIndent ?s) with (Ok (indented s)).
  fold bodyStart.
  unfold andThen at 1. rewrite Hdecl.
  unfold andThen at 1. rewrite emit_emitted.
  unfold andThen at 1. rewrite Hbody.
  reflexivity.
Qed.


(** Emissions that continue one line are one emission of the joined text. *)
Ltac fuse_emitted :=
  rewrite !emitted_emitted
    by first [ assumption
             | apply inLine_append; first [assumption | reflexivity]
             | reflexivity ];
  rewrite ?append_assoc; reflexivity.

(** X8. [a.pop()] on an identifier that the registry types as an array is
    replaced by [ARRAY_POP(a)], with the array_pop header; on any other
    identifier the call stays a call through a field: [a->pop()]. *)
Theorem array_pop_lowering p (a : string) st :
  inLine a = true ->
  walk p (CallExpression (PropertyAccessExpression (Identifier a) "pop") []) st
  = match getVariableInfo typeHelper (typeHelperState st) (Identifier a) with
    | Some varInfo =>
        if isArrayType (vi_type varInfo)
        then Ok (emitted ("ARRAY_POP(" ++ a ++ ")") (withHeader Emitter.array_pop st))
        else Ok (emitted (a ++ "->pop()") st)
    | None => Ok (emitted (a ++ "->pop()") st)
    end.
Proof.
  intros Ha.
  assert (Hgeneric :
            (walk (Some SyntaxKind.CallExpression)
               (PropertyAccessExpression (Identifier a) "pop") ;;
             emit "(" ;;
             transpileArgumentsWith (walk (Some SyntaxKind.CallExpression)) [] ;;
             emit ")") st
            = Ok (emitted (a ++ "->pop()") st)).
  { transitivity
      (Ok (emitted ")" (emitted "(" (emitted "pop" (emitted "->" (emitted a st))))));
      [reflexivity|].
    f_equal. fuse_emitted. }
  change (walk p (CallExpression (PropertyAccessExpression (Identifier a) "pop") []) st)
    with ((if String.eqb a "console" && false then
             emitPredefinedHeader Emitter.stdioh ;; forEach printfTranspiler []
           else
             withTypeHelper (fun th =>
               match getVariableInfo typeHelper th (Identifier a) with
               | Some varInfo =>
                   if isArrayType (vi_type varInfo) then
                     emitPredefinedHeader Emitter.array_pop ;;
                     emit "ARRAY_POP(" ;; emit a ;; emit ")"
                   else
                     walk (Some SyntaxKind.CallExpression)
                       (PropertyAccessExpression (Identifier a) "pop") ;;
                     emit "(" ;;
                     transpileArgumentsWith (walk (Some SyntaxKind.CallExpression)) [] ;;
                     emit ")"
               | None =>
                   walk (Some SyntaxKind.CallExpression)
                     (PropertyAccessExpression (Identifier a) "pop") ;;
                   emit "(" ;;
                   transpileArgumentsWith (walk (Some SyntaxKind.CallExpression)) [] ;;
                   emit ")"
               end)) st).
  rewrite andb_false_r. unfold withTypeHelper.
  destruct (getVariableInfo typeHelper (typeHelperState st) (Identifier a)) as [varInfo|];
    [|exact Hgeneric].
  destruct (isArrayType (vi_type varInfo)); [|exact Hgeneric].
  transitivity
    (Ok (emitted ")" (emitted a (emitted "ARRAY_POP(" (withHeader Emitter.array_pop st)))));
    [reflexivity|].
  f_equal. fuse_emitted.
Qed.

(** X9. [a.push(x)] with exactly one argument, on an identifier that the
    registry types as an array, is replaced by [ARRAY_PUSH(a,x)], with the
    array header; the argument is transpiled in between. *)
Theorem array_push_lowering p (a : string) (argument : node) (vi : VariableInfo) st :
  inLine a = true ->
  getVariableInfo typeHelper (typeHelperState st) (Identifier a) = Some vi ->
  isArrayType (vi_type vi) = true ->
  walk p (CallExpression (PropertyAccessExpression (Identifier a) "push") [argument]) st
  = (walk (Some SyntaxKind.CallExpression) argument ;; emit ")")
      (emitted ("ARRAY_PUSH(" ++ a ++ ",") (withHeader Emitter.array st)).
Proof.
  intros Ha Hvi Harr.
  change (walk p (CallExpression (PropertyAccessExpression (Identifier a) "push")
                    [argument]) st)
    with ((if String.eqb a "console" && false then
             emitPredefinedHeader Emitter.stdioh ;; forEach printfTranspiler [argument]
           else
             withTypeHelper (fun th =>
               match getVariableInfo typeHelper th (Identifier a) with
               | Some varInfo =>
                   if isArrayType (vi_type varInfo) then
                     emitPredefinedHeader Emitter.array ;;
                     emit "ARRAY_PUSH(" ;; emit a ;; emit "," ;;
                     walk (Some SyntaxKind.CallExpression) argument ;;
                     emit ")"
                   else
                     walk (Some SyntaxKind.CallExpression)
                       (PropertyAccessExpression (Identifier a) "push") ;;
                     emit "(" ;;
                     transpileArgumentsWith (walk (Some SyntaxKind.CallExpression))
                       [argument] ;;
                     emit ")"
               | None =>
                   walk (Some SyntaxKind.CallExpression)
                     (PropertyAccessExpression (Identifier a) "push") ;;
                   emit "(" ;;
                   transpileArgumentsWith (walk (Some SyntaxKind.CallExpression))
                     [argument] ;;
                   emit ")"
               end)) st).
  rewrite andb_false_r. unfold withTypeHelper. rewrite Hvi, Harr.
  transitivity
    ((walk (Some SyntaxKind.CallExpression) argument ;; emit ")")
       (emitted "," (emitted a (emitted "ARRAY_PUSH(" (withHeader Emitter.array st)))));
    [reflexivity|].
  f_equal. fuse_emitted.
Qed.

(** X10. A prefix operator other than [!] (the minus of a negative number,
    for one) is not transpiled: the error is recorded, with the name of the
    kind of the node rather than of the operator, and nothing is emitted,
    the operand neither. *)
Theorem prefix_operator_not_supported p (operator : SyntaxKind.t) (operand : node) st :
  operator <> SyntaxKind.ExclamationToken ->
  walk p (PrefixUnaryExpression operator operand) st
  = Ok (mkState (emitter st)
          (errors st
           ++ [("Non-supported unary operator: "
                ++ SyntaxKindName SyntaxKind.PrefixUnaryExpression)%string])%list
          (typeHelperState st)).
Proof.
  intros H. destruct operator; try reflexivity. now elim H.
Qed.

(** X11. [!s] on an identifier whose type is [char *] is emitted as
    [(!s || !s[0])]: the empty string is falsy. *)
Theorem negation_of_string_identifier p (s : string) st :
  inLine s = true ->
  isCharPtr (typeOf typeChecker typeHelper (typeHelperState st) (Identifier s)) = true ->
  walk p (PrefixUnaryExpression SyntaxKind.ExclamationToken (Identifier s)) st
  = emit ("(!" ++ s ++ " || !" ++ s ++ "[0])") st.
Proof.
  intros Hs Hty. cbn [transpileNode]. unfold withTypeHelper. rewrite Hty.
  rewrite (emit_emitted ("(!" ++ s ++ " || !" ++ s ++ "[0])") st).
  transitivity
    (Ok (emitted "[0])" (emitted s (emitted " || !" (emitted s (emitted "(!" st))))));
    [reflexivity|].
  f_equal. fuse_emitted.
Qed.


(** X12. An element access [a[i]] on an identifier, with an identifier or a
    number as index, is emitted as [a.data[i]] when the registry types [a]
    as a dynamic array, as [a[i]] when it types it as a fixed array, and as
    the call [js_get(a, i)] when it does not know [a] or types it as
    anything else. *)
Theorem element_access_lowering p (a i : string) (index : node) st :
  inLine a = true ->
  inLine i = true ->
  atomText index = Some i ->
  walk p (ElementAccessExpression (Identifier a) index) st
  = emit (match getVariableInfo typeHelper (typeHelperState st) (Identifier a) with
          | Some varInfo =>
              if isArrayType (vi_type varInfo) then
                if isDynamicArray varInfo then a ++ ".data[" ++ i ++ "]"
                else a ++ "[" ++ i ++ "]"
              else "js_get(" ++ a ++ ", " ++ i ++ ")"
          | None => "js_get(" ++ a ++ ", " ++ i ++ ")"
          end) st.
Proof.
  intros Ha Hi Hindex.
  assert (Hget : (emit "js_get(" ;;
                  walk (Some SyntaxKind.ElementAccessExpression) (Identifier a) ;;
                  emit ", " ;;
                  walk (Some SyntaxKind.ElementAccessExpression) index ;;
                  emit ")") st
                 = emit ("js_get(" ++ a ++ ", " ++ i ++ ")") st).
  { destruct index; try discriminate; injection Hindex as ->;
      (transitivity
         (Ok (emitted ")" (emitted i (emitted ", " (emitted a (emitted "js_get(" st))))));
       [reflexivity | rewrite emit_emitted; f_equal; fuse_emitted]). }
  destruct index; try discriminate; injection Hindex as ->;
    cbn [transpileNode]; unfold withTypeHelper;
    (destruct (getVariableInfo typeHelper (typeHelperState st) (Identifier a))
       as [varInfo|]; [|exact Hget]);
    (destruct (isArrayType (vi_type varInfo)); [|exact Hget]);
    rewrite emit_emitted; destruct (isDynamicArray varInfo).
  all: try (transitivity
              (Ok (emitted "]" (emitted i (emitted "[" (emitted ".data" (emitted a st))))));
            [reflexivity | f_equal; fuse_emitted]).
  all: transitivity (Ok (emitted "]" (emitted i (emitted "[" (emitted a st)))));
    [reflexivity | f_equal; fuse_emitted].
Qed.

(** X13. The declaration of a variable that requires allocation and is not
    an array (a struct) emits, right after the prologue declaration, the
    assignment to [name] of a malloc of the size of what it points to, then
    [assert(name != NULL);], and adds the assert and stdlib headers; the MemoryManager's global pointer and the
    assignment of the initializer follow. *)
Theorem struct_allocation p (name text : string) (initializer : option node)
    (vi : VariableInfo) st st1 :
  let decl := VariableDeclaration name text initializer in
  let allocated :=
    withHeader Emitter.stdlibh
      (withHeader Emitter.asserth
         (emitted ("assert(" ++ vi_name vi ++ " != NULL);" ++ nl)
            (emitted (vi_name vi ++ " = malloc(sizeof(*" ++ vi_name vi ++ "));" ++ nl)
               st1))) in
  inLine (vi_name vi) = true ->
  getVariableInfo typeHelper (typeHelperState st) (Identifier name) = Some vi ->
  isArrayType (vi_type vi) = false ->
  requiresAllocation vi = true ->
  declareVariable typeHelper (typeHelperState st) name (Some vi) st = Ok st1 ->
  walk p decl st
  = (insertGlobalPointer memoryManager decl (declaration_pos vi) (vi_name vi) ;;
     transpileInitializer typeChecker typeHelper memoryManager printfTranspiler
       SyntaxKindName name vi initializer) allocated.
Proof.
  intros decl allocated Hname Hvi Hty Hreq Hdecl.
  unfold decl. cbn [transpileNode]. unfold withTypeHelper at 1. rewrite Hvi.
  unfold andThen at 1. rewrite Hdecl.
  unfold allocateVariable. rewrite Hreq.
  assert (Hfuse : emitted ("malloc(sizeof(*" ++ vi_name vi ++ "));" ++ nl)
                    (emitted " = " (emitted (vi_name vi) st1))
                  = emitted (vi_name vi ++ " = malloc(sizeof(*" ++ vi_name vi ++ "));" ++ nl)
                      st1)
    by fuse_emitted.
  destruct (vi_type vi); try discriminate Hty;
    rewrite !andThen_assoc; unfold allocated; rewrite <- Hfuse; reflexivity.
Qed.


Lemma convertOperatorToken_known (token : Token) (o : string) st :
  operatorText (tk_kind token) = Some o ->
  convertOperatorToken token st = (o, st).
Proof.
  unfold operatorText, convertOperatorToken.
  destruct (tk_kind token); try discriminate; now intros [= <-].
Qed.

(** X14. Between two operands that are identifiers or numbers, a binary
    operator of the table other than [==] and [=] is emitted as the text
    [left op right], whatever the types of the operands: [===] is emitted as
    [==] without [strcmp] or [js_eq], also between strings.  No error is
    recorded. *)
Theorem binary_operator_between_atoms p (leftNode rightNode : node)
    (operatorToken : Token) (a o b : string) st :
  atomText leftNode = Some a ->
  atomText rightNode = Some b ->
  inLine a = true ->
  inLine b = true ->
  operatorText (tk_kind operatorToken) = Some o ->
  tk_kind operatorToken <> SyntaxKind.EqualsEqualsToken ->
  tk_kind operatorToken <> SyntaxKind.EqualsToken ->
  walk p (BinaryExpression leftNode operatorToken rightNode) st
  = emit (a ++ o ++ b) st.
Proof.
  intros Hl Hr Ha Hb Ho Hee He.
  assert (Hplain : walk p (BinaryExpression leftNode operatorToken rightNode) st
                   = (walk (Some SyntaxKind.BinaryExpression) leftNode ;;
                      emitOperatorToken operatorToken ;;
                      walk (Some SyntaxKind.BinaryExpression) rightNode) st).
  { cbn [transpileNode]. unfold withTypeHelper.
    destruct operatorToken as [k t]. cbn [tk_kind] in *.
    destruct k; try discriminate Ho; try (now elim Hee); try (now elim He);
      cbn [SyntaxKind.eqb SyntaxKind.eq_dec]; reflexivity. }
  rewrite Hplain. unfold andThen at 1.
  rewrite (walk_atom _ _ _ Hl), emit_emitted.
  unfold andThen at 1. unfold emitOperatorToken.
  rewrite (convertOperatorToken_known _ _ Ho), emit_emitted.
  rewrite (walk_atom _ _ _ Hr), !emit_emitted. f_equal.
  assert (Hio : inLine o = true).
  { unfold operatorText in Ho.
    destruct (tk_kind operatorToken); try discriminate Ho;
      injection Ho as <-; reflexivity. }
  fuse_emitted.
Qed.

(** X15. An assignment of an identifier or a number to an identifier, as a
    statement of its own, is emitted as the line [x = v;]. *)
Theorem assignment_statement p (x v : string) (value : node) (operatorToken : Token) st :
  atomText value = Some v ->
  inLine x = true ->
  inLine v = true ->
  tk_kind operatorToken = SyntaxKind.EqualsToken ->
  walk p (ExpressionStatement (BinaryExpression (Identifier x) operatorToken value)) st
  = emit (x ++ " = " ++ v ++ ";" ++ nl) st.
Proof.
  intros Hv Hx Hiv Hop.
  destruct operatorToken as [k t]. cbn [tk_kind] in Hop. subst k.
  rewrite emit_emitted.
  destruct value; try discriminate Hv; injection Hv as ->;
    (transitivity
       (Ok (emitted (";" ++ nl) (emitted v (emitted " = " (emitted x st)))));
     [reflexivity | f_equal; fuse_emitted]).
Qed.

(** X16. A binary operator that the table does not know (a remainder, for
    one) is reported as an error that quotes its text, and the operands are
    still emitted, with the placeholder [<unsupported operator>] between
    them. *)
Theorem unknown_binary_operator p (leftNode rightNode : node)
    (operatorToken : Token) (a b : string) st :
  atomText leftNode = Some a ->
  atomText rightNode = Some b ->
  inLine a = true ->
  inLine b = true ->
  operatorText (tk_kind operatorToken) = None ->
  walk p (BinaryExpression leftNode operatorToken rightNode) st
  = Ok (mkState (Emitter.emit (a ++ "<unsupported operator>" ++ b) (emitter st))
          (errors st
           ++ [("Unsupported operator: " ++ tk_getText operatorToken)%string])%list
          (typeHelperState st)).
Proof.
  intros Hl Hr Ha Hb Ho.
  assert (Hplain : walk p (BinaryExpression leftNode operatorToken rightNode) st
                   = (walk (Some SyntaxKind.BinaryExpression) leftNode ;;
                      emitOperatorToken operatorToken ;;
                      walk (Some SyntaxKind.BinaryExpression) rightNode) st).
  { cbn [transpileNode]. unfold withTypeHelper.
    destruct operatorToken as [k t]. cbn [tk_kind] in *.
    destruct k; try discriminate Ho;
      cbn [SyntaxKind.eqb SyntaxKind.eq_dec]; reflexivity. }
  rewrite Hplain. unfold andThen at 1.
  rewrite (walk_atom _ _ _ Hl), emit_emitted.
  unfold andThen at 1. unfold emitOperatorToken.
  assert (Hconv : forall s : State TH,
             convertOperatorToken operatorToken s
             = ("<unsupported operator>",
                mkState (emitter s)
                  (errors s ++ [("Unsupported operator: " ++ tk_getText operatorToken)%string])%list
                  (typeHelperState s))).
  { intros s. unfold convertOperatorToken. unfold operatorText in Ho.
    destruct (tk_kind operatorToken); try discriminate Ho; reflexivity. }
  rewrite Hconv, emit_emitted.
  rewrite (walk_atom _ _ _ Hr), emit_emitted. f_equal.
  unfold emitted. cbn [emitter errors typeHelperState]. f_equal.
  rewrite !emit_fuse
    by first [assumption | apply inLine_append; reflexivity | reflexivity].
  now rewrite ?append_assoc.
Qed.


Lemma forEach_reports (statements : list node) (messages : list string) st :
  Forall2 (fun n m => reportedAs SyntaxKindName n = Some m) statements messages ->
  forEach (walk (Some SyntaxKind.SourceFile)) statements st
  = Ok (mkState (emitter st) (errors st ++ messages)%list (typeHelperState st)).
Proof.
  intros H. revert st. induction H as [|n m statements messages Hn _ IH]; intros st.
  - cbn [forEach skip]. rewrite app_nil_r. now destruct st.
  - cbn [forEach]. unfold andThen.
    assert (Hwalk : walk (Some SyntaxKind.SourceFile) n st
                    = Ok (mkState (emitter st) (errors st ++ [m])%list (typeHelperState st))).
    { destruct n; simpl in Hn; try discriminate Hn.
      all: try (injection Hn as <-; reflexivity).
      match type of Hn with
      | (if ?c then _ else _) = _ => destruct c; [discriminate Hn|]
      end.
      injection Hn as <-. reflexivity. }
    rewrite Hwalk, IH. cbn [emitter errors typeHelperState].
    now rewrite <- app_assoc.
Qed.

(** X17. When every statement of a compilation unit is one that the walker
    only reports (a for-in statement, or a node of a kind without a case)
    and there is at least one, [transpile] returns exactly their messages,
    one per line, in the order of the statements. *)
Theorem transpile_reports_every_statement (statements : list node)
    (messages : list string) :
  statements <> [] ->
  Forall2 (fun n m => reportedAs SyntaxKindName n = Some m) statements messages ->
  transpile typeChecker typeHelper memoryManager printfTranspiler SyntaxKindName
    predefinedHeaders (SourceFile statements)
  = Ok (join nl messages).
Proof.
  intros Hne H. unfold transpile, translate.
  destruct (figureOutVariablesAndTypes typeHelper _ Emitter.empty) as [th0 e0].
  unfold andThen. cbn [transpileNode]. rewrite (forEach_reports _ H).
  cbn [insertDestructors withTypeHelper onEmitter errors emitter typeHelperState app].
  destruct H as [|n m statements messages]; [now elim Hne | reflexivity].
Qed.

Lemma arrayLiteral_lines (name : string) (elements : list node) (texts : list string) :
  inLine name = true ->
  Forall2 (fun e t => atomText e = Some t /\ inLine t = true) elements texts ->
  forall i st,
    transpileArrayLiteralAssignmentWith (walk (Some SyntaxKind.ArrayLiteralExpression))
      name i elements st
    = forEach emit (arrayAssignmentLines name i texts) st.
Proof.
  intros Hn H. induction H as [|e t es ts [He Ht] _ IH]; intros i st; [reflexivity|].
  cbn [transpileArrayLiteralAssignmentWith arrayAssignmentLines].
  rewrite forEach_cons.
  transitivity
    (transpileArrayLiteralAssignmentWith (walk (Some SyntaxKind.ArrayLiteralExpression))
       name (i + 1) es
       (emitted (";" ++ nl)
          (emitted t (emitted " = " (emitted ("[" ++ ofNumber i ++ "]") (emitted name st)))))).
  - unfold andThen at 1 2 3. cbn [emit onEmitter].
    fold (emitted name st).
    erewrite andThen_Ok; [reflexivity|].
    exact (eq_trans (walk_atom _ _ _ He) (emit_emitted _ _)).
  - rewrite IH. erewrite andThen_Ok; [|apply emit_emitted]. f_equal.
    assert (Hi : inLine ("[" ++ ofNumber i ++ "]") = true)
      by (do 2 apply inLine_append; reflexivity).
    fuse_emitted.
Qed.

Lemma objectLiteral_lines (name : string) (properties : list (string * node))
    (texts : list (string * string)) :
  Forall2 (fun (q : string * node) (t : string * string) =>
             fst q = fst t /\ atomText (snd q) = Some (snd t)
             /\ inLine (fst t) = true /\ inLine (snd t) = true) properties texts ->
  forall st,
    transpileObjectLiteralAssignmentWith (walk (Some SyntaxKind.PropertyAssignment))
      name (map propertyAssignment properties) st
    = forEach emit (map (propertyAssignmentLine name) texts) st.
Proof.
  unfold transpileObjectLiteralAssignmentWith.
  intros H. induction H as [|q t qs ts (Hname & Hq & Hf & Hs) _ IH]; intros st;
    [reflexivity|].
  cbn [map]. rewrite !forEach_cons.
  transitivity
    (forEach (fun propAssign : option string * option node =>
                emit (name ++ "->") ;;
                match fst propAssign with
                | Some text => emit text
                | None => throw TypeError
                end ;;
                emit " = " ;;
                match snd propAssign with
                | Some initializer =>
                    walk (Some SyntaxKind.PropertyAssignment) initializer
                | None => throw TypeError
                end ;;
                emit (";" ++ nl)) (map propertyAssignment qs)
       (emitted (";" ++ nl)
          (emitted (snd t) (emitted " = " (emitted (fst t) (emitted (name ++ "->") st)))))).
  - unfold propertyAssignment at 1 2. cbn [fst snd].
    rewrite Hname. unfold andThen at 1 2 3 4 5. cbn [emit onEmitter].
    fold (emitted (name ++ "->") st).
    fold (emitted (fst t) (emitted (name ++ "->") st)).
    fold (emitted " = " (emitted (fst t) (emitted (name ++ "->") st))).
    rewrite (walk_atom _ _ _ Hq). reflexivity.
  - rewrite IH. erewrite andThen_Ok; [|apply emit_emitted]. f_equal.
    assert (Ha : inLine (name ++ "->") = true) by (apply inLine_append; reflexivity).
    unfold propertyAssignmentLine. fuse_emitted.
Qed.

(** X18. An assignment of an array literal to a registered variable, as a
    statement of its own, writes one line [name[i] = element;] for each
    element, numbered from 0, and then the line [;] of the expression
    statement. *)
Theorem array_literal_assignment p (leftNode : node) (operatorToken : Token)
    (elements : list node) (texts : list string) (vi : VariableInfo) st :
  tk_kind operatorToken = SyntaxKind.EqualsToken ->
  getVariableInfo typeHelper (typeHelperState st) leftNode = Some vi ->
  inLine (vi_name vi) = true ->
  Forall2 (fun e t => atomText e = Some t /\ inLine t = true) elements texts ->
  walk p (ExpressionStatement
            (BinaryExpression leftNode operatorToken (ArrayLiteralExpression elements))) st
  = (forEach emit (arrayAssignmentLines (vi_name vi) 0 texts) ;; emit (";" ++ nl)) st.
Proof.
  intros Hop Hvi Hn H.
  destruct operatorToken as [k t]. cbn [tk_kind] in Hop. subst k.
  transitivity
    ((transpileArrayLiteralAssignmentWith (walk (Some SyntaxKind.ArrayLiteralExpression))
        (vi_name vi) 0 elements ;; emit (";" ++ nl)) st).
  - cbn [transpileNode]. unfold andThen at 1, withTypeHelper.
    cbn [tk_kind SyntaxKind.eqb andb negb]. rewrite Hvi. reflexivity.
  - unfold andThen. now rewrite arrayLiteral_lines with (texts := texts).
Qed.

(** X19. An assignment of an object literal to a registered variable, as a
    statement of its own, writes one line [name->property = value;] for
    each property, in order, and then the line [;] of the expression
    statement. *)
Theorem object_literal_assignment p (leftNode : node) (operatorToken : Token)
    (properties : list (string * node)) (texts : list (string * string))
    (vi : VariableInfo) st :
  tk_kind operatorToken = SyntaxKind.EqualsToken ->
  getVariableInfo typeHelper (typeHelperState st) leftNode = Some vi ->
  Forall2 (fun (q : string * node) (t : string * string) =>
             fst q = fst t /\ atomText (snd q) = Some (snd t)
             /\ inLine (fst t) = true /\ inLine (snd t) = true) properties texts ->
  walk p (ExpressionStatement
            (BinaryExpression leftNode operatorToken
               (ObjectLiteralExpression (map propertyAssignment properties)))) st
  = (forEach emit (map (propertyAssignmentLine (vi_name vi)) texts) ;;
     emit (";" ++ nl)) st.
Proof.
  intros Hop Hvi H.
  destruct operatorToken as [k t]. cbn [tk_kind] in Hop. subst k.
  transitivity
    ((transpileObjectLiteralAssignmentWith (walk (Some SyntaxKind.PropertyAssignment))
        (vi_name vi) (map propertyAssignment properties) ;; emit (";" ++ nl)) st).
  - cbn [transpileNode]. unfold andThen at 1, withTypeHelper.
    cbn [tk_kind SyntaxKind.eqb andb negb]. rewrite Hvi. reflexivity.
  - unfold andThen. now rewrite objectLiteral_lines with (texts := texts).
Qed.

Lemma arguments_joined (arguments : list node) (texts : list string) st :
  Forall2 (fun e t => atomText e = Some t /\ inLine t = true) arguments texts ->
  forall prefix, inLine prefix = true ->
    transpileArgumentsWith (walk (Some SyntaxKind.CallExpression)) arguments
      (emitted prefix st)
    = Ok (emitted (prefix ++ join ", " texts) st)
    /\ inLine (prefix ++ join ", " texts) = true.
Proof.
  intros H. induction H as [|e t es ts [He Ht] Hrest IH]; intros prefix Hp.
  - cbn [transpileArgumentsWith join String.concat]. now rewrite append_nil_r.
  - destruct Hrest as [|e' t' es' ts' Hfirst Hrest].
    + cbn [transpileArgumentsWith join String.concat].
      rewrite (walk_atom _ _ _ He), emit_emitted, emitted_emitted by assumption.
      split; [reflexivity | now apply inLine_append].
    + assert (Hnext : inLine (prefix ++ t ++ ", ") = true)
        by (rewrite <- append_assoc; now apply inLine_append).
      destruct (IH _ Hnext) as [IHrun IHline].
      change (join ", " (t :: t' :: ts')) with (t ++ ", " ++ join ", " (t' :: ts')).
      rewrite ?append_assoc in IHrun, IHline.
      split; [|exact IHline].
      rewrite <- IHrun.
      change (transpileArgumentsWith (walk (Some SyntaxKind.CallExpression))
                (e :: e' :: es') (emitted prefix st))
        with ((walk (Some SyntaxKind.CallExpression) e ;; emit ", " ;;
               transpileArgumentsWith (walk (Some SyntaxKind.CallExpression)) (e' :: es'))
                (emitted prefix st)).
      erewrite andThen_Ok;
        [|exact (eq_trans (walk_atom _ _ _ He) (emit_emitted _ _))].
      erewrite andThen_Ok; [|apply emit_emitted].
      f_equal. rewrite !emitted_emitted by assumption. reflexivity.
Qed.

(** X20. A call of a function by its name, with identifiers or numbers as
    arguments, is emitted as the name and the arguments between
    parentheses, separated by a comma and a space. *)
Theorem call_by_name p (name : string) (arguments : list node) (texts : list string) st :
  inLine name = true ->
  Forall2 (fun e t => atomText e = Some t /\ inLine t = true) arguments texts ->
  walk p (CallExpression (Identifier name) arguments) st
  = emit (name ++ "(" ++ join ", " texts ++ ")") st.
Proof.
  intros Hname H.
  assert (Hp : inLine (name ++ "(") = true) by (now apply inLine_append).
  destruct (arguments_joined st H _ Hp) as [Hrun Hline].
  transitivity
    ((transpileArgumentsWith (walk (Some SyntaxKind.CallExpression)) arguments ;; emit ")")
       (emitted (name ++ "(") st)).
  - rewrite <- emitted_emitted by assumption. reflexivity.
  - erewrite andThen_Ok; [|exact Hrun].
    rewrite !emit_emitted, emitted_emitted by assumption.
    now rewrite ?append_assoc.
Qed.

(** X21. A return statement with an identifier or a number first hands the
    statement to the MemoryManager for its destructors and then emits the
    line [return value;]. *)
Theorem return_of_atom p (expression : node) (text : string) st :
  atomText expression = Some text ->
  inLine text = true ->
  walk p (ReturnStatement (Some expression)) st
  = emit ("return " ++ text ++ ";" ++ nl)
      (mkState
         (insertDestructorsIfNecessary memoryManager (typeHelperState st)
            (ReturnStatement (Some expression)) (emitter st))
         (errors st) (typeHelperState st)).
Proof.
  intros He Ht.
  rewrite emit_emitted.
  transitivity
    (Ok (emitted (";" ++ nl)
           (emitted text
              (emitted " "
                 (emitted "return"
                    (mkState
                       (insertDestructorsIfNecessary memoryManager (typeHelperState st)
                          (ReturnStatement (Some expression)) (emitter st))
                       (errors st) (typeHelperState st))))))).
  - destruct expression; try discriminate He; injection He as ->; reflexivity.
  - f_equal. fuse_emitted.
Qed.

(** X22. The walker never drops or changes an error that was recorded
    before: whatever node it walks, the errors afterwards are the errors
    before followed by the new ones, provided the printf sub-transpiler
    keeps to that as well. *)
Theorem walk_keeps_recorded_errors p (n : node) st st' :
  (forall m, appendsErrors (printfTranspiler m)) ->
  walk p n st = Ok st' ->
  exists es, errors st' = (errors st ++ es)%list.
Proof.
  intros Hprintf H.
  assert (A : appendsErrors (walk p n)) by (now apply transpileNode_appendsErrors).
  exact (A st st' H).
Qed.

(** X25. An assignment of an object literal to a registered variable
    throws as soon as one of the properties has no initializer (a shorthand
    property as in [{x}], a method, an accessor) or no name (a spread
    element): the loop over the properties reads the text of the name and
    hands the initializer to the walker without looking at either. *)
Theorem property_without_initializer_throws p (leftNode : node) (operatorToken : Token)
    (before after : list (option string * option node))
    (property : option string * option node) (vi : VariableInfo) st :
  tk_kind operatorToken = SyntaxKind.EqualsToken ->
  getVariableInfo typeHelper (typeHelperState st) leftNode = Some vi ->
  fst property = None \/ snd property = None ->
  walk p (ExpressionStatement
            (BinaryExpression leftNode operatorToken
               (ObjectLiteralExpression (before ++ property :: after)%list))) st
  = Throw TypeError.
Proof.
  intros Hop Hvi Hproperty.
  destruct operatorToken as [k t]. cbn [tk_kind] in Hop. subst k.
  transitivity
    ((transpileObjectLiteralAssignmentWith (walk (Some SyntaxKind.PropertyAssignment))
        (vi_name vi) (before ++ property :: after)%list ;; emit (";" ++ nl)) st).
  - cbn [transpileNode]. unfold andThen at 1, withTypeHelper.
    cbn [tk_kind SyntaxKind.eqb andb negb]. rewrite Hvi. reflexivity.
  - apply andThen_Throw. unfold transpileObjectLiteralAssignmentWith.
    apply forEach_throws. intros st'.
    destruct property as [[name|] [initializer|]];
      destruct Hproperty as [H|H]; try discriminate H; reflexivity.
Qed.

(** X26. The declaration of a function without a name (an anonymous
    default export) throws, whatever its body: the text of the name is read
    where there is no name.  So does [transpile] on every compilation unit
    that holds such a declaration among its statements. *)
Theorem anonymous_function_declaration_throws p (body : option (list node)) st
    (before after : list node) :
  walk p (FunctionDeclaration None body) st = Throw TypeError
  /\ transpile typeChecker typeHelper memoryManager printfTranspiler SyntaxKindName
       predefinedHeaders
       (SourceFile (before ++ FunctionDeclaration None body :: after)%list)
     = Throw TypeError.
Proof.
  assert (H : forall q st', walk q (FunctionDeclaration None body) st' = Throw TypeError)
    by reflexivity.
  split; [apply H|].
  unfold transpile, translate.
  destruct (figureOutVariablesAndTypes typeHelper _ Emitter.empty) as [th0 e0].
  erewrite andThen_Throw; [reflexivity|].
  cbn [transpileNode]. apply forEach_throws. intros st'. apply H.
Qed.

End Coverage.

(** ** When the walker raises no exception *)

Section ThrowFree.
Import JsString.

Variables TH tsType : Type.
Variable typeChecker : TypeChecker tsType.
Variable typeHelper : TypeHelper TH tsType.
Variable memoryManager : MemoryManager TH.
Variable printfTranspiler : node -> Action TH.
Variable SyntaxKindName : SyntaxKind.t -> string.
Variable predefinedHeaders : Emitter.HeaderKey -> string.
Variable known : node -> bool.

Hypothesis printf_returns : forall n, returns (printfTranspiler n).
Hypothesis known_registered :
  forall th n, known n = true -> getVariableInfo typeHelper th n <> None.

Abbreviation walk :=
  (transpileNode typeChecker typeHelper memoryManager printfTranspiler SyntaxKindName).

Lemma returns_skip : returns (@skip TH).
Proof. intros st. now exists st. Qed.

Lemma returns_onEmitter f : returns (@onEmitter TH f).
Proof. intros st. eexists. reflexivity. Qed.

Lemma returns_addError e : returns (@addError TH e).
Proof. intros st. eexists. reflexivity. Qed.

Lemma returns_andThen (a b : Action TH) : returns a -> returns b -> returns (a ;; b).
Proof.
  intros Ha Hb st. unfold andThen. destruct (Ha st) as [st1 ->]. apply Hb.
Qed.

Lemma returns_withTypeHelper (k : TH -> Action TH) :
  (forall th, returns (k th)) -> returns (withTypeHelper k).
Proof. intros H st. apply H. Qed.

Lemma returns_forEach (A : Type) (f : A -> Action TH) (l : list A) :
  (forall x, In x l -> returns (f x)) -> returns (forEach f l).
Proof.
  induction l as [|x l IH]; intros H; cbn [forEach].
  - apply returns_skip.
  - apply returns_andThen; [apply H; now left | apply IH; intros y Hy; apply H; now right].
Qed.

Lemma returns_emitOperatorToken token : returns (emitOperatorToken (TH := TH) token).
Proof.
  intros st. unfold emitOperatorToken.
  destruct (convertOperatorToken token st) as [s st1]. eexists. reflexivity.
Qed.

Lemma returns_arrayLiteral (f : node -> Action TH) (varString : string) (l : list node) :
  (forall x, In x l -> returns (f x)) ->
  forall i, returns (transpileArrayLiteralAssignmentWith f varString i l).
Proof.
  induction l as [|x l IH]; intros H i; cbn [transpileArrayLiteralAssignmentWith].
  - apply returns_skip.
  - repeat apply returns_andThen; try apply returns_onEmitter;
      [apply H; now left | apply IH; intros y Hy; apply H; now right].
Qed.

Lemma returns_arguments (f : node -> Action TH) (l : list node) :
  (forall x, In x l -> returns (f x)) -> returns (transpileArgumentsWith f l).
Proof.
  induction l as [|x l IH]; intros H; cbn [transpileArgumentsWith].
  - apply returns_skip.
  - destruct l as [|y l].
    + apply H. now left.
    + repeat apply returns_andThen; try apply returns_onEmitter;
        [apply H; now left | apply IH; intros z Hz; apply H; now right].
Qed.

Lemma lastElement_cons (A : Type) (x y : A) (l : list A) :
  lastElement (x :: y :: l) = lastElement (y :: l).
Proof.
  unfold lastElement. cbn [length].
  replace (S (S (length l)) - 1) with (S (length l)) by lia.
  replace (S (length l) - 1) with (length l) by lia.
  reflexivity.
Qed.

Lemma lastElement_nonempty (A : Type) (x : A) (l : list A) :
  lastElement (x :: l) <> None.
Proof.
  revert x. induction l as [|y l IH]; intros x; [discriminate|].
  rewrite lastElement_cons. apply IH.
Qed.

Lemma returns_forDeclarations
    (walk' : option SyntaxKind.t -> node -> Action TH) (after : Action TH)
    (l : list node) :
  returns after ->
  (forall x, In x l -> returns (walk' (Some SyntaxKind.VariableDeclarationList) x)) ->
  lastIsDeclaration l = true ->
  forallb (throwFree known) l = true ->
  returns (transpileForDeclarationsWith typeHelper walk' after l).
Proof.
  intros Hafter. induction l as [|x l IH]; intros H Hlast Hall; [discriminate Hlast|].
  destruct l as [|y l].
  - cbn [transpileForDeclarationsWith].
    unfold lastIsDeclaration in Hlast. cbn in Hlast.
    destruct x; try discriminate Hlast.
    apply returns_withTypeHelper. intros th.
    cbn [forallb throwFree] in Hall. rewrite andb_true_r in Hall.
    apply andb_true_iff in Hall. destruct Hall as [Hk _].
    destruct (getVariableInfo typeHelper th (Identifier name)) as [info|] eqn:E;
      [|now elim (@known_registered th _ Hk)].
    destruct (requiresAllocation info);
      repeat apply returns_andThen; try apply returns_onEmitter; try exact Hafter;
      apply H; now left.
  - change (transpileForDeclarationsWith typeHelper walk' after (x :: y :: l))
      with (walk' (Some SyntaxKind.VariableDeclarationList) x ;;
            transpileForDeclarationsWith typeHelper walk' after (y :: l)).
    apply returns_andThen; [apply H; now left|].
    apply IH.
    + intros z Hz. apply H. now right.
    + unfold lastIsDeclaration in *. now rewrite lastElement_cons in Hlast.
    + cbn [forallb] in Hall |- *. apply andb_true_iff in Hall. apply Hall.
Qed.

Lemma properties_free (properties : list (option string * option node))
    (q : option string * option node) :
  forallb (fun q : option string * option node =>
             match q with
             | (Some _, Some x) => throwFree known x
             | _ => false
             end) properties = true ->
  In q properties ->
  exists name x, q = (Some name, Some x) /\ throwFree known x = true.
Proof.
  intros Hall Hin.
  pose proof (proj1 (forallb_forall _ properties) Hall q Hin) as H.
  destruct q as [[name|] [x|]]; try discriminate H.
  now exists name, x.
Qed.

Ltac size_bound :=
  repeat match goal with
    | H : In _ _ |- _ => first [apply size_In in H | apply size_In_snd in H]
    end;
  cbn [size snd map list_sum fold_right] in *; lia.

Ltac split_free :=
  cbn [throwFree forallb] in *;
  repeat match goal with
    | H : _ && _ = true |- _ =>
        let H1 := fresh "Hfree" in
        let H2 := fresh "Hfree" in
        apply andb_true_iff in H; destruct H as [H1 H2]
    end.

Ltac rebuild_free :=
  split_free;
  repeat match goal with
    | H : ?b = true |- context [?b] => rewrite H
    end;
  reflexivity.

Ltac free_sub :=
  first
    [ assumption
    | match goal with
      | Hall : forallb _ ?l = true, Hin : In ?x ?l |- _ =>
          exact (proj1 (forallb_forall _ l) Hall x Hin)
      end
    | match goal with
      | Hin : In ?x ?l |- throwFree _ ?x = true =>
          refine (proj1 (forallb_forall _ l) _ x Hin); rebuild_free
      end
    | rebuild_free ].

Ltac returns_step IH :=
  lazymatch goal with
  | |- returns ?a =>
      lazymatch a with
      | skip => apply returns_skip
      | throw _ =>
          exfalso;
          first
            [ discriminate
            | match goal with
              | E : lastElement (_ :: _) = None |- _ =>
                  exact (@lastElement_nonempty _ _ _ E)
              end
            | match goal with
              | E : getVariableInfo _ ?th ?n = None, K : known ?n = true |- _ =>
                  exact (@known_registered th n K E)
              end ]
      | onEmitter _ => apply returns_onEmitter
      | addError _ => apply returns_addError
      | emitOperatorToken _ => apply returns_emitOperatorToken
      | andThen _ _ => apply returns_andThen
      | withTypeHelper _ => apply returns_withTypeHelper; intro
      | forEach _ _ =>
          apply returns_forEach; intros ? ?;
          try match goal with
            | Hall : forallb _ ?l = true, Hin : In ?q ?l |- _ =>
                let name := fresh "name" in
                let x := fresh "x" in
                let E := fresh "E" in
                let F := fresh "Hfree" in
                destruct (properties_free _ _ Hall Hin) as (name & x & E & F);
                subst q; cbn [fst snd]
            end
      | transpileArrayLiteralAssignmentWith _ _ _ _ =>
          apply returns_arrayLiteral; intros ? ?
      | transpileArgumentsWith _ _ => apply returns_arguments; intros ? ?
      | transpileForDeclarationsWith _ _ _ _ =>
          apply returns_forDeclarations; [ | intros ? ? | free_sub | free_sub ]
      | transpileNode _ _ _ _ _ (Some _) _ =>
          repeat match goal with
            | H : In _ [] |- _ => destruct H
            end;
          (apply IH; [size_bound | free_sub])
      | emit _ => apply returns_onEmitter
      | emitPredefinedHeader _ => apply returns_onEmitter
      | increaseIndent => apply returns_onEmitter
      | decreaseIndent => apply returns_onEmitter
      | insertDestructors _ _ => unfold insertDestructors
      | insertGlobalPointer _ _ _ _ => unfold insertGlobalPointer
      | insertGCVariables _ _ => unfold insertGCVariables
      | unsupportedNode _ _ => apply returns_addError
      | declareVariable _ _ _ _ => unfold declareVariable
      | allocateVariable _ _ _ => unfold allocateVariable
      | optional _ _ => unfold optional
      | transpileLoopBodyWith _ _ _ => unfold transpileLoopBodyWith
      | transpileForTailWith _ _ _ _ => unfold transpileForTailWith
      | transpileInitializerWith _ _ _ _ => unfold transpileInitializerWith
      | transpileObjectLiteralAssignmentWith _ _ _ =>
          unfold transpileObjectLiteralAssignmentWith
      | transpileStringExpressionWith _ _ => unfold transpileStringExpressionWith
      | if ?b then _ else _ => destruct b
      | match ?x with _ => _ end =>
          first [ is_var x; destruct x; split_free
                | destruct x eqn:?; split_free ]
      | let _ := _ in _ => cbv zeta
      | printfTranspiler _ => apply printf_returns
      | (fun _ => _) =>
          let st := fresh "st" in
          intros st;
          match goal with
          | |- context [addNewIteratorVariable ?h ?m ?t] =>
              destruct (addNewIteratorVariable h m t)
          end;
          lazymatch goal with
          | |- exists st', ?a ?s = Ok st' =>
              let R := fresh "R" in
              cut (returns a); [intros R; apply R|]
          end
      end
  end.

Ltac returns_all IH := repeat returns_step IH.

Lemma walk_returns_bounded :
  forall k n, size n < k -> throwFree known n = true ->
              forall parent, returns (walk (Some parent) n).
Proof.
  induction k as [|k IH]; intros n Hn Hfree parent; [lia|].
  assert (IH' : forall m q', size m < k -> throwFree known m = true ->
                             returns (walk (Some q') m))
    by (intros; now apply IH).
  clear IH.
  destruct n; cbn [transpileNode]; split_free.
  all: try (solve [returns_all IH']).
  all: try (destruct name as [name|], body as [[|s rest]|]; try discriminate Hfree;
            split_free).
  all: returns_all IH'.
Qed.

(** X23. A node that [throwFree] accepts is walked without an exception
    under any parent and from any state: every variable the walk looks up is
    registered, every function has a name and a body with a statement, a
    [for] over declarations ends in a declaration, a [for ... of] over an
    identifier declares its variable, and every property of an object
    literal has a name and an initializer. *)
Theorem throw_free_walk_returns (n : node) (parent : SyntaxKind.t) :
  throwFree known n = true -> returns (walk (Some parent) n).
Proof.
  intros H.
  exact (@walk_returns_bounded (S (size n)) n (Nat.lt_succ_diag_r _) H parent).
Qed.

(** X24. [transpile] returns a text, the C code or the error messages, for
    every source file whose statements [throwFree] accepts. *)
Theorem throw_free_transpile_returns (statements : list node) :
  forallb (throwFree known) statements = true ->
  exists text,
    transpile typeChecker typeHelper memoryManager printfTranspiler SyntaxKindName
      predefinedHeaders (SourceFile statements) = Ok text.
Proof.
  intros H. unfold transpile, translate.
  destruct (figureOutVariablesAndTypes typeHelper (SourceFile statements) Emitter.empty)
    as [th0 e0].
  cbv zeta.
  assert (R : returns (walk None (SourceFile statements) ;;
                       insertDestructors memoryManager (SourceFile statements))).
  { apply returns_andThen.
    - cbn [transpileNode]. apply returns_forEach. intros x Hx.
      exact (@walk_returns_bounded (S (size x)) x (Nat.lt_succ_diag_r _)
               (proj1 (forallb_forall _ statements) H x Hx) SyntaxKind.SourceFile).
    - unfold insertDestructors. apply returns_withTypeHelper. intros th.
      apply returns_onEmitter. }
  match goal with
  | |- context [(_ ;; _) ?s] => destruct (R s) as [st E]
  end.
  rewrite E. destruct (errors st); eexists; reflexivity.
Qed.

End ThrowFree.

(** ** Instances of the properties above *)

Section CoverageExamples.
Import JsString Demo.

Abbreviation VDL := (Some SyntaxKind.VariableDeclarationList).

Ltac evaluated := vm_compute; reflexivity.

(** [let z], where no [z] is registered. *)
Lemma unregistered_variable_declaration_throws_witness :
  getVariableInfo typeHelper (typeHelperState inBody) (Identifier "z") = None
  /\ run None (VariableDeclaration "z" "z" None) inBody = Throw TypeError.
Proof.
  assert (H : getVariableInfo typeHelper (typeHelperState inBody) (Identifier "z") = None)
    by evaluated.
  split; [exact H|].
  exact (@unregistered_variable_declaration_throws _ _ typeChecker typeHelper memoryManager
           printfTranspiler SyntaxKindName None "z" "z" None inBody H).
Defined.

(** [for (let c of 'ab') c;] *)
Lemma for_of_over_expression_reports_error_witness :
  let text := "for (let c of 'ab') c;" in
  let initializer := VariableDeclarationList [VariableDeclaration "c" "c" None] in
  let statement := ExpressionStatement (Identifier "c") in
  kind (StringLiteral "'ab'") <> SyntaxKind.Identifier
  /\ run None (ForOfStatement text initializer (StringLiteral "'ab'") statement) inBody
     = Ok (mkState (emitter inBody)
             ["Unsupported type of expression as array in for of: for (let c of 'ab') c;"]
             O).
Proof.
  intros text initializer statement.
  assert (H : kind (StringLiteral "'ab'") <> SyntaxKind.Identifier) by discriminate.
  split; [exact H|].
  exact (@for_of_over_expression_reports_error _ _ typeChecker typeHelper memoryManager
           printfTranspiler SyntaxKindName None text initializer (StringLiteral "'ab'")
           statement inBody H).
Defined.

(** [for (let c of z) c;], where no [z] is registered. *)
Lemma for_of_over_unregistered_identifier_throws_witness :
  let text := "for (let c of z) c;" in
  let initializer := VariableDeclarationList [VariableDeclaration "c" "c" None] in
  let statement := ExpressionStatement (Identifier "c") in
  addNewIteratorVariable typeHelper
    (ForOfStatement text initializer (Identifier "z") statement) (typeHelperState inBody)
  = ("iterator_1", 1)
  /\ getVariableInfo typeHelper 1 (Identifier "z") = None
  /\ run None (ForOfStatement text initializer (Identifier "z") statement) inBody
     = Throw TypeError.
Proof.
  intros text initializer statement.
  assert (Hit : addNewIteratorVariable typeHelper
                  (ForOfStatement text initializer (Identifier "z") statement)
                  (typeHelperState inBody) = ("iterator_1", 1)) by evaluated.
  assert (Hz : getVariableInfo typeHelper 1 (Identifier "z") = None) by evaluated.
  split; [exact Hit | split; [exact Hz|]].
  exact (@for_of_over_unregistered_identifier_throws _ _ typeChecker typeHelper
           memoryManager printfTranspiler SyntaxKindName None text "z" initializer
           statement inBody "iterator_1" 1 Hit Hz).
Defined.

(** [for (i = 0; i < n; i++) x;] *)
Lemma for_assignment_initializer_reports_error_witness :
  let condition := Some (BinaryExpression (Identifier "i") lessThan (Identifier "n")) in
  let incrementor := Some (PostfixUnaryExpression (Identifier "i") SyntaxKind.PlusPlusToken) in
  let statement := ExpressionStatement (Identifier "x") in
  let loop :=
    ForStatement (Some (BinaryExpression (Identifier "i") equals (NumericLiteral "0")))
      condition incrementor statement in
  tk_kind equals = SyntaxKind.EqualsToken
  /\ errorsOf (run None loop inBody)
     = Some ["Assignments inside expressions are not yet supported."]
  /\ codeOf (run None loop inBody)
     = Some ("  for (;i < n;i++)" ++ nl ++ "  {" ++ nl ++ "    x;" ++ nl ++ "  }" ++ nl).
Proof.
  intros condition incrementor statement loop.
  assert (H : tk_kind equals = SyntaxKind.EqualsToken) by evaluated.
  split; [exact H|].
  unfold loop.
  rewrite (@for_assignment_initializer_reports_error _ _ typeChecker typeHelper
             memoryManager printfTranspiler SyntaxKindName None (Identifier "i")
             (NumericLiteral "0") equals condition incrementor statement inBody H).
  split; evaluated.
Defined.


(** [for (let x of a) n;] over the dynamic array [a]. *)
Lemma for_of_over_array_witness :
  let decl := VariableDeclaration "x" "x" None in
  let statement := ExpressionStatement (Identifier "n") in
  let loop :=
    ForOfStatement "for (let x of a) n;" (VariableDeclarationList [decl])
      (Identifier "a") statement in
  let declared :=
    mkState (Emitter.emitOnceToBeginningOfFunction ("int16_t iterator_1;" ++ nl)
               (emitter inBody))
            (errors inBody) 1 in
  let bodyStart :=
    indented
      (emitted ("{" ++ nl)
         (emitted ("for (iterator_1 = 0; iterator_1 < a.size; iterator_1++)" ++ nl)
            declared)) in
  let stD := okState (run VDL decl bodyStart) in
  let stB :=
    okState (transpileLoopBody typeChecker typeHelper memoryManager printfTranspiler
               SyntaxKindName SyntaxKind.ForOfStatement statement
               (emitted ("x = a.data[iterator_1];" ++ nl) stD)) in
  addNewIteratorVariable typeHelper loop (typeHelperState inBody) = ("iterator_1", 1)
  /\ getVariableInfo typeHelper 1 (Identifier "a") = Some (dynArray "a" 3)
  /\ vi_type (dynArray "a" 3) = Array (Primitive int16_t) 3 true
  /\ run VDL decl bodyStart = Ok stD
  /\ transpileLoopBody typeChecker typeHelper memoryManager printfTranspiler
       SyntaxKindName SyntaxKind.ForOfStatement statement
       (emitted ("x = a.data[iterator_1];" ++ nl) stD) = Ok stB
  /\ run None loop inBody = Ok (emitted ("}" ++ nl) (dedented stB))
  /\ code (emitted ("}" ++ nl) (dedented stB))
     = "  for (iterator_1 = 0; iterator_1 < a.size; iterator_1++)" ++ nl
       ++ "  {" ++ nl
       ++ "    x = a.data[iterator_1];" ++ nl
       ++ "    n;" ++ nl
       ++ "  }" ++ nl.
Proof.
  intros decl statement loop declared bodyStart stD stB.
  assert (Hit : addNewIteratorVariable typeHelper loop (typeHelperState inBody)
                = ("iterator_1", 1)) by evaluated.
  assert (Ha : getVariableInfo typeHelper 1 (Identifier "a") = Some (dynArray "a" 3))
    by evaluated.
  assert (Hty : vi_type (dynArray "a" 3) = Array (Primitive int16_t) 3 true) by evaluated.
  assert (HD : run VDL decl bodyStart = Ok stD) by evaluated.
  assert (HB : transpileLoopBody typeChecker typeHelper memoryManager printfTranspiler
                 SyntaxKindName SyntaxKind.ForOfStatement statement
                 (emitted ("x = a.data[iterator_1];" ++ nl) stD) = Ok stB) by evaluated.
  split; [exact Hit | split; [exact Ha | split; [exact Hty | split; [exact HD |
    split; [exact HB | split; [|evaluated]]]]]].
  exact (@for_of_over_array _ _ typeChecker typeHelper memoryManager printfTranspiler
           SyntaxKindName None "for (let x of a) n;" "x" "x" "a" None [] statement
           (dynArray "a" 3) (Primitive int16_t) 3 true "iterator_1" 1 inBody stD stB
           Hit Ha Hty HD HB).
Defined.

(** [a.pop()] on the array [a], and [n.pop()] on the number [n]. *)
Lemma array_pop_lowering_witness :
  inLine "a" = true
  /\ inLine "n" = true
  /\ run None (CallExpression (PropertyAccessExpression (Identifier "a") "pop") []) inBody
     = Ok (emitted "ARRAY_POP(a)" (withHeader Emitter.array_pop inBody))
  /\ run None (CallExpression (PropertyAccessExpression (Identifier "n") "pop") []) inBody
     = Ok (emitted "n->pop()" inBody).
Proof.
  assert (Ha : inLine "a" = true) by evaluated.
  assert (Hn : inLine "n" = true) by evaluated.
  split; [exact Ha | split; [exact Hn | split]].
  - etransitivity;
      [exact (@array_pop_lowering _ _ typeChecker typeHelper memoryManager
                printfTranspiler SyntaxKindName None "a" inBody Ha)
      | evaluated].
  - etransitivity;
      [exact (@array_pop_lowering _ _ typeChecker typeHelper memoryManager
                printfTranspiler SyntaxKindName None "n" inBody Hn)
      | evaluated].
Defined.

(** [a.push(n)] on the array [a]. *)
Lemma array_push_lowering_witness :
  inLine "a" = true
  /\ getVariableInfo typeHelper (typeHelperState inBody) (Identifier "a")
     = Some (dynArray "a" 3)
  /\ isArrayType (vi_type (dynArray "a" 3)) = true
  /\ run None (CallExpression (PropertyAccessExpression (Identifier "a") "push")
                 [Identifier "n"]) inBody
     = Ok (emitted "ARRAY_PUSH(a,n)" (withHeader Emitter.array inBody)).
Proof.
  assert (Ha : inLine "a" = true) by evaluated.
  assert (Hvi : getVariableInfo typeHelper (typeHelperState inBody) (Identifier "a")
                = Some (dynArray "a" 3)) by evaluated.
  assert (Harr : isArrayType (vi_type (dynArray "a" 3)) = true) by evaluated.
  split; [exact Ha | split; [exact Hvi | split; [exact Harr|]]].
  etransitivity;
    [exact (@array_push_lowering _ _ typeChecker typeHelper memoryManager
              printfTranspiler SyntaxKindName None "a" (Identifier "n") (dynArray "a" 3)
              inBody Ha Hvi Harr)
    | evaluated].
Defined.

(** [-n] *)
Lemma prefix_operator_not_supported_witness :
  SyntaxKind.MinusToken <> SyntaxKind.ExclamationToken
  /\ run None (PrefixUnaryExpression SyntaxKind.MinusToken (Identifier "n")) inBody
     = Ok (mkState (emitter inBody)
             ["Non-supported unary operator: PrefixUnaryExpression"] O).
Proof.
  assert (H : SyntaxKind.MinusToken <> SyntaxKind.ExclamationToken) by discriminate.
  split; [exact H|].
  exact (@prefix_operator_not_supported _ _ typeChecker typeHelper memoryManager
           printfTranspiler SyntaxKindName None SyntaxKind.MinusToken (Identifier "n")
           inBody H).
Defined.

(** [!s] for the string [s]. *)
Lemma negation_of_string_identifier_witness :
  inLine "s" = true
  /\ isCharPtr (typeOf typeChecker typeHelper (typeHelperState inBody) (Identifier "s"))
     = true
  /\ run None (PrefixUnaryExpression SyntaxKind.ExclamationToken (Identifier "s")) inBody
     = emit "(!s || !s[0])" inBody.
Proof.
  assert (Hs : inLine "s" = true) by evaluated.
  assert (Hty : isCharPtr (typeOf typeChecker typeHelper (typeHelperState inBody)
                             (Identifier "s")) = true) by evaluated.
  split; [exact Hs | split; [exact Hty|]].
  exact (@negation_of_string_identifier _ _ typeChecker typeHelper memoryManager
           printfTranspiler SyntaxKindName None "s" inBody Hs Hty).
Defined.

(** [a[i]] on the dynamic array [a], [f[0]] on the fixed array [f] and
    [n[i]] on the number [n]. *)
Lemma element_access_lowering_witness :
  inLine "a" = true /\ inLine "f" = true /\ inLine "n" = true
  /\ inLine "i" = true /\ inLine "0" = true
  /\ atomText (Identifier "i") = Some "i"
  /\ atomText (NumericLiteral "0") = Some "0"
  /\ run None (ElementAccessExpression (Identifier "a") (Identifier "i")) inBody
     = emit "a.data[i]" inBody
  /\ run None (ElementAccessExpression (Identifier "f") (NumericLiteral "0")) inBody
     = emit "f[0]" inBody
  /\ run None (ElementAccessExpression (Identifier "n") (Identifier "i")) inBody
     = emit "js_get(n, i)" inBody.
Proof.
  assert (Ha : inLine "a" = true) by evaluated.
  assert (Hf : inLine "f" = true) by evaluated.
  assert (Hn : inLine "n" = true) by evaluated.
  assert (Hi : inLine "i" = true) by evaluated.
  assert (H0 : inLine "0" = true) by evaluated.
  assert (Hai : atomText (Identifier "i") = Some "i") by evaluated.
  assert (Ha0 : atomText (NumericLiteral "0") = Some "0") by evaluated.
  split; [exact Ha | split; [exact Hf | split; [exact Hn | split; [exact Hi |
    split; [exact H0 | split; [exact Hai | split; [exact Ha0 | split; [|split]]]]]]]].
  - etransitivity;
      [exact (@element_access_lowering _ _ typeChecker typeHelper memoryManager
                printfTranspiler SyntaxKindName None "a" "i" (Identifier "i") inBody
                Ha Hi Hai)
      | evaluated].
  - etransitivity;
      [exact (@element_access_lowering _ _ typeChecker typeHelper memoryManager
                printfTranspiler SyntaxKindName None "f" "0" (NumericLiteral "0") inBody
                Hf H0 Ha0)
      | evaluated].
  - etransitivity;
      [exact (@element_access_lowering _ _ typeChecker typeHelper memoryManager
                printfTranspiler SyntaxKindName None "n" "i" (Identifier "i") inBody
                Hn Hi Hai)
      | evaluated].
Defined.

(** [let pt] for the object [pt] of the registry of [Shapes]. *)
Lemma struct_allocation_witness :
  let decl := VariableDeclaration "pt" "pt" None in
  let st1 := okState (declareVariable Shapes.helper O "pt" (Some Shapes.point) inBody) in
  let allocated :=
    withHeader Emitter.stdlibh
      (withHeader Emitter.asserth
         (emitted ("assert(pt != NULL);" ++ nl)
            (emitted ("pt = malloc(sizeof(*pt));" ++ nl) st1))) in
  inLine (vi_name Shapes.point) = true
  /\ getVariableInfo Shapes.helper (typeHelperState inBody) (Identifier "pt")
     = Some Shapes.point
  /\ isArrayType (vi_type Shapes.point) = false
  /\ requiresAllocation Shapes.point = true
  /\ declareVariable Shapes.helper (typeHelperState inBody) "pt" (Some Shapes.point)
       inBody = Ok st1
  /\ transpileNode typeChecker Shapes.helper memoryManager printfTranspiler
       SyntaxKindName None decl inBody
     = (insertGlobalPointer memoryManager decl 0 "pt" ;;
        transpileInitializer typeChecker Shapes.helper memoryManager printfTranspiler
          SyntaxKindName "pt" Shapes.point None) allocated
  /\ code allocated
     = "  pt = malloc(sizeof(*pt));" ++ nl ++ "  assert(pt != NULL);" ++ nl
  /\ Emitter.headers (emitter allocated) = [Emitter.asserth; Emitter.stdlibh].
Proof.
  intros decl st1 allocated.
  assert (Hn : inLine (vi_name Shapes.point) = true) by evaluated.
  assert (Hvi : getVariableInfo Shapes.helper (typeHelperState inBody) (Identifier "pt")
                = Some Shapes.point) by evaluated.
  assert (Harr : isArrayType (vi_type Shapes.point) = false) by evaluated.
  assert (Hreq : requiresAllocation Shapes.point = true) by evaluated.
  assert (Hdecl : declareVariable Shapes.helper (typeHelperState inBody) "pt"
                    (Some Shapes.point) inBody = Ok st1) by evaluated.
  split; [exact Hn | split; [exact Hvi | split; [exact Harr | split; [exact Hreq |
    split; [exact Hdecl | split; [|split; evaluated]]]]]].
  etransitivity;
    [exact (@struct_allocation _ _ typeChecker Shapes.helper memoryManager
              printfTranspiler SyntaxKindName None "pt" "pt" None Shapes.point inBody st1
              Hn Hvi Harr Hreq Hdecl)
    | evaluated].
Defined.

(** [n + 1] *)
Lemma binary_operator_between_atoms_witness :
  atomText (Identifier "n") = Some "n"
  /\ atomText (NumericLiteral "1") = Some "1"
  /\ inLine "n" = true
  /\ inLine "1" = true
  /\ operatorText (tk_kind plus) = Some " + "
  /\ tk_kind plus <> SyntaxKind.EqualsEqualsToken
  /\ tk_kind plus <> SyntaxKind.EqualsToken
  /\ run None (BinaryExpression (Identifier "n") plus (NumericLiteral "1")) inBody
     = emit "n + 1" inBody.
Proof.
  assert (Hl : atomText (Identifier "n") = Some "n") by evaluated.
  assert (Hr : atomText (NumericLiteral "1") = Some "1") by evaluated.
  assert (Hn : inLine "n" = true) by evaluated.
  assert (H1 : inLine "1" = true) by evaluated.
  assert (Hop : operatorText (tk_kind plus) = Some " + ") by evaluated.
  assert (Hee : tk_kind plus <> SyntaxKind.EqualsEqualsToken) by discriminate.
  assert (He : tk_kind plus <> SyntaxKind.EqualsToken) by discriminate.
  split; [exact Hl | split; [exact Hr | split; [exact Hn | split; [exact H1 |
    split; [exact Hop | split; [exact Hee | split; [exact He|]]]]]]].
  etransitivity;
    [exact (@binary_operator_between_atoms _ _ typeChecker typeHelper memoryManager
              printfTranspiler SyntaxKindName None (Identifier "n") (NumericLiteral "1")
              plus "n" " + " "1" inBody Hl Hr Hn H1 Hop Hee He)
    | evaluated].
Defined.

(** [x = 1;] *)
Lemma assignment_statement_witness :
  atomText (NumericLiteral "1") = Some "1"
  /\ inLine "x" = true
  /\ inLine "1" = true
  /\ tk_kind equals = SyntaxKind.EqualsToken
  /\ run None (ExpressionStatement
                 (BinaryExpression (Identifier "x") equals (NumericLiteral "1"))) inBody
     = emit ("x = 1;" ++ nl) inBody.
Proof.
  assert (Hv : atomText (NumericLiteral "1") = Some "1") by evaluated.
  assert (Hx : inLine "x" = true) by evaluated.
  assert (H1 : inLine "1" = true) by evaluated.
  assert (Hop : tk_kind equals = SyntaxKind.EqualsToken) by evaluated.
  split; [exact Hv | split; [exact Hx | split; [exact H1 | split; [exact Hop|]]]].
  etransitivity;
    [exact (@assignment_statement _ _ typeChecker typeHelper memoryManager
              printfTranspiler SyntaxKindName None "x" "1" (NumericLiteral "1") equals
              inBody Hv Hx H1 Hop)
    | evaluated].
Defined.

(** [n % 2] *)
Lemma unknown_binary_operator_witness :
  atomText (Identifier "n") = Some "n"
  /\ atomText (NumericLiteral "2") = Some "2"
  /\ inLine "n" = true
  /\ inLine "2" = true
  /\ operatorText (tk_kind Shapes.percent) = None
  /\ run None (BinaryExpression (Identifier "n") Shapes.percent (NumericLiteral "2")) inBody
     = Ok (mkState (Emitter.emit "n<unsupported operator>2" (emitter inBody))
             ["Unsupported operator: %"] O).
Proof.
  assert (Hl : atomText (Identifier "n") = Some "n") by evaluated.
  assert (Hr : atomText (NumericLiteral "2") = Some "2") by evaluated.
  assert (Hn : inLine "n" = true) by evaluated.
  assert (H2 : inLine "2" = true) by evaluated.
  assert (Hop : operatorText (tk_kind Shapes.percent) = None) by evaluated.
  split; [exact Hl | split; [exact Hr | split; [exact Hn | split; [exact H2 |
    split; [exact Hop|]]]]].
  etransitivity;
    [exact (@unknown_binary_operator _ _ typeChecker typeHelper memoryManager
              printfTranspiler SyntaxKindName None (Identifier "n") (NumericLiteral "2")
              Shapes.percent "n" "2" inBody Hl Hr Hn H2 Hop)
    | evaluated].
Defined.

(** The literal ['say "hi"'], with double quotes inside single quotes. *)
Lemma convertString_single_quoted_witness :
  let body := "say " ++ dquote ++ "hi" ++ dquote in
  let backslash := String "092" EmptyString in
  lacks "092" body = true
  /\ convertString ("'" ++ body ++ "'")
     = dquote ++ "say " ++ backslash ++ dquote ++ "hi" ++ backslash ++ dquote ++ dquote.
Proof.
  intros body backslash.
  assert (H : lacks "092" body = true) by evaluated.
  split; [exact H|].
  etransitivity; [exact (@convertString_single_quoted body H) | evaluated].
Defined.

(** A compilation unit of a for-in statement and an object literal. *)
Lemma transpile_reports_every_statement_witness :
  let statements := [ForInStatement; ObjectLiteralExpression []] in
  let messages :=
    ["For-in statement is not yet supported!";
     "Non-supported node: ObjectLiteralExpression"] in
  statements <> []
  /\ Forall2 (fun n m => reportedAs SyntaxKindName n = Some m) statements messages
  /\ Demo.transpile (SourceFile statements)
     = Ok ("For-in statement is not yet supported!" ++ nl
           ++ "Non-supported node: ObjectLiteralExpression").
Proof.
  intros statements messages.
  assert (Hne : statements <> []) by discriminate.
  assert (Hrep : Forall2 (fun n m => reportedAs SyntaxKindName n = Some m)
                   statements messages)
    by (repeat (constructor; [evaluated|]); constructor).
  split; [exact Hne | split; [exact Hrep|]].
  etransitivity;
    [exact (@transpile_reports_every_statement _ _ typeChecker typeHelper memoryManager
              printfTranspiler SyntaxKindName predefinedHeaders statements messages
              Hne Hrep)
    | evaluated].
Defined.

Lemma printfTranspiler_returns : forall n, returns (printfTranspiler n).
Proof. intros n st. exists st. reflexivity. Defined.

Lemma registered_known :
  forall (th : TH) (n : node),
    Shapes.registered n = true -> getVariableInfo typeHelper th n <> None.
Proof.
  intros th n H E. unfold Shapes.registered in H.
  change (getVariableInfo typeHelper th n) with (variableInfo n) in E.
  rewrite E in H. discriminate H.
Defined.

(** [while (n) { let x = 1; for (let i = 0; i < n; i++) a.push(i); }] *)
Lemma throw_free_walk_returns_witness :
  let loop :=
    ForStatement
      (Some (VariableDeclarationList
               [VariableDeclaration "i" "i = 0" (Some (NumericLiteral "0"))]))
      (Some (BinaryExpression (Identifier "i") lessThan (Identifier "n")))
      (Some (PostfixUnaryExpression (Identifier "i") SyntaxKind.PlusPlusToken))
      (ExpressionStatement
         (CallExpression (PropertyAccessExpression (Identifier "a") "push")
            [Identifier "i"])) in
  let program :=
    WhileStatement (Identifier "n")
      (Block [VariableStatement
                [VariableDeclaration "x" "x = 1" (Some (NumericLiteral "1"))];
              loop]) in
  (forall n, returns (printfTranspiler n))
  /\ (forall (th : TH) (n : node),
        Shapes.registered n = true -> getVariableInfo typeHelper th n <> None)
  /\ throwFree Shapes.registered program = true
  /\ returns (run (Some SyntaxKind.SourceFile) program).
Proof.
  intros loop program.
  assert (H : throwFree Shapes.registered program = true) by evaluated.
  split; [exact printfTranspiler_returns | split; [exact registered_known |
    split; [exact H|]]].
  exact (@throw_free_walk_returns _ _ typeChecker typeHelper memoryManager
           printfTranspiler SyntaxKindName Shapes.registered printfTranspiler_returns
           registered_known program SyntaxKind.SourceFile H).
Defined.

(** [function f() { let n = 0; for (let x of a) n = n + x; return n; }],
    which [throwFree] accepts; it does not accept [n = {x};] nor a function
    without a name. *)
Lemma throw_free_transpile_returns_witness :
  let loop :=
    ForOfStatement "for (let x of a) n = n + x;"
      (VariableDeclarationList [VariableDeclaration "x" "x" None])
      (Identifier "a")
      (ExpressionStatement
         (BinaryExpression (Identifier "n") equals
            (BinaryExpression (Identifier "n") plus (Identifier "x")))) in
  let statements :=
    [FunctionDeclaration (Some "f")
       (Some [VariableStatement
                [VariableDeclaration "n" "n = 0" (Some (NumericLiteral "0"))];
              loop;
              ReturnStatement (Some (Identifier "n"))])] in
  (forall n, returns (printfTranspiler n))
  /\ (forall (th : TH) (n : node),
        Shapes.registered n = true -> getVariableInfo typeHelper th n <> None)
  /\ forallb (throwFree Shapes.registered) statements = true
  /\ (exists text, Demo.transpile (SourceFile statements) = Ok text)
  /\ Demo.transpile (SourceFile statements)
     = Ok ("int16_t f()" ++ nl
           ++ "{" ++ nl
           ++ "int16_t n;" ++ nl
           ++ "int16_t iterator_1;" ++ nl
           ++ "int16_t x;" ++ nl
           ++ "  n = 0;" ++ nl
           ++ "  for (iterator_1 = 0; iterator_1 < a.size; iterator_1++)" ++ nl
           ++ "  {" ++ nl
           ++ "    x = a.data[iterator_1];" ++ nl
           ++ "    n = n + x;" ++ nl
           ++ "  }" ++ nl
           ++ "  return n;" ++ nl
           ++ "}" ++ nl ++ nl)
  /\ throwFree Shapes.registered
       (ExpressionStatement
          (BinaryExpression (Identifier "n") equals
             (ObjectLiteralExpression [(Some "x", None)]))) = false
  /\ throwFree Shapes.registered (FunctionDeclaration None (Some [ReturnStatement None]))
     = false.
Proof.
  intros loop statements.
  assert (H : forallb (throwFree Shapes.registered) statements = true) by evaluated.
  split; [exact printfTranspiler_returns | split; [exact registered_known |
    split; [exact H|]]].
  split; [|split; [evaluated | split; evaluated]].
  exact (@throw_free_transpile_returns _ _ typeChecker typeHelper memoryManager
           printfTranspiler SyntaxKindName predefinedHeaders Shapes.registered
           printfTranspiler_returns registered_known statements H).
Defined.

(** [f = [1, n];] for the array [f]. *)
Lemma array_literal_assignment_witness :
  let elements := [NumericLiteral "1"; Identifier "n"] in
  tk_kind equals = SyntaxKind.EqualsToken
  /\ getVariableInfo typeHelper (typeHelperState inBody) (Identifier "f")
     = Some (fixedArray "f" 2)
  /\ inLine (vi_name (fixedArray "f" 2)) = true
  /\ Forall2 (fun e t => atomText e = Some t /\ inLine t = true) elements ["1"; "n"]
  /\ codeOf (run None (ExpressionStatement
                         (BinaryExpression (Identifier "f") equals
                            (ArrayLiteralExpression elements))) inBody)
     = Some ("  f[0] = 1;" ++ nl ++ "  f[1] = n;" ++ nl ++ "  ;" ++ nl).
Proof.
  intros elements.
  assert (Hop : tk_kind equals = SyntaxKind.EqualsToken) by evaluated.
  assert (Hvi : getVariableInfo typeHelper (typeHelperState inBody) (Identifier "f")
                = Some (fixedArray "f" 2)) by evaluated.
  assert (Hn : inLine (vi_name (fixedArray "f" 2)) = true) by evaluated.
  assert (Hel : Forall2 (fun e t => atomText e = Some t /\ inLine t = true)
                  elements ["1"; "n"])
    by (repeat (constructor; [split; evaluated|]); constructor).
  split; [exact Hop | split; [exact Hvi | split; [exact Hn | split; [exact Hel|]]]].
  rewrite (@array_literal_assignment _ _ typeChecker typeHelper memoryManager
             printfTranspiler SyntaxKindName None (Identifier "f") equals elements
             ["1"; "n"] (fixedArray "f" 2) inBody Hop Hvi Hn Hel).
  evaluated.
Defined.

(** [pt = {x: 1, y: n};] for the object [pt] of the registry of [Shapes]. *)
Lemma object_literal_assignment_witness :
  let properties := [("x", NumericLiteral "1"); ("y", Identifier "n")] in
  let texts := [("x", "1"); ("y", "n")] in
  tk_kind equals = SyntaxKind.EqualsToken
  /\ getVariableInfo Shapes.helper (typeHelperState inBody) (Identifier "pt")
     = Some Shapes.point
  /\ Forall2 (fun (q : string * node) (t : string * string) =>
                fst q = fst t /\ atomText (snd q) = Some (snd t)
                /\ inLine (fst t) = true /\ inLine (snd t) = true) properties texts
  /\ codeOf (transpileNode typeChecker Shapes.helper memoryManager printfTranspiler
               SyntaxKindName None
               (ExpressionStatement
                  (BinaryExpression (Identifier "pt") equals
                     (ObjectLiteralExpression (map propertyAssignment properties))))
               inBody)
     = Some ("  pt->x = 1;" ++ nl ++ "  pt->y = n;" ++ nl ++ "  ;" ++ nl).
Proof.
  intros properties texts.
  assert (Hop : tk_kind equals = SyntaxKind.EqualsToken) by evaluated.
  assert (Hvi : getVariableInfo Shapes.helper (typeHelperState inBody)
                  (Identifier "pt") = Some Shapes.point) by evaluated.
  assert (Hprops : Forall2 (fun (q : string * node) (t : string * string) =>
                              fst q = fst t /\ atomText (snd q) = Some (snd t)
                              /\ inLine (fst t) = true /\ inLine (snd t) = true)
                     properties texts)
    by (repeat (constructor; [repeat split; evaluated|]); constructor).
  split; [exact Hop | split; [exact Hvi | split; [exact Hprops|]]].
  rewrite (@object_literal_assignment _ _ typeChecker Shapes.helper memoryManager
             printfTranspiler SyntaxKindName None (Identifier "pt") equals properties
             texts Shapes.point inBody Hop Hvi Hprops).
  evaluated.
Defined.

(** [g(n, 1, x)] and [g()] *)
Lemma call_by_name_witness :
  let arguments := [Identifier "n"; NumericLiteral "1"; Identifier "x"] in
  inLine "g" = true
  /\ Forall2 (fun e t => atomText e = Some t /\ inLine t = true) arguments ["n"; "1"; "x"]
  /\ Forall2 (fun e t => atomText e = Some t /\ inLine t = true) [] []
  /\ run None (CallExpression (Identifier "g") arguments) inBody = emit "g(n, 1, x)" inBody
  /\ run None (CallExpression (Identifier "g") []) inBody = emit "g()" inBody.
Proof.
  intros arguments.
  assert (Hg : inLine "g" = true) by evaluated.
  assert (Hargs : Forall2 (fun e t => atomText e = Some t /\ inLine t = true)
                    arguments ["n"; "1"; "x"])
    by (repeat (constructor; [split; evaluated|]); constructor).
  assert (Hnone : Forall2 (fun e t => atomText e = Some t /\ inLine t = true)
                    (@nil node) (@nil string)) by constructor.
  split; [exact Hg | split; [exact Hargs | split; [exact Hnone | split]]].
  - etransitivity;
      [exact (@call_by_name _ _ typeChecker typeHelper memoryManager printfTranspiler
                SyntaxKindName None "g" arguments ["n"; "1"; "x"] inBody Hg Hargs)
      | evaluated].
  - etransitivity;
      [exact (@call_by_name _ _ typeChecker typeHelper memoryManager printfTranspiler
                SyntaxKindName None "g" [] [] inBody Hg Hnone)
      | evaluated].
Defined.

(** [return n;] *)
Lemma return_of_atom_witness :
  atomText (Identifier "n") = Some "n"
  /\ inLine "n" = true
  /\ run None (ReturnStatement (Some (Identifier "n"))) inBody
     = emit ("return n;" ++ nl) inBody.
Proof.
  assert (Ha : atomText (Identifier "n") = Some "n") by evaluated.
  assert (Hn : inLine "n" = true) by evaluated.
  split; [exact Ha | split; [exact Hn|]].
  etransitivity;
    [exact (@return_of_atom _ _ typeChecker typeHelper memoryManager printfTranspiler
              SyntaxKindName None (Identifier "n") "n" inBody Ha Hn)
    | evaluated].
Defined.

(** A block after an error was recorded. *)
Lemma walk_keeps_recorded_errors_witness :
  let st := mkState (emitter inBody) ["For-in statement is not yet supported!"] O in
  let block := Block [ExpressionStatement (Identifier "x")] in
  let st' := okState (run None block st) in
  (forall m, appendsErrors (printfTranspiler m))
  /\ run None block st = Ok st'
  /\ exists es, errors st' = (errors st ++ es)%list.
Proof.
  intros st block st'.
  assert (Hprintf : forall m, appendsErrors (printfTranspiler m)).
  { intros n s s1 H. injection H as <-. exists []. symmetry. apply app_nil_r. }
  assert (Hrun : run None block st = Ok st') by evaluated.
  split; [exact Hprintf | split; [exact Hrun|]].
  exact (@walk_keeps_recorded_errors _ _ typeChecker typeHelper memoryManager
           printfTranspiler SyntaxKindName None block st st' Hprintf Hrun).
Defined.

(** [pt = {x};] and [pt = {y: 1, ...n};] for the object [pt] of the registry
    of [Shapes]. *)
Lemma property_without_initializer_throws_witness :
  tk_kind equals = SyntaxKind.EqualsToken
  /\ getVariableInfo Shapes.helper (typeHelperState inBody) (Identifier "pt")
     = Some Shapes.point
  /\ transpileNode typeChecker Shapes.helper memoryManager printfTranspiler
       SyntaxKindName None
       (ExpressionStatement
          (BinaryExpression (Identifier "pt") equals
             (ObjectLiteralExpression ([] ++ (Some "x", None) :: [])))) inBody
     = Throw TypeError
  /\ transpileNode typeChecker Shapes.helper memoryManager printfTranspiler
       SyntaxKindName None
       (ExpressionStatement
          (BinaryExpression (Identifier "pt") equals
             (ObjectLiteralExpression
                ([propertyAssignment ("y", NumericLiteral "1")]
                 ++ (None, Some (Identifier "n")) :: [])))) inBody
     = Throw TypeError.
Proof.
  assert (Hop : tk_kind equals = SyntaxKind.EqualsToken) by evaluated.
  assert (Hvi : getVariableInfo Shapes.helper (typeHelperState inBody)
                  (Identifier "pt") = Some Shapes.point) by evaluated.
  split; [exact Hop | split; [exact Hvi | split]].
  - exact (@property_without_initializer_throws _ _ typeChecker Shapes.helper
             memoryManager printfTranspiler SyntaxKindName None (Identifier "pt") equals
             [] [] (Some "x", None) Shapes.point inBody Hop Hvi (or_intror eq_refl)).
  - exact (@property_without_initializer_throws _ _ typeChecker Shapes.helper
             memoryManager printfTranspiler SyntaxKindName None (Identifier "pt") equals
             [propertyAssignment ("y", NumericLiteral "1")] []
             (None, Some (Identifier "n")) Shapes.point inBody Hop Hvi
             (or_introl eq_refl)).
Defined.

End CoverageExamples.
